(** * Generative-AI FAQ chatbot: the retrieval-augmented answer pipeline

    A shallow embedding of [cognitive_search.py], [openai_helper.py],
    [setup_index.py] and the turn handler of [app.py].

    Python values are modelled as follows.
    - [str] is a list of Unicode code points ([pystr]); [str.strip],
      [str.split] and [str.startswith] are written out on that list with
      Python's own notion of whitespace.
    - [float] relevance scores are finite binary floats [(-1)^s * m * 2^e];
      the format specification [.3f] is the correctly rounded (half to even)
      conversion that CPython performs.
    - The [DataFrame] of the seed file is the list of its rows, each with
      the label pandas gave it and its cells by column name; a cell is a
      [str], NaN, or a value of another type.
    - A raised [Exception] is a value [Raises e] of [outcome]; a
      [try/except Exception] block is [try_except].
    - The two remote services, the clock, the JSON decoder and the iteration
      order of a [set] are parameters of the development: every theorem
      holds for all of them. *)

From Stdlib Require Import ZArith NArith List String Ascii Bool Lia.
From Stdlib Require Import DecimalPos DecimalN.
From stdpp Require Import gmap list fin_maps fin_sets.

Local Open Scope N_scope.

(** ** Python strings *)

Module PyStr.

(** A Python [str]: its code points in order. *)
Definition pystr : Type := list N.

(** An ASCII literal as a [pystr]. *)
Definition lit (s : string) : pystr :=
  map N_of_ascii (list_ascii_of_string s).

Definition nl : pystr := [10].
Definition dquote : pystr := [34].

(** ["..."] inside a Python literal. *)
Definition quoted (s : pystr) : pystr := dquote ++ s ++ dquote.

(** [str.isspace] on one code point (CPython's [_PyUnicode_IsWhitespace]):
    U+0009..U+000D, U+001C..U+0020, U+0085, U+00A0, U+1680, U+2000..U+200A,
    U+2028, U+2029, U+202F, U+205F, U+3000. *)
Definition isspace (c : N) : bool :=
  ((9 <=? c) && (c <=? 13)) || ((28 <=? c) && (c <=? 32))
  || (c =? 133) || (c =? 160) || (c =? 5760)
  || ((8192 <=? c) && (c <=? 8202))
  || (c =? 8232) || (c =? 8233) || (c =? 8239) || (c =? 8287) || (c =? 12288).

(** [s.lstrip()] *)
Fixpoint lstrip (s : pystr) : pystr :=
  match s with
  | [] => []
  | c :: s' => if isspace c then lstrip s' else s
  end.

(** [s.rstrip()] *)
Definition rstrip (s : pystr) : pystr := rev (lstrip (rev s)).

(** [s.strip()] *)
Definition strip (s : pystr) : pystr := rstrip (lstrip s).

(** Truth value of a [str]: non-empty. *)
Definition truthy (s : pystr) : bool :=
  match s with [] => false | _ :: _ => true end.

(** [s.split(sep)] for a one-character separator: cut at every occurrence,
    empty pieces kept, so there is always at least one piece. *)
Fixpoint split_on (sep : N) (s : pystr) : list pystr :=
  match s with
  | [] => [[]]
  | c :: s' =>
      if c =? sep then [] :: split_on sep s'
      else match split_on sep s' with
           | [] => [[c]]
           | w :: ws => (c :: w) :: ws
           end
  end.

(** [s.split()] with no argument: maximal runs of non-whitespace. [cur] is
    the word being read, in reverse. *)
Fixpoint split_ws_aux (cur : pystr) (s : pystr) : list pystr :=
  match s with
  | [] => match cur with [] => [] | _ => [rev cur] end
  | c :: s' =>
      if isspace c then
        match cur with
        | [] => split_ws_aux [] s'
        | _ => rev cur :: split_ws_aux [] s'
        end
      else split_ws_aux (c :: cur) s'
  end.

Definition split_ws (s : pystr) : list pystr := split_ws_aux [] s.

(** [sep.join(parts)] *)
Fixpoint join (sep : pystr) (parts : list pystr) : pystr :=
  match parts with
  | [] => []
  | [p] => p
  | p :: ps => p ++ sep ++ join sep ps
  end.

(** [s.startswith(prefix)] *)
Fixpoint startswith (s prefix : pystr) : bool :=
  match prefix, s with
  | [], _ => true
  | _ :: _, [] => false
  | p :: prefix', c :: s' => (c =? p) && startswith s' prefix'
  end.

(** [s.startswith((p1, p2, ...))] *)
Definition startswith_any (s : pystr) (prefixes : list pystr) : bool :=
  existsb (startswith s) prefixes.

(** Decimal digits. *)
Definition digit_char (d : N) : N := 48 + d.
Definition is_digit (c : N) : bool := (48 <=? c) && (c <=? 57).

Fixpoint uint_chars (u : Decimal.uint) : pystr :=
  match u with
  | Decimal.Nil => []
  | Decimal.D0 u' => 48 :: uint_chars u'
  | Decimal.D1 u' => 49 :: uint_chars u'
  | Decimal.D2 u' => 50 :: uint_chars u'
  | Decimal.D3 u' => 51 :: uint_chars u'
  | Decimal.D4 u' => 52 :: uint_chars u'
  | Decimal.D5 u' => 53 :: uint_chars u'
  | Decimal.D6 u' => 54 :: uint_chars u'
  | Decimal.D7 u' => 55 :: uint_chars u'
  | Decimal.D8 u' => 56 :: uint_chars u'
  | Decimal.D9 u' => 57 :: uint_chars u'
  end.

(** [str(n)] for a non-negative [int]. *)
Definition str_of_N (n : N) : pystr := uint_chars (N.to_uint n).
Definition str_of_nat (n : nat) : pystr := str_of_N (N.of_nat n).

(** [str(z)] for any [int]. *)
Definition str_of_Z (z : Z) : pystr :=
  match z with
  | Zneg p => lit "-" ++ str_of_N (Npos p)
  | _ => str_of_N (Z.to_N z)
  end.

(** The number that a string of decimal digits denotes. It is used to say
    what a printed number is worth, not to print it. *)
Definition digit_value (c : N) : N := c - 48.
Definition decimal_value (s : pystr) : N :=
  fold_left (fun acc c => 10 * acc + digit_value c) s 0.

End PyStr.

Export PyStr.

(** ** Python floats and the [.3f] format *)

Module PyFloat.

(** A finite IEEE-754 double: [(-1)^negative * mantissa * 2^exponent]. The
    search service reports [@search.score] as a JSON number, which is always
    finite. *)
Record pyfloat : Type := MkFloat {
  negative : bool;
  mantissa : N;
  exponent : Z
}.

(** The [int] 0, as [result.get("@search.score", 0)] and
    [faq.get("score", 0)] default to; [.3f] formats it like [0.0]. *)
Definition zero : pyfloat := MkFloat false 0 0.

(** [round(|x| * 1000)], ties to even, computed exactly. *)
Definition round_half_even (num den : N) : N :=
  let q := num / den in
  let r := num mod den in
  if 2 * r <? den then q
  else if den <? 2 * r then q + 1
  else if N.even q then q else q + 1.

Definition thousandths (x : pyfloat) : N :=
  match exponent x with
  | Zneg p => round_half_even (mantissa x * 1000) (2 ^ Npos p)
  | Z0 => mantissa x * 1000
  | Zpos p => mantissa x * 2 ^ Npos p * 1000
  end.

(** Three digits, zero padded. *)
Definition three_digits (n : N) : pystr :=
  [digit_char (n / 100 mod 10); digit_char (n / 10 mod 10); digit_char (n mod 10)].

(** [f"{x:.3f}"] *)
Definition format_3f (x : pyfloat) : pystr :=
  let t := thousandths x in
  (if negative x then lit "-" else [])
    ++ str_of_N (t / 1000) ++ lit "." ++ three_digits (t mod 1000).

(** The magnitude [mantissa * 2^exponent] of a float as an exact fraction
    [magnitude_num / magnitude_den]. *)
Definition magnitude_num (x : pyfloat) : N :=
  match exponent x with
  | Zpos p => mantissa x * 2 ^ Npos p
  | _ => mantissa x
  end.

Definition magnitude_den (x : pyfloat) : N :=
  match exponent x with
  | Zneg p => 2 ^ Npos p
  | _ => 1
  end.

(** [n] thousandths is the magnitude of [x] rounded to three decimals: it
    lies within half a thousandth of it, and is even when the magnitude is
    exactly half way between two thousandths. This fixes [n]. *)
Definition nearest_thousandth (x : pyfloat) (n : N) : Prop :=
  let num := 1000 * magnitude_num x in
  let den := magnitude_den x in
  2 * (n * den) <= 2 * num + den
  /\ 2 * num <= 2 * (n * den) + den
  /\ (2 * (n * den) = 2 * num + den \/ 2 * num = 2 * (n * den) + den ->
      N.even n = true).

End PyFloat.

Export PyFloat.


(** ** Exceptions *)

(** A raised [Exception], by its message [str(e)]. *)
Definition exn : Type := pystr.

Inductive outcome (A : Type) : Type :=
  | Returns (a : A)
  | Raises (e : exn).
Arguments Returns {A} a.
Arguments Raises {A} e.

(** ** Data model *)

(** A cell of the [DataFrame] that [pd.read_csv] builds from the seed file.
    pandas types each column by its content: text is a [str], an empty
    field is the missing value NaN, and a column that holds only numbers or
    only [True]/[False] is read as [int64], [float64] or [bool]; such a
    value is given by the name of its type and by its text. *)
Inductive cell : Type :=
  | Str (s : pystr)
  | NaN
  | Other (type_name text : pystr).

(** The label of a row in the index of the frame, as [df.iterrows()] yields
    it. [pd.read_csv(path)] labels the rows 0, 1, 2, ... when every data
    line has as many fields as the header; when the data lines have one
    field more, it takes the first column as the index and the labels are
    the values of that column. A label of another type (a [float], the
    tuple of a [MultiIndex]) is given by its [str()]. *)
Inductive index_label : Type :=
  | IntLabel (i : Z)
  | StrLabel (s : pystr)
  | OtherLabel (text : pystr).

(** [f"{index}"] *)
Definition format_label (index : index_label) : pystr :=
  match index with
  | IntLabel i => str_of_Z i
  | StrLabel s => s
  | OtherLabel text => text
  end.

(** A row of the frame: its label, and its cells by column name (the row as
    a [Series]). *)
Record csv_row : Type := MkRow {
  row_label : index_label;
  row_cells : list (pystr * cell)
}.

(** The cell of a row in the column [name], if the frame has that column. *)
Fixpoint column (cells : list (pystr * cell)) (name : pystr) : option cell :=
  match cells with
  | [] => None
  | (k, c) :: cells' => if bool_decide (k = name) then Some c else column cells' name
  end.

(** [pd.notna(c)] *)
Definition notna (c : cell) : bool :=
  match c with
  | NaN => false
  | _ => true
  end.

(** A document as uploaded to the index; [question] and [answer] are the
    cells as read. *)
Record document : Type := MkDocument {
  doc_id : pystr;
  doc_question : cell;
  doc_answer : cell;
  doc_tags : list pystr;
  doc_created_at : pystr
}.

(** The rows from which the loop of [upload_faqs_from_csv] can build a
    document: the three columns are there and the tags cell is a [str] or
    NaN. *)
Definition row_ok (row : csv_row) : bool :=
  match column (row_cells row) (lit "question"),
        column (row_cells row) (lit "answer"),
        column (row_cells row) (lit "tags") with
  | Some _, Some _, Some (Str _) => true
  | Some _, Some _, Some NaN => true
  | _, _, _ => false
  end.

(** The frame has the default index: the label of a row is its position. *)
Definition default_index (df : list csv_row) : Prop :=
  map row_label df = map (fun i => IntLabel (Z.of_nat i)) (seq 0 (length df)).

(** The per-document entry of an upload response. *)
Record indexing_result : Type := MkIndexingResult {
  key : pystr;
  succeeded : bool
}.

(** One hit as the search service returns it. [id], [question] and [answer]
    are selected fields; the others are read with [result.get]. *)
Record search_result : Type := MkSearchResult {
  res_id : pystr;
  res_question : pystr;
  res_answer : pystr;
  res_tags : option (list pystr);
  res_score : option pyfloat;
  res_captions : option (list pystr);
  res_answers : option (list pystr)
}.

(** A Search Candidate: the dictionary [search_faqs] builds per hit. *)
Record faq : Type := MkFaq {
  faq_id : pystr;
  faq_question : pystr;
  faq_answer : pystr;
  faq_tags : list pystr;
  faq_score : pyfloat;
  faq_captions : list pystr;
  faq_answers : list pystr
}.

Record search_request : Type := MkSearchRequest {
  search_index : pystr;
  search_text : pystr;
  select : list pystr;
  top : Z;
  query_type : pystr;
  query_language : pystr;
  semantic_configuration_name : pystr;
  query_caption : pystr;
  query_answer : pystr
}.

Record chat_message : Type := MkChatMessage {
  role : pystr;
  content : pystr
}.

Record chat_request : Type := MkChatRequest {
  model : pystr;
  chat_messages : list chat_message;
  max_tokens : N;
  temperature : pyfloat;
  top_p : option pyfloat
}.

(** [response.choices]: each choice carries [message.content], which the
    service may leave null. *)
Record chat_choice : Type := MkChoice {
  message_content : option pystr
}.

Definition chat_completion : Type := list chat_choice.

(** A call issued to one of the two remote services. *)
Inductive request : Type :=
  | SearchCall (r : search_request)
  | UploadCall (index_name : pystr) (batch : list document)
  | ChatCall (r : chat_request).

(** A Conversation Turn of the transcript. The content of an assistant turn
    is whatever [generate_answer] returned, [None] included. *)
Record turn : Type := MkTurn {
  turn_role : pystr;
  turn_content : option pystr;
  turn_timestamp : pystr
}.

Inductive log_level : Type := INFO | WARNING | ERROR.

(** What the presentation layer is asked to render. The bodies of the
    [display_*] functions of [app.py] only render markup and are not
    embedded: a call to one of them is recorded as such. *)
Inductive ui_event : Type :=
  | PrintLine (line : pystr)
  | DisplayChatMessage (role : pystr) (content : option pystr) (timestamp : pystr)
  | DisplayRelevantFaqs (faqs : list faq)
  | DisplaySuggestions (suggestions : list pystr)
  | StMarkdown (text : pystr)
  | StError (msg : pystr)
  | StInfo (msg : pystr)
  | StRerun.

(** Everything a run can read or change. *)
Record world : Type := MkWorld {
  environ : gmap pystr pystr;          (* os.environ *)
  requests : list request;             (* remote calls issued, oldest first *)
  logs : list (log_level * pystr);     (* logger records, oldest first *)
  messages : list turn;                (* st.session_state.messages *)
  screen : list ui_event;              (* rendered output, oldest first *)
  index : gmap pystr document;         (* committed state of the remote index *)
  clock_reads : nat                    (* how often the clock was read *)
}.

Record AzureCognitiveSearchHelper : Type := MkSearchHelper {
  search_endpoint : pystr;
  search_key : pystr;
  index_name : pystr
}.

Record AzureOpenAIHelper : Type := MkOpenAIHelper {
  openai_endpoint : pystr;
  openai_key : pystr;
  deployment_name : pystr;
  api_version : pystr
}.

(** The fallback dictionary of [analyze_query_intent]. *)
Record intent_dict : Type := MkIntent {
  intent : pystr;
  category : pystr;
  keywords : list pystr;
  complexity : pystr
}.

(** ** The effect monad: state passing with exceptions *)

Module Eff.

Definition M (A : Type) : Type := world -> outcome A * world.

Definition ret {A} (a : A) : M A := fun w => (Returns a, w).

Definition bind {A B} (c : M A) (k : A -> M B) : M B :=
  fun w =>
    match c w with
    | (Returns a, w') => k a w'
    | (Raises e, w') => (Raises e, w')
    end.

Definition raise {A} (e : exn) : M A := fun w => (Raises e, w).

(** [try: body / except Exception as e: handler e]. State changes made by
    [body] before it raised are kept. *)
Definition try_except {A} (body : M A) (handler : exn -> M A) : M A :=
  fun w =>
    match body w with
    | (Returns a, w') => (Returns a, w')
    | (Raises e, w') => handler e w'
    end.

Definition get : M world := fun w => (Returns w, w).
Definition modify (f : world -> world) : M unit := fun w => (Returns tt, f w).

(** A [for] loop over [l] with an accumulator. *)
Fixpoint for_each {A S} (l : list A) (s : S) (body : S -> A -> M S) : M S :=
  match l with
  | [] => ret s
  | x :: l' => bind (body s x) (fun s' => for_each l' s' body)
  end.

End Eff.

Export Eff.

Notation "x <- c1 ;; c2" := (bind c1 (fun x => c2))
  (at level 100, c1 at next level, right associativity).
Notation "c1 ;; c2" := (bind c1 (fun _ => c2))
  (at level 100, right associativity).

(** ** Updating the world *)

Definition add_request (r : request) (w : world) : world :=
  MkWorld (environ w) (requests w ++ [r]) (logs w) (messages w) (screen w)
          (index w) (clock_reads w).

Definition add_log (lvl : log_level) (msg : pystr) (w : world) : world :=
  MkWorld (environ w) (requests w) (logs w ++ [(lvl, msg)]) (messages w)
          (screen w) (index w) (clock_reads w).

Definition add_message (t : turn) (w : world) : world :=
  MkWorld (environ w) (requests w) (logs w) (messages w ++ [t]) (screen w)
          (index w) (clock_reads w).

Definition add_screen (e : ui_event) (w : world) : world :=
  MkWorld (environ w) (requests w) (logs w) (messages w) (screen w ++ [e])
          (index w) (clock_reads w).

Definition set_index (idx : gmap pystr document) (w : world) : world :=
  MkWorld (environ w) (requests w) (logs w) (messages w) (screen w)
          idx (clock_reads w).

Definition tick (w : world) : world :=
  MkWorld (environ w) (requests w) (logs w) (messages w) (screen w)
          (index w) (S (clock_reads w)).

(** [enumerate(l, start)] *)
Fixpoint enumerate {A} (start : nat) (l : list A) : list (nat * A) :=
  match l with
  | [] => []
  | x :: l' => (start, x) :: enumerate (S start) l'
  end.

(** [range(0, stop, step)] *)
Definition range_step (stop step : nat) : list nat :=
  map (fun k => (k * step)%nat) (seq 0 ((stop + step - 1) / step)%nat).

(** [not v] for [v] a [str] or [None]. *)
Definition is_unset (v : option pystr) : bool :=
  match v with
  | Some (_ :: _) => false
  | _ => true
  end.

(** ** The spec's reading of the topic cap *)

(** Following the spec's words ("capped to first 5 distinct tags
    encountered"): the tags in the order met, each kept where it first
    occurs. It is compared with what the code sends, [limited_topics]. *)
Fixpoint distinct_in_order (seen tags : list pystr) : list pystr :=
  match tags with
  | [] => []
  | t :: tags' =>
      if bool_decide (t ∈ seen) then distinct_in_order seen tags'
      else t :: distinct_in_order (t :: seen) tags'
  end.

Definition first_five_distinct_tags (relevant_faqs : list faq) : list pystr :=
  take 5 (distinct_in_order [] (concat (map faq_tags relevant_faqs))).

(** ** Sample inputs *)

Module Sample.

Definition w0 : world :=
  {| environ := ∅; requests := []; logs := []; messages := [];
     screen := []; index := ∅; clock_reads := 0 |}.

Definition search_helper : AzureCognitiveSearchHelper :=
  MkSearchHelper (lit "https://faq.search.windows.net") (lit "search-key")
                 (lit "faq-index").

Definition openai_helper : AzureOpenAIHelper :=
  MkOpenAIHelper (lit "https://faq.openai.azure.com") (lit "openai-key")
                 (lit "gpt-35-turbo") (lit "2023-12-01-preview").

(** A search service that is down, and one that finds nothing. *)
Definition search_down (_ : list request) (_ : search_request)
  : outcome (list search_result) := Raises (lit "Service unavailable").
Definition search_nothing (_ : list request) (_ : search_request)
  : outcome (list search_result) := Returns [].

(** A completion service that is down, one that sends an empty response, and
    one that always answers [text]. *)
Definition chat_down (_ : list request) (_ : chat_request)
  : outcome chat_completion := Raises (lit "Rate limit exceeded").
Definition chat_empty (_ : list request) (_ : chat_request)
  : outcome chat_completion := Returns [].
Definition chat_says (text : pystr) (_ : list request) (_ : chat_request)
  : outcome chat_completion := Returns [MkChoice (Some text)].

(** An upload endpoint that accepts every document. *)
Definition upload_accepting (_ : list request) (_ : pystr) (_ : list document)
  : outcome (document -> bool) := Returns (fun _ => true).

Definition clock_HM (n : nat) : pystr := lit "09:0" ++ str_of_nat n.
Definition clock_iso (n : nat) : pystr := lit "2024-05-01T09:00:0" ++ str_of_nat n.

(** A decoder for the three JSON literals; any other text is rejected, as
    [json.loads] rejects text that is not JSON. *)
Definition loads_literal (text : pystr) : outcome (option bool) :=
  if bool_decide (strip text = lit "null") then Returns None
  else if bool_decide (strip text = lit "true") then Returns (Some true)
  else if bool_decide (strip text = lit "false") then Returns (Some false)
  else Raises (lit "Expecting value: line 1 column 1 (char 0)").

Definition str_literal (v : option bool) : pystr :=
  match v with
  | None => lit "None"
  | Some true => lit "True"
  | Some false => lit "False"
  end.

(** Two candidates with the scores 0.812 and 0.455 as doubles. *)
Definition two_candidates : list faq :=
  [ {| faq_id := lit "faq_3";
       faq_question := lit "How do I set up billing?";
       faq_answer := lit "Open the portal.";
       faq_tags := [lit "setup"; lit "pricing"];
       faq_score := MkFloat false 7313845794849686 (-53);
       faq_captions := []; faq_answers := [] |};
    {| faq_id := lit "faq_7";
       faq_question := lit "What does it cost?";
       faq_answer := lit "See the pricing page.";
       faq_tags := [lit "pricing"; lit "billing"];
       faq_score := MkFloat false 8196551321814303 (-54);
       faq_captions := []; faq_answers := [] |} ].

(** One candidate with six distinct tags. *)
Definition six_tags : faq :=
  {| faq_id := lit "faq_0";
     faq_question := lit "Where do I start?";
     faq_answer := lit "Read the guide.";
     faq_tags := [lit "setup"; lit "pricing"; lit "billing";
                  lit "security"; lit "limits"; lit "support"];
     faq_score := PyFloat.zero;
     faq_captions := []; faq_answers := [] |}.

(** The cells of a row of a seed file with the header
    [question,answer,tags]. *)
Definition cells (question answer : pystr) (tags : cell) : list (pystr * cell) :=
  [ (lit "question", Str question); (lit "answer", Str answer);
    (lit "tags", tags) ].

(** A seed file of three rows, the last without tags, read with the default
    index. *)
Definition seed_rows : list csv_row :=
  [ MkRow (IntLabel 0)
      (cells (lit "How do I set up billing?") (lit "Open the portal.")
             (Str (lit "setup,pricing")));
    MkRow (IntLabel 1)
      (cells (lit "What does it cost?") (lit "See the pricing page.")
             (Str (lit "pricing,billing")));
    MkRow (IntLabel 2) (cells (lit "Who do I call?") (lit "Support.") NaN) ].

Definition read_seed (_ : pystr) : outcome (list csv_row) := Returns seed_rows.

(** An environment with the search endpoint and key but no index name. *)
Definition env_without_index_name : gmap pystr pystr :=
  <[lit "AZURE_SEARCH_ENDPOINT" := lit "https://faq.search.windows.net"]>
    (<[lit "AZURE_SEARCH_KEY" := lit "search-key"]> ∅).

Definition w_without_index_name : world :=
  {| environ := env_without_index_name; requests := []; logs := [];
     messages := []; screen := []; index := ∅; clock_reads := 0 |}.

End Sample.

(** ** The session state of the app *)

(** [st.session_state] as [initialize_session_state] sees it: each of the
    four keys is present with a value or absent ([None]). A helper that is
    present may itself be Python's [None]. *)
Record session_state : Type := MkSession {
  ss_messages : option (list turn);
  ss_search_helper : option (option AzureCognitiveSearchHelper);
  ss_openai_helper : option (option AzureOpenAIHelper);
  ss_index_created : option bool
}.

(** [if key not in st.session_state: st.session_state.key = value] *)
Definition setdefault {A} (current : option A) (value : A) : option A :=
  match current with
  | Some v => Some v
  | None => Some value
  end.

Definition initialize_session_state (st : session_state) : session_state :=
  {| ss_messages := setdefault (ss_messages st) [];
     ss_search_helper := setdefault (ss_search_helper st) None;
     ss_openai_helper := setdefault (ss_openai_helper st) None;
     ss_index_created := setdefault (ss_index_created st) false |}.

(** ** More sample inputs *)

Module Sample2.

(** An upload endpoint that is down, and one that rejects every document. *)
Definition upload_down (_ : list request) (_ : pystr) (_ : list document)
  : outcome (document -> bool) := Raises (lit "Service unavailable").
Definition upload_rejecting (_ : list request) (_ : pystr) (_ : list document)
  : outcome (document -> bool) := Returns (fun _ => false).

(** A seed file that cannot be read. *)
Definition read_missing (_ : pystr) : outcome (list csv_row) :=
  Raises (lit "[Errno 2] No such file or directory: 'data/faqs.csv'").

(** A seed file whose data lines have one field more than the header
    [question,answer,tags]: pandas takes the first field of each line as the
    label of the row. The first and the third row carry the same label. *)
Definition labelled_rows : list csv_row :=
  [ MkRow (StrLabel (lit "q1"))
      (Sample.cells (lit "How do I set up billing?") (lit "Open the portal.")
                    (Str (lit "setup,pricing")));
    MkRow (StrLabel (lit "q2"))
      (Sample.cells (lit "What does it cost?") (lit "See the pricing page.")
                    (Str (lit "pricing,billing")));
    MkRow (StrLabel (lit "q1"))
      (Sample.cells (lit "Who do I call?") (lit "Support.") NaN) ].

Definition read_labelled (_ : pystr) : outcome (list csv_row) :=
  Returns labelled_rows.

(** A seed file whose tags column holds only numbers, which pandas reads as
    integers. *)
Definition numeric_tags_rows : list csv_row :=
  [ MkRow (IntLabel 0)
      (Sample.cells (lit "How do I set up billing?") (lit "Open the portal.")
                    (Other (lit "int") (lit "1")));
    MkRow (IntLabel 1)
      (Sample.cells (lit "What does it cost?") (lit "See the pricing page.")
                    (Other (lit "int") (lit "2"))) ].

Definition read_numeric_tags (_ : pystr) : outcome (list csv_row) :=
  Returns numeric_tags_rows.

(** A completion service that replies with a choice without content. *)
Definition chat_null (_ : list request) (_ : chat_request)
  : outcome chat_completion := Returns [MkChoice None].

(** A search service with two hits, the second without tags and score. *)
Definition search_two (_ : list request) (_ : search_request)
  : outcome (list search_result) :=
  Returns
    [ {| res_id := lit "faq_3";
         res_question := lit "How do I set up billing?";
         res_answer := lit "Open the portal.";
         res_tags := Some [lit "setup"; lit "pricing"];
         res_score := Some (MkFloat false 7313845794849686 (-53));
         res_captions := None; res_answers := None |};
      {| res_id := lit "faq_7";
         res_question := lit "What does it cost?";
         res_answer := lit "See the pricing page.";
         res_tags := None; res_score := None;
         res_captions := None; res_answers := None |} ].

(** An environment with every variable [test_setup.py] asks for. *)
Definition env_complete : gmap pystr pystr :=
  <[lit "AZURE_SEARCH_ENDPOINT" := lit "https://faq.search.windows.net"]>
    (<[lit "AZURE_SEARCH_KEY" := lit "search-key"]>
      (<[lit "AZURE_OPENAI_ENDPOINT" := lit "https://faq.openai.azure.com"]>
        (<[lit "AZURE_OPENAI_KEY" := lit "openai-key"]>
          (<[lit "AZURE_OPENAI_DEPLOYMENT_NAME" := lit "gpt-35-turbo"]> ∅)))).

Definition w_complete : world :=
  {| environ := env_complete; requests := []; logs := [];
     messages := []; screen := []; index := ∅; clock_reads := 0 |}.

(** An environment whose index name is set to the empty string. *)
Definition w_empty_index_name : world :=
  {| environ := <[lit "AZURE_SEARCH_INDEX_NAME" := []]> env_complete;
     requests := []; logs := []; messages := []; screen := [];
     index := ∅; clock_reads := 0 |}.

(** A session in which a conversation is under way. *)
Definition session_running : session_state :=
  {| ss_messages := Some [MkTurn (lit "user") (Some (lit "Hi")) (lit "09:00")];
     ss_search_helper := Some (Some Sample.search_helper);
     ss_openai_helper := None;
     ss_index_created := Some true |}.

End Sample2.

Section Pipeline.

(** *** What the program does not control *)

(** The search service: what a query returns, given the calls made so far. *)
Variable search_service :
  list request -> search_request -> outcome (list search_result).

(** The upload endpoint: whether the batch call fails and, if not, which
    documents of the batch the service accepts. *)
Variable upload_service :
  list request -> pystr -> list document -> outcome (document -> bool).

(** The chat-completion service. *)
Variable chat_service : list request -> chat_request -> outcome chat_completion.

(** [pd.read_csv(path)] *)
Variable read_csv : pystr -> outcome (list csv_row).

(** [datetime.now().strftime("%H:%M")] and [datetime.utcnow().isoformat()]
    at the n-th reading of the clock. *)
Variable strftime_HM : nat -> pystr.
Variable utcnow_isoformat : nat -> pystr.

(** [json.loads] on a [str], and [str()] of what it decodes. *)
Variable json : Type.
Variable json_loads : pystr -> outcome json.
Variable json_str : json -> pystr.

(** [list(s)] for a [set] of strings: the elements, each once, in the
    order the interpreter happens to iterate them. *)
Variable set_iter : gset pystr -> list pystr.
Hypothesis set_iter_perm : forall s, set_iter s ≡ₚ elements s.

(** *** Primitive effects *)

Definition log (lvl : log_level) (msg : pystr) : M unit := modify (add_log lvl msg).
Definition render (e : ui_event) : M unit := modify (add_screen e).

Definition getenv (name : pystr) : M (option pystr) :=
  fun w => (Returns (environ w !! name), w).

Definition getenv_default (name dflt : pystr) : M pystr :=
  fun w => (Returns (default dflt (environ w !! name)), w).

Definition now_strftime_HM : M pystr :=
  fun w => (Returns (strftime_HM (clock_reads w)), tick w).

Definition now_utc_isoformat : M pystr :=
  fun w => (Returns (utcnow_isoformat (clock_reads w)), tick w).

(** [self.search_client.search(...)], consumed to the end. *)
Definition search_client_search (r : search_request) : M (list search_result) :=
  fun w => (search_service (requests w) r, add_request (SearchCall r) w).

(** [self.client.chat.completions.create(...)] *)
Definition chat_completions_create (r : chat_request) : M chat_completion :=
  fun w => (chat_service (requests w) r, add_request (ChatCall r) w).

(** Modelled from the spec: the upload endpoint of the search service, which
    is not part of the repository. Per section 4.1 and 6, an accepted document
    is stored under its identifier, replacing a document already stored
    there, and the response has one entry per document of the batch. *)
Definition upsert (accepts : document -> bool)
    (idx : gmap pystr document) (d : document) : gmap pystr document :=
  if accepts d then <[doc_id d := d]> idx else idx.

(** [self.search_client.upload_documents(batch)] *)
Definition search_client_upload_documents (name : pystr) (batch : list document)
  : M (list indexing_result) :=
  fun w =>
    let w' := add_request (UploadCall name batch) w in
    match upload_service (requests w) name batch with
    | Raises e => (Raises e, w')
    | Returns accepts =>
        (Returns (map (fun d => MkIndexingResult (doc_id d) (accepts d)) batch),
         set_index (fold_left (upsert accepts) batch (index w')) w')
    end.

(** *** cognitive_search.py *)

Definition batch_size : nat := 1000.

(** [row[name]]. A row without that column raises [KeyError], whose
    [str()] is the [repr] of the name. *)
Definition getitem (row : csv_row) (name : pystr) : M cell :=
  match column (row_cells row) name with
  | Some c => ret c
  | None => raise (lit "'" ++ name ++ lit "'")
  end.

(** [c.split(sep)]: only a [str] has the method, any other value raises
    [AttributeError]. *)
Definition cell_split (c : cell) (sep : N) : M (list pystr) :=
  match c with
  | Str s => ret (split_on sep s)
  | NaN => raise (lit "'float' object has no attribute 'split'")
  | Other type_name _ =>
      raise (lit "'" ++ type_name ++ lit "' object has no attribute 'split'")
  end.

(** One round of the loop of [upload_faqs_from_csv] that prepares the
    documents, for the row [row] of [df.iterrows()]: the entries of the
    dictionary are evaluated in the order written. *)
Definition prepare_document (documents : list document) (row : csv_row)
  : M (list document) :=
  let index := row_label row in
  question <- getitem row (lit "question") ;;
  answer <- getitem row (lit "answer") ;;
  tags_cell <- getitem row (lit "tags") ;;
  tags <- (if notna tags_cell
           then (tags_cell <- getitem row (lit "tags") ;; cell_split tags_cell 44)
           else ret []) ;;
  now <- now_utc_isoformat ;;
  ret (documents ++
       [ {| doc_id := lit "faq_" ++ format_label index;
            doc_question := question;
            doc_answer := answer;
            doc_tags := tags;
            doc_created_at := now ++ lit "Z" |} ]).

(** The loop itself: [for index, row in df.iterrows()]. *)
Definition prepare_documents (df : list csv_row) : M (list document) :=
  for_each df [] prepare_document.

(** The document that a round builds from a row that passes [row_ok], when
    the clock reads [now]. *)
Definition document_of (row : csv_row) (now : pystr) : document :=
  {| doc_id := lit "faq_" ++ format_label (row_label row);
     doc_question := default NaN (column (row_cells row) (lit "question"));
     doc_answer := default NaN (column (row_cells row) (lit "answer"));
     doc_tags := match column (row_cells row) (lit "tags") with
                 | Some (Str s) => split_on 44 s
                 | _ => []
                 end;
     doc_created_at := now ++ lit "Z" |}.

(** One round of the loop of [upload_faqs_from_csv] that uploads in
    batches: the batch that starts at offset [i]. *)
Definition upload_batch (self : AzureCognitiveSearchHelper)
    (documents : list document) (i : nat) : M unit :=
  let batch := take batch_size (drop i documents) in
  result <- search_client_upload_documents (index_name self) batch ;;
  let failed_docs := List.filter (fun doc => negb (succeeded doc)) result in
  (match failed_docs with
   | [] => ret tt
   | _ :: _ =>
       log WARNING (lit "Failed to upload " ++ str_of_nat (length failed_docs)
                    ++ lit " documents in batch "
                    ++ str_of_nat (i / batch_size + 1))
   end) ;;
  log INFO (lit "Uploaded batch " ++ str_of_nat (i / batch_size + 1)
            ++ lit " (" ++ str_of_nat (length batch) ++ lit " documents)").

(** The loop itself: [for i in range(0, len(documents), batch_size)]. *)
Definition upload_batches (self : AzureCognitiveSearchHelper)
    (documents : list document) : M unit :=
  for_each (range_step (length documents) batch_size) tt
           (fun _ i => upload_batch self documents i).

Definition upload_faqs_from_csv (self : AzureCognitiveSearchHelper)
    (csv_file_path : pystr) : M bool :=
  try_except
    (df <- (fun w => (read_csv csv_file_path, w)) ;;
     documents <- prepare_documents df ;;
     upload_batches self documents ;;
     log INFO (lit "Successfully uploaded " ++ str_of_nat (length documents)
               ++ lit " FAQ documents") ;;
     ret true)
    (fun e =>
       log ERROR (lit "Error uploading FAQs: " ++ e) ;;
       ret false).

(** The keyword arguments of the [search] call in [search_faqs]. *)
Definition semantic_search_request (self : AzureCognitiveSearchHelper)
    (query : pystr) (top : Z) : search_request :=
  {| search_index := index_name self;
     search_text := query;
     select := [lit "id"; lit "question"; lit "answer"; lit "tags"];
     top := top;
     query_type := lit "semantic";
     query_language := lit "en-us";
     semantic_configuration_name := lit "default";
     query_caption := lit "extractive";
     query_answer := lit "extractive" |}.

Definition search_faqs (self : AzureCognitiveSearchHelper)
    (query : pystr) (top : Z) : M (list faq) :=
  try_except
    (search_results <- search_client_search (semantic_search_request self query top) ;;
     let results :=
       fold_left (fun results result =>
         results ++
         [ {| faq_id := res_id result;
              faq_question := res_question result;
              faq_answer := res_answer result;
              faq_tags := default [] (res_tags result);
              faq_score := default PyFloat.zero (res_score result);
              faq_captions := default [] (res_captions result);
              faq_answers := default [] (res_answers result) |} ])
         search_results [] in
     log INFO (lit "Found " ++ str_of_nat (length results)
               ++ lit " relevant FAQs for query: '" ++ query ++ lit "'") ;;
     ret results)
    (fun e =>
       log ERROR (lit "Error searching FAQs: " ++ e) ;;
       ret []).

Definition create_search_helper : M (option AzureCognitiveSearchHelper) :=
  endpoint <- getenv (lit "AZURE_SEARCH_ENDPOINT") ;;
  key <- getenv (lit "AZURE_SEARCH_KEY") ;;
  index_name <- getenv_default (lit "AZURE_SEARCH_INDEX_NAME") (lit "faq-index") ;;
  if is_unset endpoint || is_unset key then
    log ERROR (lit "Azure Cognitive Search configuration missing. Please set AZURE_SEARCH_ENDPOINT and AZURE_SEARCH_KEY") ;;
    ret None
  else
    ret (Some (MkSearchHelper (default [] endpoint) (default [] key) index_name)).

(** *** openai_helper.py *)

Definition apology : pystr :=
  lit "I apologize, but I encountered an error while generating your answer. Please try again or rephrase your question.".

Definition _prepare_context (relevant_faqs : list faq) : pystr :=
  let context_parts :=
    fold_left (fun context_parts '(i, faq) =>
      let question := faq_question faq in
      let answer := faq_answer faq in
      let tags := faq_tags faq in
      let score := faq_score faq in
      let tags_str :=
        match tags with
        | _ :: _ => join (lit ", ") tags
        | [] => lit "No tags"
        end in
      let faq_context :=
        lit "FAQ " ++ str_of_nat i ++ lit " (Relevance Score: "
          ++ format_3f score ++ lit "):" ++ nl
          ++ lit "Question: " ++ question ++ nl
          ++ lit "Answer: " ++ answer ++ nl
          ++ lit "Tags: " ++ tags_str ++ nl
          ++ lit "---" in
      context_parts ++ [faq_context])
      (enumerate 1 relevant_faqs) [] in
  join nl context_parts.

Definition answer_system_prompt : pystr :=
  join nl
    [ lit "You are an intelligent FAQ assistant powered by Azure OpenAI. Your role is to:";
      [];
      lit "1. Analyze the user's question and the provided relevant FAQ information";
      lit "2. Generate a comprehensive, accurate, and helpful answer";
      lit "3. Use the FAQ information as your primary source of truth";
      lit "4. If the FAQ information doesn't fully address the question, acknowledge this and provide the best possible answer based on available information";
      lit "5. Structure your response clearly and professionally";
      lit "6. If multiple FAQs are relevant, synthesize the information coherently";
      [];
      lit "Always be helpful, accurate, and professional in your responses." ].

Definition answer_user_message (user_query context : pystr) : pystr :=
  lit "User Question: " ++ user_query ++ nl
    ++ nl
    ++ lit "Relevant FAQ Information:" ++ nl
    ++ context ++ nl
    ++ nl
    ++ lit "Please provide a comprehensive answer based on the above information.".

(** [response.choices[0].message.content] *)
Definition first_content (response : chat_completion) : M (option pystr) :=
  match response with
  | [] => raise (lit "list index out of range")
  | choice :: _ => ret (message_content choice)
  end.

(** The keyword arguments of the [create] call in [generate_answer]. *)
Definition answer_request (self : AzureOpenAIHelper)
    (system_prompt user_message : pystr) : chat_request :=
  {| model := deployment_name self;
     chat_messages :=
       [ MkChatMessage (lit "system") system_prompt;
         MkChatMessage (lit "user") user_message ];
     max_tokens := 1000;
     temperature := MkFloat false 5404319552844595 (-54);   (* 0.3 *)
     top_p := Some (MkFloat false 8106479329266893 (-53))  (* 0.9 *) |}.

Definition generate_answer (self : AzureOpenAIHelper)
    (user_query : pystr) (relevant_faqs : list faq) : M (option pystr) :=
  try_except
    (let context := _prepare_context relevant_faqs in
     let system_prompt := answer_system_prompt in
     let user_message := answer_user_message user_query context in
     response <- chat_completions_create
                   (answer_request self system_prompt user_message) ;;
     answer <- first_content response ;;
     log INFO (lit "Generated answer for query: '" ++ take 50 user_query ++ lit "...'") ;;
     ret answer)
    (fun e =>
       log ERROR (lit "Error generating answer: " ++ e) ;;
       ret (Some apology)).

Definition intent_system_prompt : pystr :=
  join nl
    [ lit "Analyze the user's query and provide:";
      lit "1. Intent: What the user is trying to accomplish";
      lit "2. Category: The main topic area (e.g., setup, troubleshooting, pricing, etc.)";
      lit "3. Keywords: Important terms that should be used for search";
      lit "4. Complexity: Simple, Medium, or Complex";
      [];
      lit "Respond in JSON format:";
      lit "{";
      lit "    " ++ quoted (lit "intent") ++ lit ": " ++ quoted (lit "string") ++ lit ",";
      lit "    " ++ quoted (lit "category") ++ lit ": " ++ quoted (lit "string") ++ lit ", ";
      lit "    " ++ quoted (lit "keywords") ++ lit ": [" ++ quoted (lit "string") ++ lit "],";
      lit "    " ++ quoted (lit "complexity") ++ lit ": " ++ quoted (lit "string");
      lit "}" ].

(** What [analyze_query_intent] returns: the decoded reply of the model, or
    the fallback dictionary. *)
Inductive analysis : Type :=
  | Decoded (v : json)
  | Fallback (d : intent_dict).

(** The keyword arguments of the [create] call in [analyze_query_intent]. *)
Definition intent_request (self : AzureOpenAIHelper)
    (system_prompt query : pystr) : chat_request :=
  {| model := deployment_name self;
     chat_messages :=
       [ MkChatMessage (lit "system") system_prompt;
         MkChatMessage (lit "user") query ];
     max_tokens := 200;
     temperature := MkFloat false 7205759403792794 (-56);   (* 0.1 *)
     top_p := None |}.

Definition analyze_query_intent (self : AzureOpenAIHelper) (query : pystr)
  : M analysis :=
  try_except
    (let system_prompt := intent_system_prompt in
     response <- chat_completions_create
                   (intent_request self system_prompt query) ;;
     result_text <- first_content response ;;
     analysis <- match result_text with
                 | Some text => fun w => (json_loads text, w)
                 | None => raise (lit "the JSON object must be str, bytes or bytearray, not NoneType")
                 end ;;
     log INFO (lit "Query analysis: " ++ json_str analysis) ;;
     ret (Decoded analysis))
    (fun e =>
       log ERROR (lit "Error analyzing query intent: " ++ e) ;;
       ret (Fallback {| intent := lit "general_inquiry";
                        category := lit "general";
                        keywords := split_ws query;
                        complexity := lit "medium" |})).

Definition suggest_system_prompt : pystr :=
  join nl
    [ lit "Based on the user's question and the related topics, suggest 3-5 related questions that might be helpful. ";
      lit "Make the suggestions natural and relevant to the user's original query." ].

Definition suggest_user_message (user_query topics_str : pystr) : pystr :=
  lit "User's Question: " ++ user_query ++ nl
    ++ lit "Related Topics: " ++ topics_str ++ nl
    ++ nl
    ++ lit "Please suggest 3-5 related questions that might be helpful.".

(** The [set] built by the loop [topics.update(faq.get("tags", []))]. *)
Definition collect_topics (relevant_faqs : list faq) : gset pystr :=
  fold_left (fun topics faq => topics ∪ list_to_set (faq_tags faq))
            relevant_faqs ∅.

(** [list(topics)[:5]] *)
Definition limited_topics (relevant_faqs : list faq) : list pystr :=
  take 5 (set_iter (collect_topics relevant_faqs)).

Definition list_markers : list pystr :=
  [lit "1."; lit "2."; lit "3."; lit "4."; lit "5."; lit "-"; lit "*"].

(** The comprehension that reads the suggestions off the reply. *)
Definition parse_suggestions (suggestions_text : pystr) : list pystr :=
  map strip
    (List.filter
       (fun s => truthy (strip s) && negb (startswith_any s list_markers))
       (split_on 10 suggestions_text)).

(** The keyword arguments of the [create] call in
    [suggest_related_questions]. *)
Definition suggest_request (self : AzureOpenAIHelper)
    (system_prompt user_message : pystr) : chat_request :=
  {| model := deployment_name self;
     chat_messages :=
       [ MkChatMessage (lit "system") system_prompt;
         MkChatMessage (lit "user") user_message ];
     max_tokens := 300;
     temperature := MkFloat false 6305039478318694 (-53);   (* 0.7 *)
     top_p := None |}.

Definition suggest_related_questions (self : AzureOpenAIHelper)
    (user_query : pystr) (relevant_faqs : list faq) : M (list pystr) :=
  try_except
    (let topics := limited_topics relevant_faqs in
     let topics_str := join (lit ", ") topics in
     let system_prompt := suggest_system_prompt in
     let user_message := suggest_user_message user_query topics_str in
     response <- chat_completions_create
                   (suggest_request self system_prompt user_message) ;;
     suggestions_text <- first_content response ;;
     suggestions <- match suggestions_text with
                    | Some text => ret (parse_suggestions text)
                    | None => raise (lit "'NoneType' object has no attribute 'split'")
                    end ;;
     log INFO (lit "Generated " ++ str_of_nat (length suggestions)
               ++ lit " related question suggestions") ;;
     ret (take 5 suggestions))
    (fun e =>
       log ERROR (lit "Error suggesting related questions: " ++ e) ;;
       ret []).

Definition create_openai_helper : M (option AzureOpenAIHelper) :=
  endpoint <- getenv (lit "AZURE_OPENAI_ENDPOINT") ;;
  key <- getenv (lit "AZURE_OPENAI_KEY") ;;
  deployment_name <- getenv (lit "AZURE_OPENAI_DEPLOYMENT_NAME") ;;
  api_version <- getenv_default (lit "AZURE_OPENAI_API_VERSION") (lit "2023-12-01-preview") ;;
  if is_unset endpoint || is_unset key || is_unset deployment_name then
    log ERROR (lit "Azure OpenAI configuration missing. Please set AZURE_OPENAI_ENDPOINT, AZURE_OPENAI_KEY, and AZURE_OPENAI_DEPLOYMENT_NAME") ;;
    ret None
  else
    ret (Some (MkOpenAIHelper (default [] endpoint) (default [] key)
                              (default [] deployment_name) api_version)).

(** *** setup_index.py *)

Definition required_vars : list pystr :=
  [ lit "AZURE_SEARCH_ENDPOINT";
    lit "AZURE_SEARCH_KEY";
    lit "AZURE_SEARCH_INDEX_NAME" ].

(** Lines 16-46 of [main]: the configuration check and the connection.
    [None] stands for [return False] (the script then exits with status 1);
    [Some helper] is the state in which [main] goes on to create the index
    and upload the seed file. *)
Definition setup_index_main_startup : M (option AzureCognitiveSearchHelper) :=
  render (PrintLine (128640 :: lit " Setting up Azure Cognitive Search Index for FAQ Chatbot")) ;;
  render (PrintLine (concat (replicate 60 (lit "=")))) ;;
  missing_vars <- for_each required_vars [] (fun missing_vars var =>
    value <- getenv var ;;
    if is_unset value then ret (missing_vars ++ [var]) else ret missing_vars) ;;
  match missing_vars with
  | _ :: _ =>
      render (PrintLine (10060 :: lit " Missing required environment variables: "
                   ++ join (lit ", ") missing_vars)) ;;
      render (PrintLine (lit "Please set these variables in your .env file or environment.")) ;;
      ret None
  | [] =>
      render (PrintLine (128225 :: lit " Connecting to Azure Cognitive Search...")) ;;
      search_helper <- create_search_helper ;;
      match search_helper with
      | None =>
          render (PrintLine (10060 :: lit " Failed to create search helper. Please check your configuration.")) ;;
          ret None
      | Some helper =>
          render (PrintLine (9989 :: lit " Connected to Azure Cognitive Search")) ;;
          ret (Some helper)
      end
  end.

(** *** app.py *)

(** Lines 303-355 of [main]: what happens to the text area's content
    [user_input] when the script runs with the Send button [send_button]
    pressed or not. [st.rerun()] ends the script run. *)
Definition main_process_user_input
    (search_helper : AzureCognitiveSearchHelper)
    (openai_helper : AzureOpenAIHelper)
    (send_button : bool) (user_input : pystr) : M unit :=
  if send_button && truthy (strip user_input) then
    timestamp <- now_strftime_HM ;;
    modify (add_message (MkTurn (lit "user") (Some user_input) timestamp)) ;;
    render (DisplayChatMessage (lit "user") (Some user_input) timestamp) ;;
    try_except
      (relevant_faqs <- search_faqs search_helper user_input 3 ;;
       ai_response <- generate_answer openai_helper user_input relevant_faqs ;;
       bot_timestamp <- now_strftime_HM ;;
       modify (add_message (MkTurn (lit "assistant") ai_response bot_timestamp)) ;;
       render (DisplayChatMessage (lit "assistant") ai_response bot_timestamp) ;;
       render (DisplayRelevantFaqs relevant_faqs) ;;
       suggestions <- suggest_related_questions openai_helper user_input relevant_faqs ;;
       match suggestions with
       | _ :: _ =>
           render (StMarkdown (lit "---")) ;;
           render (DisplaySuggestions suggestions)
       | [] => ret tt
       end)
      (fun e =>
         let error_msg := lit "Sorry, I encountered an error: " ++ e in
         render (StError error_msg) ;;
         log ERROR (lit "Error processing user input: " ++ e)) ;;
    render StRerun
  else
    w <- get ;;
    match messages w with
    | [] => render (StInfo (128075 :: lit " Welcome! I'm your AI-powered FAQ assistant. Ask me anything about Azure services, and I'll provide intelligent answers based on our FAQ database."))
    | _ :: _ => ret tt
    end.

(** *** test_setup.py *)

(** The dictionary [required_vars] of [test_environment_variables], in its
    insertion order. *)
Definition test_required_vars : list (pystr * pystr) :=
  [ (lit "AZURE_SEARCH_ENDPOINT", lit "Azure Cognitive Search endpoint");
    (lit "AZURE_SEARCH_KEY", lit "Azure Cognitive Search API key");
    (lit "AZURE_OPENAI_ENDPOINT", lit "Azure OpenAI endpoint");
    (lit "AZURE_OPENAI_KEY", lit "Azure OpenAI API key");
    (lit "AZURE_OPENAI_DEPLOYMENT_NAME", lit "Azure OpenAI deployment name") ].

Definition test_environment_variables : M bool :=
  render (PrintLine (128269 :: lit " Testing Environment Variables...")) ;;
  missing_vars <- for_each test_required_vars []
    (fun missing_vars '(var, description) =>
       value <- getenv var ;;
       if negb (is_unset value) then
         render (PrintLine (9989 :: lit " " ++ var ++ lit ": " ++ description
                            ++ lit " - Configured")) ;;
         ret missing_vars
       else
         render (PrintLine (10060 :: lit " " ++ var ++ lit ": " ++ description
                            ++ lit " - Missing")) ;;
         ret (missing_vars ++ [var])) ;;
  match missing_vars with
  | _ :: _ =>
      render (PrintLine (nl ++ 10060 :: lit " Missing environment variables: "
                         ++ join (lit ", ") missing_vars)) ;;
      ret false
  | [] =>
      render (PrintLine (9989 :: lit " All environment variables are configured")) ;;
      ret true
  end.

(** ** Properties of the string operations *)

Lemma lstrip_split (s : pystr) :
  exists ws, s = ws ++ lstrip s /\ forallb isspace ws = true.
Proof.
  induction s as [|c s IH]; simpl.
  - exists []. auto.
  - destruct (isspace c) eqn:Hc.
    + destruct IH as (ws & Hs & Hws). exists (c :: ws). simpl.
      rewrite Hc, Hws. split; [congruence | reflexivity].
    + exists []. auto.
Qed.

Lemma lstrip_head (s : pystr) (c : N) :
  head (lstrip s) = Some c -> isspace c = false.
Proof.
  induction s as [|d s IH]; simpl; [discriminate |].
  destruct (isspace d) eqn:Hd; [exact IH |].
  simpl. intros [= <-]. exact Hd.
Qed.

Lemma rstrip_split (s : pystr) :
  exists ws, s = rstrip s ++ ws /\ forallb isspace ws = true.
Proof.
  unfold rstrip. destruct (lstrip_split (rev s)) as (ws & Hs & Hws).
  exists (rev ws). split.
  - rewrite <- rev_app_distr, <- Hs. symmetry. apply rev_involutive.
  - rewrite forallb_forall in *. intros x Hx. apply Hws. now apply in_rev.
Qed.

Lemma last_rev_head {A} (l : list A) : last (rev l) = head l.
Proof. destruct l as [|a l]; simpl; [reflexivity | apply last_snoc]. Qed.

Lemma rstrip_last (s : pystr) (c : N) :
  last (rstrip s) = Some c -> isspace c = false.
Proof. unfold rstrip. rewrite last_rev_head. apply lstrip_head. Qed.

Lemma rstrip_head (s : pystr) (c : N) :
  head (rstrip s) = Some c -> head s = Some c.
Proof.
  destruct (rstrip_split s) as (ws & Hs & _). intros Hc.
  rewrite Hs, head_app, Hc. reflexivity.
Qed.

(** A stripped string neither starts nor ends with whitespace. *)
Lemma strip_no_outer_space (s : pystr) (c : N) :
  head (strip s) = Some c \/ last (strip s) = Some c -> isspace c = false.
Proof.
  unfold strip. intros [H | H].
  - apply (lstrip_head s). now apply rstrip_head.
  - now apply rstrip_last in H.
Qed.

Lemma truthy_nonempty (s : pystr) : truthy s = true <-> s <> [].
Proof. destruct s; simpl; split; congruence. Qed.

(** ** Properties of the decimal and [.3f] conversions *)

Lemma digit_char_is_digit (d : N) : d < 10 -> is_digit (digit_char d) = true.
Proof.
  unfold is_digit, digit_char. intros H.
  apply andb_true_iff. split; apply N.leb_le; lia.
Qed.

Lemma uint_chars_digits (u : Decimal.uint) : forallb is_digit (uint_chars u) = true.
Proof. induction u; simpl; auto. Qed.

Lemma uint_chars_inj (u v : Decimal.uint) : uint_chars u = uint_chars v -> u = v.
Proof.
  revert v. induction u; destruct v; simpl; intros H;
    try discriminate; try reflexivity;
    injection H as H; f_equal; auto.
Qed.

Lemma str_of_N_digits (n : N) :
  str_of_N n <> [] /\ forallb is_digit (str_of_N n) = true.
Proof.
  unfold str_of_N. split; [| apply uint_chars_digits].
  destruct n as [|p]; simpl; [discriminate |].
  pose proof (DecimalPos.Unsigned.to_uint_nonnil p) as Hp.
  destruct (Pos.to_uint p); simpl; congruence.
Qed.

Lemma str_of_nat_inj (i j : nat) : str_of_nat i = str_of_nat j -> i = j.
Proof.
  unfold str_of_nat, str_of_N. intros H.
  apply uint_chars_inj, DecimalN.Unsigned.to_uint_inj in H. lia.
Qed.

Lemma three_digits_spec (n : N) :
  length (three_digits n) = 3%nat /\ forallb is_digit (three_digits n) = true.
Proof.
  split; [reflexivity |]. unfold three_digits. simpl.
  rewrite !digit_char_is_digit; auto; apply N.mod_lt; discriminate.
Qed.

(** The three digits are those of the number they pad. *)
Lemma three_digits_value (n : N) :
  n < 1000 ->
  exists a b c, three_digits n = [digit_char a; digit_char b; digit_char c]
    /\ a < 10 /\ b < 10 /\ c < 10 /\ n = 100 * a + 10 * b + c.
Proof.
  intros Hn. exists (n / 100 mod 10), (n / 10 mod 10), (n mod 10).
  split; [reflexivity |].
  repeat split; try (apply N.mod_lt; discriminate).
  assert (H100 : n / 100 < 10) by (apply N.Div0.div_lt_upper_bound; lia).
  rewrite (N.mod_small (n / 100) 10) by exact H100.
  pose proof (N.div_mod n 10 ltac:(discriminate)) as E1.
  pose proof (N.div_mod (n / 10) 10 ltac:(discriminate)) as E2.
  rewrite N.Div0.div_div in E2. change (10 * 10) with 100 in E2.
  lia.
Qed.

(** Rounding to thousandths gives the nearest thousandth, the even one on a
    tie. *)
Lemma round_half_even_nearest (num den : N) :
  den <> 0 ->
  let t := round_half_even num den in
  2 * (t * den) <= 2 * num + den /\ 2 * num <= 2 * (t * den) + den
  /\ (2 * (t * den) = 2 * num + den \/ 2 * num = 2 * (t * den) + den ->
      N.even t = true).
Proof.
  intros Hden. unfold round_half_even. cbv zeta.
  pose proof (N.div_mod num den Hden) as E.
  pose proof (N.mod_lt num den Hden) as Hr.
  set (q := num / den) in *. set (r := num mod den) in *.
  destruct (2 * r <? den) eqn:H1.
  { apply N.ltb_lt in H1. split; [nia |]. split; [nia |]. intros [H | H]; nia. }
  apply N.ltb_ge in H1.
  destruct (den <? 2 * r) eqn:H2.
  { apply N.ltb_lt in H2. split; [nia |]. split; [nia |]. intros [H | H]; nia. }
  apply N.ltb_ge in H2.
  destruct (N.even q) eqn:Hq.
  - split; [nia |]. split; [nia |]. intros _. exact Hq.
  - split; [nia |]. split; [nia |]. intros _.
    rewrite N.add_1_r, N.even_succ, <- N.negb_even, Hq. reflexivity.
Qed.

Lemma thousandths_nearest (x : pyfloat) : nearest_thousandth x (thousandths x).
Proof.
  unfold nearest_thousandth, thousandths, magnitude_num, magnitude_den.
  destruct (exponent x) as [|p|p]; cbv zeta.
  - split; [lia |]. split; [lia |]. intros [H | H]; lia.
  - split; [lia |]. split; [lia |]. intros [H | H]; lia.
  - assert (Hden : 2 ^ N.pos p <> 0) by (apply N.pow_nonzero; discriminate).
    pose proof (round_half_even_nearest (mantissa x * 1000) (2 ^ N.pos p) Hden) as H.
    cbv zeta in H. rewrite (N.mul_comm 1000 (mantissa x)). exact H.
Qed.

(** Reading back what [str] printed gives the number. *)
Lemma decimal_value_acc (u : Decimal.uint) (acc : positive) :
  fold_left (fun acc c => 10 * acc + digit_value c) (uint_chars u) (Npos acc)
  = Npos (Pos.of_uint_acc u acc).
Proof.
  revert acc.
  induction u; intros acc; cbn [uint_chars fold_left Pos.of_uint_acc];
    try reflexivity;
    match goal with
    | |- fold_left _ _ ?a = N.pos (Pos.of_uint_acc _ ?b) =>
        replace a with (N.pos b) by (unfold digit_value; lia)
    end; apply IHu.
Qed.

Lemma decimal_value_uint (u : Decimal.uint) :
  decimal_value (uint_chars u) = N.of_uint u.
Proof.
  unfold decimal_value, N.of_uint.
  induction u; cbn [uint_chars fold_left Pos.of_uint]; try reflexivity;
    try (match goal with
         | |- fold_left _ _ ?a = N.pos (Pos.of_uint_acc _ ?b) =>
             replace a with (N.pos b) by (unfold digit_value; lia)
         end; apply decimal_value_acc).
  exact IHu.
Qed.

Lemma decimal_value_str_of_N (n : N) : decimal_value (str_of_N n) = n.
Proof.
  unfold str_of_N. rewrite decimal_value_uint. apply DecimalN.Unsigned.of_to.
Qed.

Lemma decimal_value_three_digits (n : N) :
  n < 1000 -> decimal_value (three_digits n) = n.
Proof.
  intros Hn.
  destruct (three_digits_value n Hn) as (a & b & c & -> & Ha & Hb & Hc & ->).
  unfold decimal_value, digit_value, digit_char. cbn [fold_left]. lia.
Qed.

(** [str] prints no leading zero. *)
Lemma nzhead_no_zero (u : Decimal.uint) :
  match Decimal.nzhead u with Decimal.D0 _ => False | _ => True end.
Proof. induction u; simpl; auto. Qed.

Lemma str_of_N_canonical (n : N) :
  str_of_N n = lit "0" \/ head (str_of_N n) <> Some 48.
Proof.
  unfold str_of_N.
  rewrite <- (DecimalN.Unsigned.of_to n) at 1 2.
  rewrite DecimalN.Unsigned.to_of. unfold Decimal.unorm.
  pose proof (nzhead_no_zero (N.to_uint n)) as H.
  destruct (Decimal.nzhead (N.to_uint n)); simpl; try (right; discriminate);
    [now left | contradiction].
Qed.

(** [.3f] prints the score: the digits it writes, read as thousandths, are
    the magnitude of the score rounded to the nearest thousandth, and the
    integer part has no leading zero. *)
Lemma format_3f_value (x : pyfloat) :
  exists whole frac,
    format_3f x = (if negative x then lit "-" else []) ++ whole ++ lit "." ++ frac
    /\ whole <> [] /\ forallb is_digit whole = true
    /\ (whole = lit "0" \/ head whole <> Some 48)
    /\ length frac = 3%nat /\ forallb is_digit frac = true
    /\ nearest_thousandth x (1000 * decimal_value whole + decimal_value frac).
Proof.
  exists (str_of_N (thousandths x / 1000)), (three_digits (thousandths x mod 1000)).
  split; [reflexivity |].
  destruct (str_of_N_digits (thousandths x / 1000)) as [H1 H2].
  destruct (three_digits_spec (thousandths x mod 1000)) as [H3 H4].
  pose proof (str_of_N_canonical (thousandths x / 1000)) as H5.
  do 5 (split; [assumption |]).
  rewrite decimal_value_str_of_N, decimal_value_three_digits
    by (apply N.mod_lt; discriminate).
  rewrite <- N.div_mod by discriminate. apply thousandths_nearest.
Qed.

(** ** Loops *)

Lemma fold_left_snoc_map {A B} (g : list B -> A -> list B) (f : A -> B)
    (l : list A) (acc : list B) :
  (forall acc x, g acc x = acc ++ [f x]) ->
  fold_left g l acc = acc ++ map f l.
Proof.
  intros Hg. revert acc. induction l as [|x l IH]; intros acc; simpl.
  - now rewrite app_nil_r.
  - rewrite IH, Hg, <- app_assoc. reflexivity.
Qed.

Lemma map_enumerate {A B} (f : nat * A -> B) (start : nat) (l : list A) :
  map f (enumerate start l) = imap (fun i x => f ((start + i)%nat, x)) l.
Proof.
  revert start. induction l as [|x l IH]; intros start; simpl; [reflexivity |].
  rewrite Nat.add_0_r. f_equal. rewrite IH. apply imap_ext.
  intros i y _. simpl. do 2 f_equal. lia.
Qed.

(** ** The grounding context (claim C1) *)

Lemma _prepare_context_closed_form (relevant_faqs : list faq) :
  _prepare_context relevant_faqs =
  join nl (imap (fun i c =>
    lit "FAQ " ++ str_of_nat (S i) ++ lit " (Relevance Score: "
      ++ format_3f (faq_score c) ++ lit "):" ++ nl
      ++ lit "Question: " ++ faq_question c ++ nl
      ++ lit "Answer: " ++ faq_answer c ++ nl
      ++ lit "Tags: "
      ++ match faq_tags c with
         | [] => lit "No tags"
         | _ :: _ => join (lit ", ") (faq_tags c)
         end ++ nl
      ++ lit "---") relevant_faqs).
Proof.
  unfold _prepare_context. f_equal.
  rewrite fold_left_snoc_map with
    (f := fun p : nat * faq =>
       lit "FAQ " ++ str_of_nat (fst p) ++ lit " (Relevance Score: "
         ++ format_3f (faq_score (snd p)) ++ lit "):" ++ nl
         ++ lit "Question: " ++ faq_question (snd p) ++ nl
         ++ lit "Answer: " ++ faq_answer (snd p) ++ nl
         ++ lit "Tags: "
         ++ match faq_tags (snd p) with
            | [] => lit "No tags"
            | _ :: _ => join (lit ", ") (faq_tags (snd p))
            end ++ nl
         ++ lit "---").
  - simpl. rewrite map_enumerate. apply imap_ext. intros i c _. simpl.
    destruct (faq_tags c); reflexivity.
  - intros acc [i c]. simpl. destruct (faq_tags c); reflexivity.
Qed.

(** Whatever the completion service does, [generate_answer] issues exactly
    one call, whose user message embeds the assembled context. *)
Lemma generate_answer_request (self : AzureOpenAIHelper)
    (user_query : pystr) (relevant_faqs : list faq) (w : world) :
  requests (snd (generate_answer self user_query relevant_faqs w)) =
  requests w ++
    [ChatCall (answer_request self answer_system_prompt
                 (answer_user_message user_query (_prepare_context relevant_faqs)))].
Proof.
  unfold generate_answer, try_except, bind, chat_completions_create. simpl.
  destruct (chat_service _ _) as [[|choice rest]|e]; reflexivity.
Qed.

(** C1. For every list of candidates and every query, the context that
    [generate_answer] assembles and sends is the blocks of the candidates in
    the order supplied, joined by newlines: block [i] (counting from 0) is
    headed by the 1-based rank [i+1] and the score in [.3f] format, followed
    by the question, the answer, the tags joined by [", "] or the text
    [No tags] when there are none, and the divider line [---]. The rank is
    printed in decimal, and the score as an optional sign, integer digits
    without a leading zero, a point and exactly three digits, which read as
    thousandths are the magnitude of the score rounded to the nearest
    thousandth (to the even one on a tie). For the two candidates with the
    scores 0.812 and 0.455 the context shows [0.812] and [0.455], in the
    order supplied. *)
Theorem prepare_context_blocks_in_order (self : AzureOpenAIHelper)
    (user_query : pystr) (relevant_faqs : list faq) (w : world) :
  let block (i : nat) (c : faq) : pystr :=
    lit "FAQ " ++ str_of_nat (S i) ++ lit " (Relevance Score: "
      ++ format_3f (faq_score c) ++ lit "):" ++ nl
      ++ lit "Question: " ++ faq_question c ++ nl
      ++ lit "Answer: " ++ faq_answer c ++ nl
      ++ lit "Tags: "
      ++ match faq_tags c with
         | [] => lit "No tags"
         | _ :: _ => join (lit ", ") (faq_tags c)
         end ++ nl
      ++ lit "---" in
  _prepare_context relevant_faqs = join nl (imap block relevant_faqs)
  /\ (forall i, decimal_value (str_of_nat (S i)) = N.of_nat (S i))
  /\ Forall (fun c =>
       exists whole frac,
         format_3f (faq_score c) =
           (if negative (faq_score c) then lit "-" else [])
             ++ whole ++ lit "." ++ frac
         /\ whole <> [] /\ forallb is_digit whole = true
         /\ (whole = lit "0" \/ head whole <> Some 48)
         /\ length frac = 3%nat /\ forallb is_digit frac = true
         /\ nearest_thousandth (faq_score c)
              (1000 * decimal_value whole + decimal_value frac)) relevant_faqs
  /\ requests (snd (generate_answer self user_query relevant_faqs w)) =
     requests w ++
       [ChatCall (answer_request self answer_system_prompt
          (lit "User Question: " ++ user_query ++ nl ++ nl
             ++ lit "Relevant FAQ Information:" ++ nl
             ++ join nl (imap block relevant_faqs) ++ nl ++ nl
             ++ lit "Please provide a comprehensive answer based on the above information."))]
  /\ _prepare_context Sample.two_candidates =
     join nl
       [ lit "FAQ 1 (Relevance Score: 0.812):";
         lit "Question: How do I set up billing?";
         lit "Answer: Open the portal.";
         lit "Tags: setup, pricing";
         lit "---";
         lit "FAQ 2 (Relevance Score: 0.455):";
         lit "Question: What does it cost?";
         lit "Answer: See the pricing page.";
         lit "Tags: pricing, billing";
         lit "---" ].
Proof.
  intros block. split; [apply _prepare_context_closed_form |].
  split; [intros i; apply decimal_value_str_of_N |]. split; [| split].
  - apply Forall_forall. intros c _. apply format_3f_value.
  - rewrite generate_answer_request. unfold answer_user_message.
    rewrite _prepare_context_closed_form. reflexivity.
  - vm_compute. reflexivity.
Qed.

(** ** Reading the suggestions (claims C2 and C10) *)

#[local] Arguments startswith_any : simpl never.

(** How the comprehension treats one line of the reply. *)
Lemma parse_suggestions_omap (text : pystr) :
  parse_suggestions text =
  omap (fun line =>
          if startswith_any line list_markers then None
          else match strip line with
               | [] => None
               | _ :: _ => Some (strip line)
               end)
       (split_on 10 text).
Proof.
  unfold parse_suggestions. induction (split_on 10 text) as [|line lines IH];
    simpl; [reflexivity |].
  destruct (startswith_any line list_markers); simpl.
  - rewrite andb_false_r. exact IH.
  - rewrite andb_true_r. destruct (strip line) eqn:Hs; simpl; rewrite ?Hs, ?IH; reflexivity.
Qed.

Lemma parse_suggestions_elem (text s : pystr) :
  In s (parse_suggestions text) ->
  exists line, In line (split_on 10 text) /\ s = strip line
    /\ s <> [] /\ startswith_any line list_markers = false.
Proof.
  unfold parse_suggestions. rewrite in_map_iff.
  intros (line & <- & Hline). apply filter_In in Hline as [Hin Hkeep].
  apply andb_true_iff in Hkeep as [Hne Hmark].
  exists line. repeat split; auto.
  - now apply truthy_nonempty.
  - now apply negb_true_iff.
Qed.

(** The value [suggest_related_questions] returns, by what the completion
    service replied. *)
Lemma suggest_related_questions_result (self : AzureOpenAIHelper)
    (user_query : pystr) (relevant_faqs : list faq) (w : world) :
  fst (suggest_related_questions self user_query relevant_faqs w) =
  Returns
    match chat_service (requests w)
            (suggest_request self suggest_system_prompt
               (suggest_user_message user_query
                  (join (lit ", ") (limited_topics relevant_faqs)))) with
    | Returns (MkChoice (Some text) :: _) => take 5 (parse_suggestions text)
    | _ => []
    end.
Proof.
  unfold suggest_related_questions, try_except, bind, chat_completions_create.
  simpl. destruct (chat_service _ _) as [[|[[text|]] rest]|e]; reflexivity.
Qed.

(** C2, as amended. [suggest_related_questions] always returns a list of at
    most 5 suggestions. When the service replies with a text, the list is
    read off the lines of that text in order: a line that begins with one of
    [1.], [2.], [3.], [4.], [5.], [-] or [*] is skipped, a line that is blank
    after stripping is skipped, every other line contributes its stripped
    text, and the first 5 are kept. For the reply
    ["1. What is X?\n- Some other line\nWhat is Y?"] the result is
    [["What is Y?"]]. *)
Theorem suggestions_skip_listed_markers (self : AzureOpenAIHelper)
    (user_query : pystr) (relevant_faqs : list faq) (w : world) :
  let reply :=
    chat_service (requests w)
      (suggest_request self suggest_system_prompt
         (suggest_user_message user_query
            (join (lit ", ") (limited_topics relevant_faqs)))) in
  exists suggestions,
    fst (suggest_related_questions self user_query relevant_faqs w)
      = Returns suggestions
    /\ (length suggestions <= 5)%nat
    /\ (forall text rest,
          reply = Returns (MkChoice (Some text) :: rest) ->
          suggestions =
            take 5
              (omap (fun line =>
                 if startswith_any line
                      [lit "1."; lit "2."; lit "3."; lit "4."; lit "5.";
                       lit "-"; lit "*"]
                 then None
                 else match strip line with
                      | [] => None
                      | _ :: _ => Some (strip line)
                      end)
                 (split_on 10 text)))
    /\ (forall rest,
          reply = Returns (MkChoice (Some
                    (lit "1. What is X?" ++ nl ++ lit "- Some other line"
                       ++ nl ++ lit "What is Y?")) :: rest) ->
          suggestions = [lit "What is Y?"]).
Proof.
  intros reply. eexists. split; [apply suggest_related_questions_result |].
  fold reply. split; [| split].
  - destruct reply as [[|[[text|]] rest]|e]; simpl; try lia.
    rewrite length_take. lia.
  - intros text rest ->. rewrite parse_suggestions_omap. reflexivity.
  - intros rest ->. vm_compute. reflexivity.
Qed.

(** C10. Every string [suggest_related_questions] returns is non-empty,
    neither starts nor ends with a whitespace character, and is the stripped
    form of some line of the text the service replied with; so no blank or
    whitespace-only line is ever returned. *)
Theorem suggestions_stripped_nonempty (self : AzureOpenAIHelper)
    (user_query : pystr) (relevant_faqs : list faq) (w : world) :
  exists suggestions,
    fst (suggest_related_questions self user_query relevant_faqs w)
      = Returns suggestions
    /\ Forall (fun s =>
         s <> []
         /\ (forall c, head s = Some c -> isspace c = false)
         /\ (forall c, last s = Some c -> isspace c = false)
         /\ exists text rest line,
              chat_service (requests w)
                (suggest_request self suggest_system_prompt
                   (suggest_user_message user_query
                      (join (lit ", ") (limited_topics relevant_faqs))))
                = Returns (MkChoice (Some text) :: rest)
              /\ In line (split_on 10 text) /\ s = strip line) suggestions.
Proof.
  eexists. split; [apply suggest_related_questions_result |].
  destruct (chat_service _ _) as [[|[[text|]] rest]|e] eqn:Hreply;
    try apply Forall_nil_2.
  apply Forall_forall. intros s Hs.
  apply (subseteq_take 5), list_elem_of_In, parse_suggestions_elem in Hs.
  destruct Hs as (line & Hin & -> & Hne & _).
  split; [exact Hne |]. split; [| split].
  - intros c Hc. apply (strip_no_outer_space line). now left.
  - intros c Hc. apply (strip_no_outer_space line). now right.
  - exists text, rest, line. auto.
Qed.

(** ** Fail-soft gateways (claims C4, C5 and C8) *)

(** The hits become candidates one for one, in the order of the service. *)
Lemma search_faqs_result (self : AzureCognitiveSearchHelper)
    (query : pystr) (top : Z) (w : world) :
  fst (search_faqs self query top w) =
  Returns
    match search_service (requests w) (semantic_search_request self query top) with
    | Returns hits =>
        map (fun result =>
               {| faq_id := res_id result;
                  faq_question := res_question result;
                  faq_answer := res_answer result;
                  faq_tags := default [] (res_tags result);
                  faq_score := default PyFloat.zero (res_score result);
                  faq_captions := default [] (res_captions result);
                  faq_answers := default [] (res_answers result) |}) hits
    | Raises _ => []
    end.
Proof.
  unfold search_faqs, try_except, bind, search_client_search. simpl.
  destruct (search_service _ _) as [hits|e]; simpl; [| reflexivity].
  f_equal. rewrite fold_left_snoc_map with
    (f := fun result =>
            {| faq_id := res_id result;
               faq_question := res_question result;
               faq_answer := res_answer result;
               faq_tags := default [] (res_tags result);
               faq_score := default PyFloat.zero (res_score result);
               faq_captions := default [] (res_captions result);
               faq_answers := default [] (res_answers result) |});
    reflexivity.
Qed.

(** C4. For every query, [search_faqs] returns a list and never raises;
    the list is empty both when the service reports no hit and when the call
    to the service fails. *)
Theorem search_faqs_fail_soft (self : AzureCognitiveSearchHelper)
    (query : pystr) (top : Z) (w : world) :
  let reply :=
    search_service (requests w) (semantic_search_request self query top) in
  (exists results, fst (search_faqs self query top w) = Returns results)
  /\ (reply = Returns [] -> fst (search_faqs self query top w) = Returns [])
  /\ (forall e, reply = Raises e ->
        fst (search_faqs self query top w) = Returns []).
Proof.
  intros reply. rewrite search_faqs_result. fold reply.
  split; [eexists; reflexivity |].
  split; [intros -> | intros e ->]; reflexivity.
Qed.

Lemma generate_answer_result (self : AzureOpenAIHelper)
    (user_query : pystr) (relevant_faqs : list faq) (w : world) :
  fst (generate_answer self user_query relevant_faqs w) =
  Returns
    match chat_service (requests w)
            (answer_request self answer_system_prompt
               (answer_user_message user_query (_prepare_context relevant_faqs))) with
    | Returns (choice :: _) => message_content choice
    | _ => Some apology
    end.
Proof.
  unfold generate_answer, try_except, bind, chat_completions_create. simpl.
  destruct (chat_service _ _) as [[|choice rest]|e]; reflexivity.
Qed.

(** C5. For every query and candidate list, [generate_answer] returns a
    value and never raises. If the completion call raises, or its response
    carries no choice, the value is the one fixed apology; if the call
    succeeds, the value is the content of the first choice, unchanged. *)
Theorem generate_answer_fail_soft (self : AzureOpenAIHelper)
    (user_query : pystr) (relevant_faqs : list faq) (w : world) :
  let reply :=
    chat_service (requests w)
      (answer_request self answer_system_prompt
         (answer_user_message user_query (_prepare_context relevant_faqs))) in
  let sorry :=
    lit "I apologize, but I encountered an error while generating your answer. Please try again or rephrase your question." in
  (exists answer,
     fst (generate_answer self user_query relevant_faqs w) = Returns answer)
  /\ (forall e, reply = Raises e ->
        fst (generate_answer self user_query relevant_faqs w) = Returns (Some sorry))
  /\ (reply = Returns [] ->
        fst (generate_answer self user_query relevant_faqs w) = Returns (Some sorry))
  /\ (forall text rest, reply = Returns (MkChoice (Some text) :: rest) ->
        fst (generate_answer self user_query relevant_faqs w) = Returns (Some text)).
Proof.
  intros reply sorry. rewrite generate_answer_result. fold reply.
  split; [eexists; reflexivity |].
  split; [intros e -> | split; [intros -> | intros text rest ->]]; reflexivity.
Qed.

Lemma forallb_rev {A} (f : A -> bool) (l : list A) :
  forallb f (rev l) = forallb f l.
Proof.
  induction l as [|a l IH]; simpl; [reflexivity |].
  rewrite forallb_app, IH. simpl. rewrite andb_true_r. apply andb_comm.
Qed.

(** The tokens of [s.split()] are non-empty, free of whitespace, and
    together are the non-whitespace characters of [s] in order. *)
Lemma split_ws_aux_spec (cur s : pystr) :
  forallb (fun c => negb (isspace c)) cur = true ->
  Forall (fun t => t <> [] /\ forallb (fun c => negb (isspace c)) t = true)
         (split_ws_aux cur s)
  /\ concat (split_ws_aux cur s)
     = rev cur ++ List.filter (fun c => negb (isspace c)) s.
Proof.
  revert cur. induction s as [|c s IH]; intros cur Hcur; simpl.
  - destruct cur as [|d cur]; simpl.
    + split; [constructor | reflexivity].
    + rewrite !app_nil_r. split; [| reflexivity].
      constructor; [| constructor]. split.
      * intros H. apply (f_equal (@length N)) in H.
        rewrite length_app in H. simpl in H. lia.
      * rewrite forallb_app, forallb_rev. simpl in *.
        apply andb_true_iff in Hcur as [-> ->]. reflexivity.
  - destruct (isspace c) eqn:Hc; simpl.
    + destruct (IH [] eq_refl) as [IH1 IH2]. simpl in IH2.
      destruct cur as [|d cur]; [auto |].
      split.
      * constructor; [| exact IH1]. split.
        -- intros H. apply (f_equal (@length N)) in H.
           simpl in H. rewrite length_app in H. simpl in H. lia.
        -- simpl. rewrite forallb_app, forallb_rev. simpl in *.
           apply andb_true_iff in Hcur as [-> ->]. reflexivity.
      * simpl. rewrite IH2. reflexivity.
    + destruct (IH (c :: cur)) as [IH1 IH2].
      { simpl. rewrite Hc, Hcur. reflexivity. }
      split; [exact IH1 |]. rewrite IH2. simpl. now rewrite <- app_assoc.
Qed.

Lemma split_ws_tokens (s : pystr) :
  Forall (fun t => t <> [] /\ forallb (fun c => negb (isspace c)) t = true)
         (split_ws s)
  /\ concat (split_ws s) = List.filter (fun c => negb (isspace c)) s.
Proof. apply (split_ws_aux_spec [] s). reflexivity. Qed.

Lemma analyze_query_intent_result (self : AzureOpenAIHelper)
    (query : pystr) (w : world) :
  fst (analyze_query_intent self query w) =
  Returns
    match chat_service (requests w)
            (intent_request self intent_system_prompt query) with
    | Returns (MkChoice (Some text) :: _) =>
        match json_loads text with
        | Returns v => Decoded v
        | Raises _ =>
            Fallback (MkIntent (lit "general_inquiry") (lit "general")
                               (split_ws query) (lit "medium"))
        end
    | _ => Fallback (MkIntent (lit "general_inquiry") (lit "general")
                              (split_ws query) (lit "medium"))
    end.
Proof.
  unfold analyze_query_intent, try_except, bind, chat_completions_create.
  simpl. destruct (chat_service _ _) as [[|[[text|]] rest]|e]; try reflexivity.
  simpl. destruct (json_loads text); reflexivity.
Qed.

(** C8. For every query, if the intent-analysis call raises, if its response
    carries no text, or if [json.loads] rejects the text, then
    [analyze_query_intent] returns exactly the dictionary with intent
    [general_inquiry], category [general], the whitespace-separated tokens of
    the query as keywords, and complexity [medium]. *)
Theorem analyze_query_intent_fallback (self : AzureOpenAIHelper)
    (query : pystr) (w : world) :
  let reply :=
    chat_service (requests w) (intent_request self intent_system_prompt query) in
  let fallback :=
    Fallback {| intent := lit "general_inquiry";
                category := lit "general";
                keywords := split_ws query;
                complexity := lit "medium" |} in
  (forall e, reply = Raises e ->
     fst (analyze_query_intent self query w) = Returns fallback)
  /\ (forall text rest e,
        reply = Returns (MkChoice (Some text) :: rest) ->
        json_loads text = Raises e ->
        fst (analyze_query_intent self query w) = Returns fallback)
  /\ (reply = Returns [] ->
        fst (analyze_query_intent self query w) = Returns fallback)
  /\ (forall rest, reply = Returns (MkChoice None :: rest) ->
        fst (analyze_query_intent self query w) = Returns fallback)
  /\ Forall (fun t => t <> [] /\ forallb (fun c => negb (isspace c)) t = true)
            (split_ws query)
  /\ concat (split_ws query) = List.filter (fun c => negb (isspace c)) query.
Proof.
  intros reply fallback. rewrite analyze_query_intent_result. fold reply.
  repeat split.
  - intros e ->. reflexivity.
  - intros text rest e -> ->. reflexivity.
  - intros ->. reflexivity.
  - intros rest ->. reflexivity.
  - apply split_ws_tokens.
  - apply split_ws_tokens.
Qed.

(** ** The turn handler (claim C3) *)

(** What a gateway call leaves alone: the transcript. *)
Lemma search_faqs_messages (self : AzureCognitiveSearchHelper)
    (query : pystr) (top : Z) (w : world) :
  exists results w',
    search_faqs self query top w = (Returns results, w')
    /\ messages w' = messages w
    /\ clock_reads w' = clock_reads w.
Proof.
  unfold search_faqs, try_except, bind, search_client_search. simpl.
  destruct (search_service _ _) as [hits|e]; simpl;
    eexists _, _; split; reflexivity || (split; reflexivity).
Qed.

Lemma generate_answer_messages (self : AzureOpenAIHelper)
    (user_query : pystr) (relevant_faqs : list faq) (w : world) :
  exists answer w',
    generate_answer self user_query relevant_faqs w = (Returns answer, w')
    /\ messages w' = messages w
    /\ clock_reads w' = clock_reads w.
Proof.
  unfold generate_answer, try_except, bind, chat_completions_create. simpl.
  destruct (chat_service _ _) as [[|choice rest]|e]; simpl;
    eexists _, _; split; reflexivity || (split; reflexivity).
Qed.

Lemma suggest_related_questions_messages (self : AzureOpenAIHelper)
    (user_query : pystr) (relevant_faqs : list faq) (w : world) :
  exists suggestions w',
    suggest_related_questions self user_query relevant_faqs w
      = (Returns suggestions, w')
    /\ messages w' = messages w.
Proof.
  unfold suggest_related_questions, try_except, bind, chat_completions_create.
  simpl. destruct (chat_service _ _) as [[|[[text|]] rest]|e]; simpl;
    eexists _, _; split; reflexivity.
Qed.

Lemma main_process_user_input_submitted
    (search_helper : AzureCognitiveSearchHelper)
    (openai_helper : AzureOpenAIHelper) (user_input : pystr) (w : world) :
  strip user_input <> [] ->
  exists answer w',
    main_process_user_input search_helper openai_helper true user_input w
      = (Returns tt, w')
    /\ messages w' =
       messages w ++
         [ MkTurn (lit "user") (Some user_input) (strftime_HM (clock_reads w));
           MkTurn (lit "assistant") answer (strftime_HM (S (clock_reads w))) ].
Proof.
  intros Hne. apply truthy_nonempty in Hne.
  unfold main_process_user_input. rewrite Hne. simpl.
  unfold bind at 1. unfold now_strftime_HM at 1.
  unfold bind at 1. unfold modify at 1.
  unfold bind at 1. unfold render at 1, modify at 1.
  unfold bind at 1. unfold try_except.
  set (w1 := add_screen _ (add_message _ (tick w))).
  unfold bind at 1.
  destruct (search_faqs_messages search_helper user_input 3 w1)
    as (faqs & w2 & -> & Hm2 & Hc2).
  unfold bind at 1.
  destruct (generate_answer_messages openai_helper user_input faqs w2)
    as (answer & w3 & -> & Hm3 & Hc3).
  unfold bind at 1. unfold now_strftime_HM at 1.
  unfold bind at 1. unfold modify at 1.
  unfold bind at 1. unfold render at 1, modify at 1.
  unfold bind at 1. unfold render at 1, modify at 1.
  unfold bind at 1.
  set (w4 := add_screen _ (add_screen _ (add_message _ (tick w3)))).
  destruct (suggest_related_questions_messages openai_helper user_input faqs w4)
    as (suggestions & w5 & -> & Hm5).
  exists answer.
  assert (Hfinal : messages w5 =
    messages w ++
      [ MkTurn (lit "user") (Some user_input) (strftime_HM (clock_reads w));
        MkTurn (lit "assistant") answer (strftime_HM (S (clock_reads w))) ]).
  { rewrite Hm5. subst w4. simpl. rewrite Hm3, Hm2, Hc3, Hc2. subst w1. simpl.
    rewrite <- app_assoc. reflexivity. }
  destruct suggestions as [|s l]; eexists; (split; [reflexivity | exact Hfinal]).
Qed.

Lemma main_process_user_input_blank
    (search_helper : AzureCognitiveSearchHelper)
    (openai_helper : AzureOpenAIHelper)
    (send_button : bool) (user_input : pystr) (w : world) :
  send_button = false \/ strip user_input = [] ->
  exists w',
    main_process_user_input search_helper openai_helper send_button user_input w
      = (Returns tt, w')
    /\ messages w' = messages w
    /\ requests w' = requests w.
Proof.
  intros H. unfold main_process_user_input.
  assert (send_button && truthy (strip user_input) = false) as ->.
  { destruct H as [-> | ->]; [reflexivity | apply andb_false_r]. }
  unfold bind, get. destruct (messages w) eqn:Hm; eexists; simpl; eauto.
Qed.

(** C3. Submitting an input whose stripped form is non-empty appends exactly
    one user turn to the transcript, carrying the input as typed, whatever
    the search and completion services do (fail or reply); the only other
    turn appended is the assistant's. Submitting an input that is empty or
    all whitespace leaves the transcript as it was and issues no call to a
    remote service. The handler itself never raises. *)
Theorem submit_appends_one_user_turn
    (search_helper : AzureCognitiveSearchHelper)
    (openai_helper : AzureOpenAIHelper) (user_input : pystr) (w : world) :
  let submit :=
    main_process_user_input search_helper openai_helper true user_input w in
  let user_turns (transcript : list turn) :=
    List.filter (fun t => bool_decide (turn_role t = lit "user")) transcript in
  fst submit = Returns tt
  /\ (strip user_input <> [] ->
        (exists answer,
           messages (snd submit) =
             messages w ++
               [ MkTurn (lit "user") (Some user_input) (strftime_HM (clock_reads w));
                 MkTurn (lit "assistant") answer (strftime_HM (S (clock_reads w))) ])
        /\ length (user_turns (messages (snd submit)))
           = S (length (user_turns (messages w))))
  /\ (strip user_input = [] ->
        messages (snd submit) = messages w
        /\ requests (snd submit) = requests w).
Proof.
  intros submit user_turns.
  destruct (strip user_input) as [|c s] eqn:Hstrip.
  - destruct (main_process_user_input_blank search_helper openai_helper true
                user_input w) as (w' & Hrun & Hm & Hr); [now right |].
    subst submit. rewrite Hrun. simpl.
    split; [reflexivity |]. split; [congruence | auto].
  - destruct (main_process_user_input_submitted search_helper openai_helper
                user_input w) as (answer & w' & Hrun & Hm); [congruence |].
    subst submit. rewrite Hrun. simpl.
    split; [reflexivity |]. split; [| discriminate].
    intros _. split; [exists answer; exact Hm |].
    rewrite Hm. unfold user_turns. rewrite List.filter_app, length_app.
    simpl. lia.
Qed.

(** ** The topics of a suggestion request (claim C6) *)

Lemma collect_topics_union (relevant_faqs : list faq) :
  collect_topics relevant_faqs = list_to_set (concat (map faq_tags relevant_faqs)).
Proof.
  unfold collect_topics.
  assert (G : forall acc : gset pystr,
    fold_left (fun topics faq => topics ∪ list_to_set (faq_tags faq))
              relevant_faqs acc
    = acc ∪ list_to_set (concat (map faq_tags relevant_faqs))).
  { induction relevant_faqs as [|c l IH]; intros acc; simpl.
    - symmetry. apply (right_id_L ∅ (∪)).
    - rewrite IH, list_to_set_app_L. symmetry. apply (assoc_L (∪)). }
  rewrite G. apply (left_id_L ∅ (∪)).
Qed.

Lemma set_iter_NoDup (s : gset pystr) : NoDup (set_iter s).
Proof. rewrite set_iter_perm. apply NoDup_elements. Qed.

Lemma set_iter_elem (s : gset pystr) (t : pystr) : t ∈ set_iter s <-> t ∈ s.
Proof. rewrite set_iter_perm. apply elem_of_elements. Qed.

Lemma set_iter_length (s : gset pystr) : length (set_iter s) = size s.
Proof. rewrite set_iter_perm. reflexivity. Qed.

Lemma suggest_related_questions_request (self : AzureOpenAIHelper)
    (user_query : pystr) (relevant_faqs : list faq) (w : world) :
  requests (snd (suggest_related_questions self user_query relevant_faqs w)) =
  requests w ++
    [ChatCall (suggest_request self suggest_system_prompt
       (suggest_user_message user_query
          (join (lit ", ") (limited_topics relevant_faqs))))].
Proof.
  unfold suggest_related_questions, try_except, bind, chat_completions_create.
  simpl. destruct (chat_service _ _) as [[|[[text|]] rest]|e]; reflexivity.
Qed.

(** C6, as amended. [suggest_related_questions] sends the model a list of
    topics without duplicates, each a tag of some candidate, of length
    [min 5 n] where [n] is the number of distinct tags across the candidates.
    When [n <= 5] the topics are exactly the union of the candidates' tags;
    in particular, for candidates tagged [setup, pricing] and
    [pricing, billing] they are [setup], [pricing] and [billing]. When
    [n > 5], which five tags are sent is fixed by the iteration order of the
    set, not by the order in which the tags were met. *)
Theorem suggestion_topics_distinct_at_most_five (self : AzureOpenAIHelper)
    (user_query : pystr) (relevant_faqs : list faq) (w : world) :
  let union : gset pystr :=
    list_to_set (concat (map faq_tags relevant_faqs)) in
  exists topics,
    requests (snd (suggest_related_questions self user_query relevant_faqs w)) =
      requests w ++
        [ChatCall (suggest_request self suggest_system_prompt
           (lit "User's Question: " ++ user_query ++ nl
              ++ lit "Related Topics: " ++ join (lit ", ") topics ++ nl ++ nl
              ++ lit "Please suggest 3-5 related questions that might be helpful."))]
    /\ NoDup topics
    /\ (forall t, t ∈ topics -> t ∈ union)
    /\ length topics = Nat.min 5 (size union)
    /\ ((size union <= 5)%nat -> list_to_set topics = union)
    /\ (map faq_tags relevant_faqs
          = [[lit "setup"; lit "pricing"]; [lit "pricing"; lit "billing"]] ->
        list_to_set topics
          = ({[ lit "setup"; lit "pricing"; lit "billing" ]} : gset pystr)).
Proof.
  intros union. exists (limited_topics relevant_faqs).
  split; [apply suggest_related_questions_request |].
  unfold limited_topics. rewrite collect_topics_union. fold union.
  assert (Hsmall : (size union <= 5)%nat ->
                   list_to_set (take 5 (set_iter union)) = union).
  { intros Hle. rewrite take_ge by (rewrite set_iter_length; exact Hle).
    apply set_eq. intros t. rewrite elem_of_list_to_set. apply set_iter_elem. }
  split; [| split; [| split; [| split]]].
  - eapply sublist_NoDup; [apply set_iter_NoDup | apply sublist_take].
  - intros t Ht. apply set_iter_elem. eapply subseteq_take, Ht.
  - rewrite length_take, set_iter_length. reflexivity.
  - exact Hsmall.
  - intros Htags.
    assert (Hnd : NoDup [lit "setup"; lit "pricing"; lit "billing"]).
    { apply (bool_decide_unpack _). vm_compute. exact I. }
    assert (Hunion : union = list_to_set [lit "setup"; lit "pricing"; lit "billing"]).
    { subst union. rewrite Htags. simpl.
      rewrite (assoc_L (∪) {[lit "pricing"]}), (idemp_L (∪)). reflexivity. }
    rewrite Hsmall.
    + rewrite Hunion. simpl. rewrite (right_id_L ∅ (∪)), (assoc_L (∪)).
      reflexivity.
    + rewrite Hunion, size_list_to_set by exact Hnd. simpl. lia.
Qed.

(** ** Uploading the seed file (claim C7) *)

(** The batches [documents[i:i+step]] for [i] in [range(0, len, step)]
    together hold every document. *)
Lemma batches_cover {A} (documents : list A) (step : nat) (d : A) :
  (0 < step)%nat ->
  In d documents ->
  exists i, In i (range_step (length documents) step)
            /\ In d (take step (drop i documents)).
Proof.
  intros Hstep Hd. apply list_elem_of_In, list_elem_of_lookup in Hd as [p Hp].
  pose proof (lookup_lt_Some _ _ _ Hp) as Hlt.
  pose proof (Nat.div_mod_eq p step) as Hdm.
  pose proof (Nat.mod_upper_bound p step ltac:(lia)) as Hmod.
  exists (p / step * step)%nat. split.
  - unfold range_step. apply in_map_iff. exists (p / step)%nat.
    split; [reflexivity |]. apply in_seq. split; [lia |]. simpl.
    apply Nat.Div0.div_lt_upper_bound.
    pose proof (Nat.div_mod_eq (length documents + step - 1) step) as Hq.
    pose proof (Nat.mod_upper_bound (length documents + step - 1) step
                  ltac:(lia)) as Hr.
    nia.
  - apply list_elem_of_In, list_elem_of_lookup. exists (p mod step)%nat.
    rewrite lookup_take_lt by exact Hmod. rewrite lookup_drop.
    rewrite <- Hp. f_equal. lia.
Qed.

Lemma batches_within {A} (documents : list A) (step i : nat) (d : A) :
  In d (take step (drop i documents)) -> In d documents.
Proof.
  intros H. apply list_elem_of_In. apply list_elem_of_In in H.
  eapply subseteq_drop, subseteq_take, H.
Qed.

(** One round of the loop that prepares the documents: a row that passes
    [row_ok] gives its document and reads the clock once; any other row
    raises before the clock is read. *)
Lemma prepare_document_run (documents : list document) (row : csv_row)
    (w : world) :
  if row_ok row
  then prepare_document documents row w
       = (Returns (documents
                   ++ [document_of row (utcnow_isoformat (clock_reads w))]),
          tick w)
  else exists e, prepare_document documents row w = (Raises e, w).
Proof.
  unfold row_ok, prepare_document, document_of, getitem.
  destruct (column (row_cells row) (lit "question")) as [q|];
    [| eexists; reflexivity].
  destruct (column (row_cells row) (lit "answer")) as [a|];
    [| eexists; reflexivity].
  destruct (column (row_cells row) (lit "tags")) as [[t| |ty text]|];
    try (eexists; reflexivity); reflexivity.
Qed.

(** The loop: it returns the documents of the rows, in order, when every
    row passes, and raises otherwise. In either case it only reads the
    clock. *)
Lemma prepare_documents_loop (df : list csv_row) (acc : list document)
    (w : world) :
  exists w',
    index w' = index w /\ requests w' = requests w /\ logs w' = logs w
    /\ if forallb row_ok df
       then for_each df acc prepare_document w
            = (Returns (acc ++ imap (fun i row =>
                          document_of row
                            (utcnow_isoformat (clock_reads w + i))) df),
               w')
       else exists e, for_each df acc prepare_document w = (Raises e, w').
Proof.
  revert acc w. induction df as [|row df IH]; intros acc w.
  - exists w. cbn [forallb for_each imap]. unfold ret. rewrite app_nil_r. auto.
  - cbn [for_each forallb]. unfold bind.
    pose proof (prepare_document_run acc row w) as Hrow.
    destruct (row_ok row); cbn [andb].
    + rewrite Hrow.
      destruct (IH (acc ++ [document_of row (utcnow_isoformat (clock_reads w))])
                   (tick w))
        as (w' & Hidx & Hreq & Hlog & Hrun).
      exists w'. split; [exact Hidx |]. split; [exact Hreq |].
      split; [exact Hlog |].
      destruct (forallb row_ok df); [| exact Hrun].
      rewrite Hrun, <- app_assoc. cbn [imap app]. rewrite Nat.add_0_r.
      do 4 f_equal. apply imap_ext. intros i r _.
      cbn [tick clock_reads compose]. rewrite !Nat.add_succ_r. reflexivity.
    + destruct Hrow as [e Hrow]. rewrite Hrow. exists w. eauto.
Qed.

Lemma prepare_documents_ok (df : list csv_row) (w : world) :
  forallb row_ok df = true ->
  exists w',
    prepare_documents df w
    = (Returns (imap (fun i row =>
                  document_of row (utcnow_isoformat (clock_reads w + i))) df),
       w')
    /\ index w' = index w /\ requests w' = requests w /\ logs w' = logs w.
Proof.
  intros Hok.
  destruct (prepare_documents_loop df [] w) as (w' & Hidx & Hreq & Hlog & Hrun).
  rewrite Hok in Hrun. exists w'. auto.
Qed.

Lemma prepare_documents_fails (df : list csv_row) (w : world) :
  forallb row_ok df = false ->
  exists e w',
    prepare_documents df w = (Raises e, w')
    /\ index w' = index w /\ requests w' = requests w /\ logs w' = logs w.
Proof.
  intros Hbad.
  destruct (prepare_documents_loop df [] w) as (w' & Hidx & Hreq & Hlog & Hrun).
  rewrite Hbad in Hrun. destruct Hrun as [e Hrun]. exists e, w'. auto.
Qed.

(** The identifiers of the documents are fixed by the labels of the rows:
    they depend neither on the cells nor on the clock. *)
Lemma prepared_ids (df : list csv_row) (clock : nat -> pystr) :
  map doc_id (imap (fun i row => document_of row (clock i)) df)
  = map (fun row => lit "faq_" ++ format_label (row_label row)) df.
Proof.
  revert clock. induction df as [|row df IH]; intros clock; [reflexivity |].
  cbn [imap map]. f_equal. apply (IH (clock ∘ S)).
Qed.

Lemma prepare_documents_ids (df : list csv_row) (w : world)
    (documents : list document) :
  fst (prepare_documents df w) = Returns documents ->
  map doc_id documents
  = map (fun row => lit "faq_" ++ format_label (row_label row)) df.
Proof.
  intros Hrun. destruct (forallb row_ok df) eqn:Hok.
  - destruct (prepare_documents_ok df w Hok) as (w' & Hdocs & _).
    rewrite Hdocs in Hrun. injection Hrun as <-. apply prepared_ids.
  - destruct (prepare_documents_fails df w Hok) as (e & w' & Hdocs & _).
    rewrite Hdocs in Hrun. discriminate.
Qed.

Lemma fold_upsert_dom (accepts : document -> bool) (batch : list document)
    (idx : gmap pystr document) :
  dom idx ⊆ dom (fold_left (upsert accepts) batch idx)
  /\ dom (fold_left (upsert accepts) batch idx)
     ⊆ dom idx ∪ list_to_set (map doc_id batch).
Proof.
  revert idx. induction batch as [|d batch IH]; intros idx; simpl.
  - split; [reflexivity | apply union_subseteq_l].
  - destruct (IH (upsert accepts idx d)) as [IH1 IH2].
    assert (H1 : dom idx ⊆ dom (upsert accepts idx d)).
    { unfold upsert. destruct (accepts d); [| reflexivity].
      rewrite dom_insert_L. apply union_subseteq_r. }
    assert (H2 : dom (upsert accepts idx d) ⊆ dom idx ∪ {[doc_id d]}).
    { unfold upsert. destruct (accepts d); [| apply union_subseteq_l].
      rewrite dom_insert_L, (comm_L (∪)). reflexivity. }
    split; [etransitivity; eassumption |].
    etransitivity; [exact IH2 |].
    rewrite (assoc_L (∪)). apply union_mono_r. exact H2.
Qed.

Lemma fold_upsert_dom_all (batch : list document) (idx : gmap pystr document) :
  dom (fold_left (upsert (fun _ => true)) batch idx)
  = dom idx ∪ list_to_set (map doc_id batch).
Proof.
  revert idx. induction batch as [|d batch IH]; intros idx; simpl.
  - symmetry. apply (right_id_L ∅ (∪)).
  - rewrite IH. unfold upsert. rewrite dom_insert_L.
    rewrite (comm_L (∪) {[doc_id d]}), (assoc_L (∪)). reflexivity.
Qed.

(** One round of the upload loop, by what the service replies. *)
Lemma upload_batch_run (self : AzureCognitiveSearchHelper)
    (documents : list document) (i : nat) (w : world) :
  let batch := take batch_size (drop i documents) in
  exists w',
    requests w' = requests w ++ [UploadCall (index_name self) batch]
    /\ match upload_service (requests w) (index_name self) batch with
       | Returns accepts =>
           upload_batch self documents i w = (Returns tt, w')
           /\ index w' = fold_left (upsert accepts) batch (index w)
           /\ logs w' =
              logs w
              ++ match List.filter (fun d => negb (accepts d)) batch with
                 | [] => []
                 | (_ :: _) as failed_docs =>
                     [(WARNING,
                       lit "Failed to upload " ++ str_of_nat (length failed_docs)
                         ++ lit " documents in batch "
                         ++ str_of_nat (i / batch_size + 1))]
                 end
              ++ [(INFO,
                   lit "Uploaded batch " ++ str_of_nat (i / batch_size + 1)
                     ++ lit " (" ++ str_of_nat (length batch)
                     ++ lit " documents)")]
       | Raises e =>
           upload_batch self documents i w = (Raises e, w')
           /\ index w' = index w /\ logs w' = logs w
       end.
Proof.
  intros batch.
  unfold upload_batch, bind, search_client_upload_documents.
  fold batch. cbv beta zeta.
  destruct (upload_service (requests w) (index_name self) batch) as [accepts|e].
  - assert (Hfailed :
      length (List.filter (fun doc => negb (succeeded doc))
                (map (fun d => MkIndexingResult (doc_id d) (accepts d)) batch))
      = length (List.filter (fun d => negb (accepts d)) batch)).
    { clear. induction batch as [|d batch IH]; [reflexivity |].
      cbn [map List.filter succeeded]. destruct (accepts d); cbn [negb length];
        now rewrite IH. }
    destruct (List.filter (fun doc => negb (succeeded doc)) _) as [|r rs] eqn:Hr;
      destruct (List.filter (fun d => negb (accepts d)) batch) as [|d ds] eqn:Hd;
      try discriminate Hfailed;
      eexists; (split; [| split; [reflexivity | split; [reflexivity |]]]);
      try reflexivity.
    unfold log, modify. cbn [logs add_log set_index add_request].
    rewrite Hfailed, <- app_assoc. reflexivity.
  - eexists. split; [| split; [reflexivity | split; reflexivity]]. reflexivity.
Qed.

(** A round of the upload loop only adds identifiers of its batch, and adds
    all of them when the service accepts every document. *)
Lemma upload_batch_dom (self : AzureCognitiveSearchHelper)
    (documents : list document) (i : nat) (w : world) :
  let batch := take batch_size (drop i documents) in
  let r := upload_batch self documents i w in
  dom (index w) ⊆ dom (index (snd r))
  /\ dom (index (snd r)) ⊆ dom (index w) ∪ list_to_set (map doc_id batch)
  /\ (upload_service (requests w) (index_name self) batch
        = Returns (fun _ => true) ->
      fst r = Returns tt
      /\ dom (index (snd r)) = dom (index w) ∪ list_to_set (map doc_id batch)).
Proof.
  intros batch r.
  destruct (upload_batch_run self documents i w) as (w' & _ & Hcase).
  fold batch in Hcase. subst r.
  destruct (upload_service (requests w) (index_name self) batch)
    as [accepts|e].
  - destruct Hcase as (-> & Hidx & _). cbn [fst snd]. rewrite Hidx.
    destruct (fold_upsert_dom accepts batch (index w)) as [H1 H2].
    split; [exact H1 |]. split; [exact H2 |].
    intros [= Hall]. split; [reflexivity |].
    rewrite Hall. apply fold_upsert_dom_all.
  - destruct Hcase as (-> & Hidx & _). cbn [fst snd]. rewrite Hidx.
    split; [reflexivity |]. split; [apply union_subseteq_l |]. discriminate.
Qed.

Lemma ids_of_batch_within (documents : list document) (i : nat) :
  (list_to_set (map doc_id (take batch_size (drop i documents))) : gset pystr)
  ⊆ list_to_set (map doc_id documents).
Proof.
  intros t. rewrite !elem_of_list_to_set, !list_elem_of_In, !in_map_iff.
  intros (d & Hd & Hin). exists d. split; [exact Hd |].
  eapply batches_within, Hin.
Qed.

(** Whatever the service does, the loop only adds identifiers of the
    documents it was given. *)
Lemma upload_rounds_dom (self : AzureCognitiveSearchHelper)
    (documents : list document) (offsets : list nat) (w : world) :
  let r := for_each offsets tt (fun _ i => upload_batch self documents i) w in
  dom (index w) ⊆ dom (index (snd r))
  /\ dom (index (snd r)) ⊆ dom (index w) ∪ list_to_set (map doc_id documents).
Proof.
  revert w. induction offsets as [|i offsets IH]; intros w; cbn [for_each].
  - simpl. split; [reflexivity | apply union_subseteq_l].
  - unfold bind.
    destruct (upload_batch_dom self documents i w) as (H1 & H2 & _).
    destruct (upload_batch self documents i w) as [[[]|e] w1]; simpl in *.
    + destruct (IH w1) as [IH1 IH2]. split; [etransitivity; eassumption |].
      etransitivity; [exact IH2 |].
      apply union_least; [| apply union_subseteq_r].
      etransitivity; [exact H2 |].
      apply union_mono_l, ids_of_batch_within.
    + split; [exact H1 |]. etransitivity; [exact H2 |].
      apply union_mono_l, ids_of_batch_within.
Qed.

(** When the service accepts every document, the loop completes and adds
    the identifiers of all batches. *)
Lemma upload_rounds_dom_accepting (self : AzureCognitiveSearchHelper)
    (documents : list document) (offsets : list nat) (w : world) :
  (forall history name batch,
     upload_service history name batch = Returns (fun _ => true)) ->
  let r := for_each offsets tt (fun _ i => upload_batch self documents i) w in
  fst r = Returns tt
  /\ dom (index (snd r))
     = dom (index w)
       ∪ list_to_set (concat (map (fun i =>
           map doc_id (take batch_size (drop i documents))) offsets)).
Proof.
  intros Hok. revert w.
  induction offsets as [|i offsets IH]; intros w; cbn [for_each].
  - simpl. split; [reflexivity |]. symmetry. apply (right_id_L ∅ (∪)).
  - unfold bind.
    destruct (upload_batch_dom self documents i w) as (_ & _ & H3).
    destruct (H3 (Hok _ _ _)) as [Hfst Hdom].
    destruct (upload_batch self documents i w) as [[[]|e] w1]; simpl in *;
      [| discriminate].
    destruct (IH w1) as [IH1 IH2]. split; [exact IH1 |].
    rewrite IH2, Hdom, list_to_set_app_L, (assoc_L (∪)). reflexivity.
Qed.

Lemma ids_of_batches (documents : list document) :
  (list_to_set (concat (map (fun i =>
      map doc_id (take batch_size (drop i documents)))
      (range_step (length documents) batch_size))) : gset pystr)
  = list_to_set (map doc_id documents).
Proof.
  apply set_eq. intros t.
  rewrite !elem_of_list_to_set, !list_elem_of_In, in_concat, in_map_iff.
  split.
  - intros (ids & Hids & Ht). apply in_map_iff in Hids as (i & <- & _).
    apply in_map_iff in Ht as (d & <- & Hd).
    exists d. split; [reflexivity | eapply batches_within, Hd].
  - intros (d & <- & Hd).
    destruct (batches_cover documents batch_size d) as (i & Hi & Hin);
      [unfold batch_size; lia | exact Hd |].
    exists (map doc_id (take batch_size (drop i documents))). split.
    + apply in_map_iff. exists i. auto.
    + apply in_map_iff. exists d. auto.
Qed.

Lemma faq_ids_NoDup (n : nat) :
  NoDup (map (fun i => lit "faq_" ++ str_of_nat i) (seq 0 n)).
Proof.
  change (NoDup ((fun i => lit "faq_" ++ str_of_nat i) <$> seq 0 n)).
  apply NoDup_fmap_2; [| apply NoDup_seq].
  intros i j H. apply app_inv_head in H. now apply str_of_nat_inj.
Qed.

(** With the default index the identifiers are [faq_0], [faq_1], ... *)
Lemma default_index_ids (df : list csv_row) :
  default_index df ->
  map (fun row => lit "faq_" ++ format_label (row_label row)) df
  = map (fun i => lit "faq_" ++ str_of_nat i) (seq 0 (length df)).
Proof.
  unfold default_index. intros Hdf.
  rewrite <- (map_map row_label (fun l => lit "faq_" ++ format_label l)), Hdf.
  rewrite map_map. apply map_ext. intros i. cbn [format_label]. f_equal.
  destruct i; reflexivity.
Qed.

(** An upload of a readable file, step by step: the documents, the loop,
    the result. When a row does not pass, the loop over the batches is never
    entered. *)
Lemma upload_faqs_from_csv_run (self : AzureCognitiveSearchHelper)
    (csv_file_path : pystr) (df : list csv_row) (w : world) :
  read_csv csv_file_path = Returns df ->
  if forallb row_ok df
  then exists documents w1 result w2,
         prepare_documents df w = (Returns documents, w1)
         /\ documents = imap (fun i row =>
              document_of row (utcnow_isoformat (clock_reads w + i))) df
         /\ index w1 = index w /\ requests w1 = requests w /\ logs w1 = logs w
         /\ for_each (range_step (length documents) batch_size) tt
              (fun _ i => upload_batch self documents i) w1 = (result, w2)
         /\ upload_faqs_from_csv self csv_file_path w
            = match result with
              | Returns _ =>
                  (Returns true,
                   add_log INFO
                     (lit "Successfully uploaded "
                        ++ str_of_nat (length documents)
                        ++ lit " FAQ documents") w2)
              | Raises e =>
                  (Returns false,
                   add_log ERROR (lit "Error uploading FAQs: " ++ e) w2)
              end
  else exists e w1,
         upload_faqs_from_csv self csv_file_path w
         = (Returns false, add_log ERROR (lit "Error uploading FAQs: " ++ e) w1)
         /\ index w1 = index w /\ requests w1 = requests w /\ logs w1 = logs w.
Proof.
  intros Hcsv. destruct (forallb row_ok df) eqn:Hok.
  - destruct (prepare_documents_ok df w Hok) as (w1 & Hdocs & Hidx & Hreq & Hlog).
    match type of Hdocs with
    | _ = (Returns ?d, _) => set (documents := d) in *
    end.
    destruct (for_each (range_step (length documents) batch_size) tt
                (fun _ i => upload_batch self documents i) w1)
      as [result w2] eqn:Hup.
    exists documents, w1, result, w2.
    split; [exact Hdocs |]. split; [reflexivity |].
    split; [exact Hidx |]. split; [exact Hreq |]. split; [exact Hlog |].
    split; [exact Hup |].
    unfold upload_faqs_from_csv, try_except, bind, upload_batches.
    rewrite Hcsv, Hdocs, Hup. destruct result as [[]|e]; reflexivity.
  - destruct (prepare_documents_fails df w Hok)
      as (e & w1 & Hdocs & Hidx & Hreq & Hlog).
    exists e, w1. split; [| auto].
    unfold upload_faqs_from_csv, try_except, bind.
    rewrite Hcsv, Hdocs. reflexivity.
Qed.

(** Whatever the services do, an upload only adds identifiers of the rows
    of the file. *)
Lemma upload_faqs_from_csv_dom (self : AzureCognitiveSearchHelper)
    (csv_file_path : pystr) (df : list csv_row) (w : world) :
  read_csv csv_file_path = Returns df ->
  let w' := snd (upload_faqs_from_csv self csv_file_path w) in
  dom (index w) ⊆ dom (index w')
  /\ dom (index w')
     ⊆ dom (index w)
       ∪ list_to_set (map (fun row => lit "faq_" ++ format_label (row_label row))
                          df).
Proof.
  intros Hcsv w'. subst w'.
  pose proof (upload_faqs_from_csv_run self csv_file_path df w Hcsv) as Hrun.
  destruct (forallb row_ok df).
  - destruct Hrun as (documents & w1 & result & w2 & Hdocs & Hform & Hidx & _
                      & _ & Hup & ->).
    pose proof (upload_rounds_dom self documents
                  (range_step (length documents) batch_size) w1) as [H1 H2].
    rewrite Hup in H1, H2. cbn [snd] in H1, H2.
    rewrite Hidx in H1, H2. rewrite Hform, prepared_ids in H2.
    destruct result; cbn [snd index add_log]; auto.
  - destruct Hrun as (e & w1 & -> & Hidx & _). cbn [snd index add_log].
    rewrite Hidx. split; [reflexivity | apply union_subseteq_l].
Qed.

(** When every row passes and the service accepts every document, an upload
    succeeds and stores a document under the identifier of every row. *)
Lemma upload_faqs_from_csv_accepting (self : AzureCognitiveSearchHelper)
    (csv_file_path : pystr) (df : list csv_row) (w : world) :
  read_csv csv_file_path = Returns df ->
  forallb row_ok df = true ->
  (forall history name batch,
     upload_service history name batch = Returns (fun _ => true)) ->
  fst (upload_faqs_from_csv self csv_file_path w) = Returns true
  /\ dom (index (snd (upload_faqs_from_csv self csv_file_path w)))
     = dom (index w)
       ∪ list_to_set (map (fun row => lit "faq_" ++ format_label (row_label row))
                          df).
Proof.
  intros Hcsv Hrows Hok.
  pose proof (upload_faqs_from_csv_run self csv_file_path df w Hcsv) as Hrun.
  rewrite Hrows in Hrun.
  destruct Hrun as (documents & w1 & result & w2 & Hdocs & Hform & Hidx & _
                    & _ & Hup & ->).
  pose proof (upload_rounds_dom_accepting self documents
                (range_step (length documents) batch_size) w1 Hok) as [H1 H2].
  rewrite Hup in H1, H2. cbn [fst snd] in H1, H2. subst result.
  cbn [fst snd index add_log].
  rewrite ids_of_batches, Hidx in H2. rewrite Hform, prepared_ids in H2. auto.
Qed.

(** C7, as the code has it. The identifier of a record is [faq_] followed by
    the label that pandas gave to its row: it is fixed by the labels alone,
    whatever the cells hold and whenever the file is loaded. The label is
    the position of the row when the file is read with the default index,
    and then a file of [n] rows yields the [n] distinct identifiers [faq_0]
    ... [faq_(n-1)]. Uploading a file to an index that already holds
    documents under its identifiers changes neither the set of identifiers
    nor the document count, whatever the service accepts; so when the
    service accepts the documents, uploading the file twice leaves the
    index with the same identifiers and the same count as uploading it
    once, and when moreover every row can be prepared the first upload
    succeeds and stores a document under the identifier of every row. *)
Theorem reupload_keeps_identifiers (self : AzureCognitiveSearchHelper)
    (csv_file_path : pystr) (df : list csv_row) :
  read_csv csv_file_path = Returns df ->
  let ids := map (fun row => lit "faq_" ++ format_label (row_label row)) df in
  (forall w documents,
      fst (prepare_documents df w) = Returns documents ->
      map doc_id documents = ids)
  /\ (forallb row_ok df = true ->
      forall w, exists documents,
        fst (prepare_documents df w) = Returns documents)
  /\ (default_index df ->
      ids = map (fun i => lit "faq_" ++ str_of_nat i) (seq 0 (length df))
      /\ NoDup ids)
  /\ (forall w,
        (forall id, id ∈ ids -> id ∈ dom (index w)) ->
        let w' := snd (upload_faqs_from_csv self csv_file_path w) in
        dom (index w') = dom (index w) /\ size (index w') = size (index w))
  /\ ((forall history name batch,
         upload_service history name batch = Returns (fun _ => true)) ->
      forall w,
        let once := snd (upload_faqs_from_csv self csv_file_path w) in
        let twice := snd (upload_faqs_from_csv self csv_file_path once) in
        dom (index twice) = dom (index once)
        /\ size (index twice) = size (index once)
        /\ (forallb row_ok df = true ->
            fst (upload_faqs_from_csv self csv_file_path w) = Returns true
            /\ dom (index once) = dom (index w) ∪ list_to_set ids)).
Proof.
  intros Hcsv ids.
  assert (Hsame : forall w,
    (forall id, id ∈ ids -> id ∈ dom (index w)) ->
    dom (index (snd (upload_faqs_from_csv self csv_file_path w)))
      = dom (index w)).
  { intros w Hheld.
    destruct (upload_faqs_from_csv_dom self csv_file_path df w Hcsv)
      as [H1 H2].
    apply (anti_symm (⊆)); [| exact H1].
    etransitivity; [exact H2 |]. apply union_least; [reflexivity |].
    intros id Hid. apply elem_of_list_to_set in Hid. now apply Hheld. }
  split; [| split; [| split; [| split]]].
  - intros w documents Hrun. now apply (prepare_documents_ids df w).
  - intros Hrows w.
    destruct (prepare_documents_ok df w Hrows) as (w' & Hrun & _).
    eexists. rewrite Hrun. reflexivity.
  - intros Hdefault. subst ids. rewrite (default_index_ids df Hdefault).
    split; [reflexivity | apply faq_ids_NoDup].
  - intros w Hheld w'. subst w'. split; [now apply Hsame |].
    rewrite <- !size_dom. f_equal. now apply Hsame.
  - intros Hok w once twice.
    assert (Htwice : dom (index twice) = dom (index once)).
    { destruct (forallb row_ok df) eqn:Hrows.
      - destruct (upload_faqs_from_csv_accepting self csv_file_path df w Hcsv
                    Hrows Hok) as [_ Hdom].
        apply Hsame. intros id Hid. subst once. rewrite Hdom.
        apply elem_of_union_r, elem_of_list_to_set, Hid.
      - subst twice.
        pose proof (upload_faqs_from_csv_run self csv_file_path df once Hcsv)
          as Hrun.
        rewrite Hrows in Hrun. destruct Hrun as (e & w1 & -> & Hidx & _).
        cbn [snd index add_log]. now rewrite Hidx. }
    split; [exact Htwice |].
    split; [rewrite <- !size_dom; f_equal; exact Htwice |].
    intros Hrows.
    exact (upload_faqs_from_csv_accepting self csv_file_path df w Hcsv Hrows Hok).
Qed.

(** ** Configuration at startup (claim C9) *)

Lemma create_search_helper_result (w : world) :
  create_search_helper w =
  if is_unset (environ w !! lit "AZURE_SEARCH_ENDPOINT")
     || is_unset (environ w !! lit "AZURE_SEARCH_KEY")
  then (Returns None,
        add_log ERROR (lit "Azure Cognitive Search configuration missing. Please set AZURE_SEARCH_ENDPOINT and AZURE_SEARCH_KEY") w)
  else (Returns (Some
          {| search_endpoint := default [] (environ w !! lit "AZURE_SEARCH_ENDPOINT");
             search_key := default [] (environ w !! lit "AZURE_SEARCH_KEY");
             index_name := default (lit "faq-index")
                             (environ w !! lit "AZURE_SEARCH_INDEX_NAME") |}),
        w).
Proof.
  unfold create_search_helper, bind, getenv, getenv_default.
  destruct (is_unset _ || is_unset _); reflexivity.
Qed.

(** The helper factory treats the index name as optional: with an endpoint
    and a key set and no index name, it returns a helper bound to the index
    [faq-index] and reports nothing. *)
Lemma create_search_helper_default_index (w : world) (endpoint key : pystr) :
  environ w !! lit "AZURE_SEARCH_ENDPOINT" = Some endpoint -> endpoint <> [] ->
  environ w !! lit "AZURE_SEARCH_KEY" = Some key -> key <> [] ->
  environ w !! lit "AZURE_SEARCH_INDEX_NAME" = None ->
  create_search_helper w
  = (Returns (Some (MkSearchHelper endpoint key (lit "faq-index"))), w).
Proof.
  intros He Hne Hk Hnk Hi. rewrite create_search_helper_result.
  unfold pystr in *. rewrite He, Hk, Hi.
  destruct endpoint, key; try congruence. reflexivity.
Qed.

(** A missing endpoint or key is fatal: no helper, and an error record. *)
Lemma create_search_helper_missing (w : world) :
  is_unset (environ w !! lit "AZURE_SEARCH_ENDPOINT") = true
  \/ is_unset (environ w !! lit "AZURE_SEARCH_KEY") = true ->
  fst (create_search_helper w) = Returns None
  /\ logs (snd (create_search_helper w)) =
     logs w ++ [(ERROR, lit "Azure Cognitive Search configuration missing. Please set AZURE_SEARCH_ENDPOINT and AZURE_SEARCH_KEY")].
Proof.
  intros H. rewrite create_search_helper_result.
  assert (is_unset (environ w !! lit "AZURE_SEARCH_ENDPOINT")
          || is_unset (environ w !! lit "AZURE_SEARCH_KEY") = true) as ->.
  { apply orb_true_iff. exact H. }
  split; reflexivity.
Qed.

(** The loop of the setup script that collects the unset variables. *)
Lemma missing_vars_loop (vars acc : list pystr) (w : world) :
  for_each vars acc (fun missing_vars var =>
    value <- getenv var ;;
    if is_unset value then ret (missing_vars ++ [var]) else ret missing_vars) w
  = (Returns (acc ++ List.filter (fun var => is_unset (environ w !! var)) vars), w).
Proof.
  revert acc. induction vars as [|var vars IH]; intros acc; cbn [for_each List.filter].
  - unfold ret. now rewrite app_nil_r.
  - unfold bind at 1. unfold bind at 1, getenv at 1.
    destruct (is_unset (environ w !! var)); unfold ret at 1; rewrite IH.
    + now rewrite <- app_assoc.
    + reflexivity.
Qed.

(** The setup script, in contrast, refuses to start without an index name,
    even when the endpoint and the key are set. *)
Lemma setup_index_requires_index_name (w : world) (endpoint key : pystr) :
  environ w !! lit "AZURE_SEARCH_ENDPOINT" = Some endpoint -> endpoint <> [] ->
  environ w !! lit "AZURE_SEARCH_KEY" = Some key -> key <> [] ->
  is_unset (environ w !! lit "AZURE_SEARCH_INDEX_NAME") = true ->
  exists w',
    setup_index_main_startup w = (Returns None, w')
    /\ screen w' =
       screen w ++
         [ PrintLine (128640 :: lit " Setting up Azure Cognitive Search Index for FAQ Chatbot");
           PrintLine (lit "============================================================");
           PrintLine (10060 :: lit " Missing required environment variables: AZURE_SEARCH_INDEX_NAME");
           PrintLine (lit "Please set these variables in your .env file or environment.") ]
    /\ requests w' = requests w.
Proof.
  intros He Hne Hk Hnk Hi.
  unfold setup_index_main_startup.
  unfold bind at 1. unfold render at 1, modify at 1.
  unfold bind at 1. unfold render at 1, modify at 1.
  unfold bind at 1. rewrite missing_vars_loop.
  unfold required_vars. cbn [List.filter environ add_screen app].
  unfold pystr in *. rewrite He, Hk, Hi.
  destruct endpoint, key; try congruence.
  cbn [is_unset]. unfold bind, render, modify, ret.
  eexists. split; [reflexivity |]. cbn [screen requests add_screen].
  split; [| reflexivity]. rewrite <- !app_assoc. reflexivity.
Qed.

(** * Further properties of the embedded code *)

(** ** What a gateway call does to the world *)

Lemma search_faqs_world (self : AzureCognitiveSearchHelper)
    (query : pystr) (top : Z) (w : world) :
  exists lvl msg,
    snd (search_faqs self query top w)
    = add_log lvl msg
        (add_request (SearchCall (semantic_search_request self query top)) w).
Proof.
  unfold search_faqs, try_except, bind, search_client_search, log, modify, ret.
  destruct (search_service _ _) as [hits|e]; eexists _, _; reflexivity.
Qed.

Lemma generate_answer_world (self : AzureOpenAIHelper)
    (user_query : pystr) (relevant_faqs : list faq) (w : world) :
  exists lvl msg,
    snd (generate_answer self user_query relevant_faqs w)
    = add_log lvl msg
        (add_request
           (ChatCall (answer_request self answer_system_prompt
              (answer_user_message user_query (_prepare_context relevant_faqs))))
           w).
Proof.
  unfold generate_answer, try_except, bind, chat_completions_create,
    first_content, log, modify, ret, raise.
  destruct (chat_service _ _) as [[|choice rest]|e]; eexists _, _; reflexivity.
Qed.

Lemma suggest_related_questions_world (self : AzureOpenAIHelper)
    (user_query : pystr) (relevant_faqs : list faq) (w : world) :
  exists lvl msg,
    snd (suggest_related_questions self user_query relevant_faqs w)
    = add_log lvl msg
        (add_request
           (ChatCall (suggest_request self suggest_system_prompt
              (suggest_user_message user_query
                 (join (lit ", ") (limited_topics relevant_faqs)))))
           w).
Proof.
  unfold suggest_related_questions, try_except, bind, chat_completions_create,
    first_content, log, modify, ret, raise.
  destruct (chat_service _ _) as [[|[[text|]] rest]|e];
    eexists _, _; reflexivity.
Qed.

(** What a gateway returns depends on the world only through the calls made
    so far. *)
Lemma search_faqs_history (self : AzureCognitiveSearchHelper)
    (query : pystr) (top : Z) (w1 w2 : world) :
  requests w1 = requests w2 ->
  fst (search_faqs self query top w1) = fst (search_faqs self query top w2).
Proof. intros H. rewrite !search_faqs_result, H. reflexivity. Qed.

Lemma generate_answer_history (self : AzureOpenAIHelper)
    (user_query : pystr) (relevant_faqs : list faq) (w1 w2 : world) :
  requests w1 = requests w2 ->
  fst (generate_answer self user_query relevant_faqs w1)
  = fst (generate_answer self user_query relevant_faqs w2).
Proof. intros H. rewrite !generate_answer_result, H. reflexivity. Qed.

Lemma suggest_related_questions_history (self : AzureOpenAIHelper)
    (user_query : pystr) (relevant_faqs : list faq) (w1 w2 : world) :
  requests w1 = requests w2 ->
  fst (suggest_related_questions self user_query relevant_faqs w1)
  = fst (suggest_related_questions self user_query relevant_faqs w2).
Proof. intros H. rewrite !suggest_related_questions_result, H. reflexivity. Qed.

(** A submitted turn, step by step: the three gateway results and the world
    the handler leaves. *)
Lemma main_process_user_input_run
    (search_helper : AzureCognitiveSearchHelper)
    (openai_helper : AzureOpenAIHelper) (user_input : pystr) (w : world) :
  strip user_input <> [] ->
  exists faqs answer suggestions w',
    let search_call := SearchCall (semantic_search_request search_helper user_input 3) in
    let answer_call :=
      ChatCall (answer_request openai_helper answer_system_prompt
                  (answer_user_message user_input (_prepare_context faqs))) in
    let suggest_call :=
      ChatCall (suggest_request openai_helper suggest_system_prompt
                  (suggest_user_message user_input
                     (join (lit ", ") (limited_topics faqs)))) in
    fst (search_faqs search_helper user_input 3 w) = Returns faqs
    /\ fst (generate_answer openai_helper user_input faqs
              (add_request search_call w)) = Returns answer
    /\ fst (suggest_related_questions openai_helper user_input faqs
              (add_request answer_call (add_request search_call w)))
       = Returns suggestions
    /\ main_process_user_input search_helper openai_helper true user_input w
       = (Returns tt, w')
    /\ requests w' = requests w ++ [search_call; answer_call; suggest_call]
    /\ messages w' =
       messages w ++
         [ MkTurn (lit "user") (Some user_input) (strftime_HM (clock_reads w));
           MkTurn (lit "assistant") answer (strftime_HM (S (clock_reads w))) ]
    /\ screen w' =
       screen w ++
         [ DisplayChatMessage (lit "user") (Some user_input)
             (strftime_HM (clock_reads w));
           DisplayChatMessage (lit "assistant") answer
             (strftime_HM (S (clock_reads w)));
           DisplayRelevantFaqs faqs ]
         ++ match suggestions with
            | [] => []
            | _ :: _ => [StMarkdown (lit "---"); DisplaySuggestions suggestions]
            end
         ++ [StRerun]
    /\ index w' = index w /\ environ w' = environ w.
Proof.
  intros Hne. apply truthy_nonempty in Hne.
  unfold main_process_user_input. rewrite Hne. cbn [andb].
  unfold bind at 1. unfold now_strftime_HM at 1.
  unfold bind at 1. unfold modify at 1.
  unfold bind at 1. unfold render at 1, modify at 1.
  unfold bind at 1. unfold try_except.
  set (w1 := add_screen _ (add_message _ (tick w))).
  unfold bind at 1.
  destruct (search_faqs_messages search_helper user_input 3 w1)
    as (faqs & w2 & Hs & _ & _).
  destruct (search_faqs_world search_helper user_input 3 w1) as (l1 & m1 & Hw2).
  rewrite Hs in Hw2. cbn [snd] in Hw2. rewrite Hs.
  unfold bind at 1.
  destruct (generate_answer_messages openai_helper user_input faqs w2)
    as (answer & w3 & Ha & _ & _).
  destruct (generate_answer_world openai_helper user_input faqs w2)
    as (l2 & m2 & Hw3).
  rewrite Ha in Hw3. cbn [snd] in Hw3. rewrite Ha.
  unfold bind at 1. unfold now_strftime_HM at 1.
  unfold bind at 1. unfold modify at 1.
  unfold bind at 1. unfold render at 1, modify at 1.
  unfold bind at 1. unfold render at 1, modify at 1.
  unfold bind at 1.
  set (w4 := add_screen _ (add_screen _ (add_message _ (tick w3)))).
  destruct (suggest_related_questions_messages openai_helper user_input faqs w4)
    as (suggestions & w5 & Hg & _).
  destruct (suggest_related_questions_world openai_helper user_input faqs w4)
    as (l3 & m3 & Hw5).
  rewrite Hg in Hw5. cbn [snd] in Hw5. rewrite Hg.
  exists faqs, answer, suggestions.
  assert (Hfaqs : fst (search_faqs search_helper user_input 3 w) = Returns faqs).
  { rewrite (search_faqs_history _ _ _ w w1) by reflexivity. now rewrite Hs. }
  assert (Hanswer : fst (generate_answer openai_helper user_input faqs
             (add_request (SearchCall (semantic_search_request search_helper
                                         user_input 3)) w)) = Returns answer).
  { rewrite (generate_answer_history _ _ _ _ w2); [now rewrite Ha |].
    rewrite Hw2. reflexivity. }
  assert (Hsugg : fst (suggest_related_questions openai_helper user_input faqs
             (add_request
                (ChatCall (answer_request openai_helper answer_system_prompt
                   (answer_user_message user_input (_prepare_context faqs))))
                (add_request (SearchCall (semantic_search_request search_helper
                                            user_input 3)) w)))
           = Returns suggestions).
  { rewrite (suggest_related_questions_history _ _ _ _ w4); [now rewrite Hg |].
    subst w4. rewrite Hw3, Hw2. reflexivity. }
  destruct suggestions as [|s l]; eexists;
    (split; [exact Hfaqs |]); (split; [exact Hanswer |]);
    (split; [exact Hsugg |]); (split; [reflexivity |]);
    unfold bind, render, modify, ret; cbn [fst snd];
    rewrite Hw5; subst w4; rewrite Hw3, Hw2; subst w1;
    cbn [requests messages screen index environ clock_reads
         add_log add_request add_screen add_message tick];
    rewrite <- ?app_assoc; repeat split; reflexivity.
Qed.

(** ** The turn handler, further *)

(** X1. A submitted non-blank input causes exactly three remote calls, in
    this order: the search for the input as typed (not stripped) with
    [top = 3], the answer request built from the candidates the search
    returned, and the suggestion request built from the same candidates;
    this holds whatever the services reply. *)
Theorem submit_issues_three_calls_in_order
    (search_helper : AzureCognitiveSearchHelper)
    (openai_helper : AzureOpenAIHelper) (user_input : pystr) (w : world) :
  strip user_input <> [] ->
  exists faqs,
    fst (search_faqs search_helper user_input 3 w) = Returns faqs
    /\ requests (snd (main_process_user_input search_helper openai_helper
                        true user_input w))
       = requests w ++
           [ SearchCall (semantic_search_request search_helper user_input 3);
             ChatCall (answer_request openai_helper answer_system_prompt
                         (answer_user_message user_input (_prepare_context faqs)));
             ChatCall (suggest_request openai_helper suggest_system_prompt
                         (suggest_user_message user_input
                            (join (lit ", ") (limited_topics faqs)))) ]
    /\ search_text (semantic_search_request search_helper user_input 3) = user_input
    /\ top (semantic_search_request search_helper user_input 3) = 3%Z.
Proof.
  intros Hne.
  destruct (main_process_user_input_run search_helper openai_helper
              user_input w Hne)
    as (faqs & answer & suggestions & w' & Hf & _ & _ & Hrun & Hreq & _).
  exists faqs. rewrite Hrun. auto.
Qed.

(** X2. When the search fails or finds nothing, the handler still asks the
    model for an answer, with an empty FAQ context, still appends the
    assistant turn and shows an empty list of relevant FAQs. *)
Theorem submit_without_candidates_still_answers
    (search_helper : AzureCognitiveSearchHelper)
    (openai_helper : AzureOpenAIHelper) (user_input : pystr) (w : world) :
  strip user_input <> [] ->
  (search_service (requests w) (semantic_search_request search_helper user_input 3)
     = Returns []
   \/ exists e,
        search_service (requests w)
          (semantic_search_request search_helper user_input 3) = Raises e) ->
  let w' := snd (main_process_user_input search_helper openai_helper
                   true user_input w) in
  In (ChatCall (answer_request openai_helper answer_system_prompt
        (lit "User Question: " ++ user_input ++ nl ++ nl
           ++ lit "Relevant FAQ Information:" ++ nl ++ nl ++ nl
           ++ lit "Please provide a comprehensive answer based on the above information.")))
     (requests w')
  /\ In (DisplayRelevantFaqs []) (screen w')
  /\ exists answer timestamp,
       last (messages w') = Some (MkTurn (lit "assistant") answer timestamp).
Proof.
  intros Hne Hsearch w'. subst w'.
  destruct (main_process_user_input_run search_helper openai_helper
              user_input w Hne)
    as (faqs & answer & suggestions & w' & Hf & _ & _ & Hrun & Hreq & Hmsg
        & Hscr & _).
  assert (faqs = []) as ->.
  { rewrite search_faqs_result in Hf.
    destruct Hsearch as [Hs | [e Hs]]; rewrite Hs in Hf; now injection Hf. }
  rewrite Hrun. cbn [snd]. rewrite Hreq, Hscr, Hmsg. split; [| split].
  - apply in_app_iff. right. right. left. reflexivity.
  - apply in_app_iff. right. apply in_app_iff. left. right. right. left.
    reflexivity.
  - eexists _, _. rewrite last_app. reflexivity.
Qed.

(** X3. While the completion service is down, a submitted non-blank input
    still yields an assistant turn, whose content is the fixed apology, and
    nothing is shown after the relevant FAQs: no divider and no
    suggestions. *)
Theorem submit_with_model_down_apologizes
    (search_helper : AzureCognitiveSearchHelper)
    (openai_helper : AzureOpenAIHelper) (user_input : pystr) (w : world) :
  strip user_input <> [] ->
  (forall history r, exists e, chat_service history r = Raises e) ->
  let w' := snd (main_process_user_input search_helper openai_helper
                   true user_input w) in
  exists faqs,
    messages w' =
      messages w ++
        [ MkTurn (lit "user") (Some user_input) (strftime_HM (clock_reads w));
          MkTurn (lit "assistant") (Some apology)
                 (strftime_HM (S (clock_reads w))) ]
    /\ screen w' =
       screen w ++
         [ DisplayChatMessage (lit "user") (Some user_input)
             (strftime_HM (clock_reads w));
           DisplayChatMessage (lit "assistant") (Some apology)
             (strftime_HM (S (clock_reads w)));
           DisplayRelevantFaqs faqs;
           StRerun ].
Proof.
  intros Hne Hdown w'. subst w'.
  destruct (main_process_user_input_run search_helper openai_helper
              user_input w Hne)
    as (faqs & answer & suggestions & w' & _ & Ha & Hg & Hrun & _ & Hmsg
        & Hscr & _).
  rewrite generate_answer_result in Ha.
  rewrite suggest_related_questions_result in Hg.
  destruct (Hdown (requests (add_request
              (SearchCall (semantic_search_request search_helper user_input 3))
              w))
            (answer_request openai_helper answer_system_prompt
               (answer_user_message user_input (_prepare_context faqs))))
    as [e1 He1].
  rewrite He1 in Ha. injection Ha as <-.
  match type of Hg with
  | Returns (match chat_service ?h ?r with _ => _ end) = _ =>
      destruct (Hdown h r) as [e2 He2]; rewrite He2 in Hg
  end.
  injection Hg as <-.
  exists faqs. rewrite Hrun. cbn [snd]. rewrite Hmsg, Hscr.
  split; reflexivity.
Qed.

(** X4. Without a submission (the button not pressed, or only whitespace in
    the text area) the handler changes nothing but the screen: when the
    transcript is empty it shows the welcome message, and otherwise it
    leaves the world exactly as it was. *)
Theorem idle_run_changes_nothing
    (search_helper : AzureCognitiveSearchHelper)
    (openai_helper : AzureOpenAIHelper)
    (send_button : bool) (user_input : pystr) (w : world) :
  send_button = false \/ strip user_input = [] ->
  main_process_user_input search_helper openai_helper send_button user_input w
  = (Returns tt,
     match messages w with
     | [] =>
         add_screen
           (StInfo (128075 :: lit " Welcome! I'm your AI-powered FAQ assistant. Ask me anything about Azure services, and I'll provide intelligent answers based on our FAQ database."))
           w
     | _ :: _ => w
     end).
Proof.
  intros H. unfold main_process_user_input.
  assert (send_button && truthy (strip user_input) = false) as ->.
  { destruct H as [-> | ->]; [reflexivity | apply andb_false_r]. }
  unfold bind, get, render, modify, ret. destruct (messages w); reflexivity.
Qed.

(** ** The generation gateway, further *)

(** X5. [suggest_related_questions] returns the empty list and logs one
    error record when the completion call raises, when the response carries
    no choice, and when the first choice has no content. *)
Theorem suggest_related_questions_failure_is_empty (self : AzureOpenAIHelper)
    (user_query : pystr) (relevant_faqs : list faq) (w : world) :
  let reply :=
    chat_service (requests w)
      (suggest_request self suggest_system_prompt
         (suggest_user_message user_query
            (join (lit ", ") (limited_topics relevant_faqs)))) in
  ((exists e, reply = Raises e) \/ reply = Returns []
   \/ exists rest, reply = Returns (MkChoice None :: rest)) ->
  fst (suggest_related_questions self user_query relevant_faqs w) = Returns []
  /\ exists reason,
       logs (snd (suggest_related_questions self user_query relevant_faqs w))
       = logs w ++ [(ERROR, lit "Error suggesting related questions: " ++ reason)].
Proof.
  intros reply H. subst reply.
  unfold suggest_related_questions, try_except, bind, chat_completions_create,
    first_content, log, modify, ret, raise.
  destruct H as [[e H] | [H | [rest H]]]; rewrite H; cbn;
    (split; [reflexivity | eexists; reflexivity]).
Qed.

(** X6. When the first choice of a successful response has no content,
    [generate_answer] returns [None], not the apology, and logs no error. *)
Theorem generate_answer_null_content (self : AzureOpenAIHelper)
    (user_query : pystr) (relevant_faqs : list faq) (w : world)
    (rest : list chat_choice) :
  chat_service (requests w)
    (answer_request self answer_system_prompt
       (answer_user_message user_query (_prepare_context relevant_faqs)))
    = Returns (MkChoice None :: rest) ->
  fst (generate_answer self user_query relevant_faqs w) = Returns None
  /\ logs (snd (generate_answer self user_query relevant_faqs w))
     = logs w ++ [(INFO, lit "Generated answer for query: '"
                           ++ take 50 user_query ++ lit "...'")].
Proof.
  intros H.
  unfold generate_answer, try_except, bind, chat_completions_create,
    first_content, log, modify, ret.
  rewrite H. cbn. split; reflexivity.
Qed.

Lemma parse_suggestions_skips_all (text : pystr) :
  Forall (fun line => startswith_any line list_markers = true \/ strip line = [])
         (split_on 10 text) ->
  parse_suggestions text = [].
Proof.
  unfold parse_suggestions. induction (split_on 10 text) as [|line lines IH];
    intros H; [reflexivity |].
  apply Forall_cons in H as [Hline Hrest]. cbn [List.filter].
  destruct Hline as [-> | ->]; cbn; [rewrite andb_false_r |]; now apply IH.
Qed.

(** X7. If every line of the model's reply begins with one of the listed
    markers or is blank, [suggest_related_questions] returns no suggestion
    at all; so a reply that numbers each of its suggestions [1.] to [5.]
    yields the empty list. *)
Theorem numbered_reply_yields_no_suggestion (self : AzureOpenAIHelper)
    (user_query : pystr) (relevant_faqs : list faq) (w : world)
    (text : pystr) (rest : list chat_choice) :
  chat_service (requests w)
    (suggest_request self suggest_system_prompt
       (suggest_user_message user_query
          (join (lit ", ") (limited_topics relevant_faqs))))
    = Returns (MkChoice (Some text) :: rest) ->
  Forall (fun line =>
            startswith_any line
              [lit "1."; lit "2."; lit "3."; lit "4."; lit "5."; lit "-"; lit "*"]
              = true
            \/ strip line = [])
         (split_on 10 text) ->
  fst (suggest_related_questions self user_query relevant_faqs w) = Returns [].
Proof.
  intros Hreply Hall. rewrite suggest_related_questions_result, Hreply.
  rewrite (parse_suggestions_skips_all text Hall). reflexivity.
Qed.

Lemma startswith_any_space (c : N) (tail : pystr) :
  isspace c = true -> startswith_any (c :: tail) list_markers = false.
Proof.
  intros Hc. unfold startswith_any, list_markers. cbn [existsb].
  assert (H : forall p ps, isspace p = false ->
                startswith (c :: tail) (p :: ps) = false).
  2: { rewrite !orb_false_iff. repeat split; try (apply (H _ [_]); reflexivity);
       try (apply (H _ []); reflexivity). }
  intros p ps Hp. cbn [startswith].
  destruct (N.eqb_spec c p) as [-> |]; [congruence | reflexivity].
Qed.

(** X8. The marker test looks at the raw line, the result at the stripped
    line: a non-blank line that begins with whitespace is always retained by
    the comprehension, as its stripped text, even when a list marker follows
    the whitespace. *)
Theorem indented_line_is_retained (text line : pystr) (c : N) (tail : pystr) :
  In line (split_on 10 text) ->
  line = c :: tail -> isspace c = true -> strip line <> [] ->
  In (strip line) (parse_suggestions text).
Proof.
  intros Hin -> Hc Hne. unfold parse_suggestions.
  apply in_map, filter_In. split; [exact Hin |].
  rewrite (startswith_any_space c tail Hc), andb_true_r.
  now apply truthy_nonempty.
Qed.

Lemma create_openai_helper_result (w : world) :
  create_openai_helper w =
  if is_unset (environ w !! lit "AZURE_OPENAI_ENDPOINT")
     || is_unset (environ w !! lit "AZURE_OPENAI_KEY")
     || is_unset (environ w !! lit "AZURE_OPENAI_DEPLOYMENT_NAME")
  then (Returns None,
        add_log ERROR (lit "Azure OpenAI configuration missing. Please set AZURE_OPENAI_ENDPOINT, AZURE_OPENAI_KEY, and AZURE_OPENAI_DEPLOYMENT_NAME") w)
  else (Returns (Some
          {| openai_endpoint := default [] (environ w !! lit "AZURE_OPENAI_ENDPOINT");
             openai_key := default [] (environ w !! lit "AZURE_OPENAI_KEY");
             deployment_name :=
               default [] (environ w !! lit "AZURE_OPENAI_DEPLOYMENT_NAME");
             api_version := default (lit "2023-12-01-preview")
                              (environ w !! lit "AZURE_OPENAI_API_VERSION") |}),
        w).
Proof.
  unfold create_openai_helper, bind, getenv, getenv_default.
  destruct (is_unset _ || is_unset _ || is_unset _); reflexivity.
Qed.

Lemma is_unset_false (v : option pystr) :
  is_unset v = false <-> exists s, v = Some s /\ s <> [].
Proof.
  destruct v as [[|c s]|]; simpl; split; try discriminate.
  - intros (s & [= <-] & H). congruence.
  - intros _. eexists. split; [reflexivity | discriminate].
  - intros (s' & _ & _). reflexivity.
  - intros (s & [=] & _).
Qed.

(** X9. [create_search_helper] returns a helper exactly when the endpoint
    and the key are both set to non-empty strings, and then reports nothing
    and holds the two values unchanged; otherwise it returns [None] and logs
    one error. The index name is whatever the variable holds, the empty
    string included: the default [faq-index] is used only when the variable
    is absent. The factory never calls a remote service. *)
Theorem create_search_helper_iff (w : world) :
  let endpoint := environ w !! lit "AZURE_SEARCH_ENDPOINT" in
  let key := environ w !! lit "AZURE_SEARCH_KEY" in
  let name := environ w !! lit "AZURE_SEARCH_INDEX_NAME" in
  ((exists e k, endpoint = Some e /\ e <> [] /\ key = Some k /\ k <> []
       /\ create_search_helper w
          = (Returns (Some (MkSearchHelper e k
                              match name with
                              | Some n => n
                              | None => lit "faq-index"
                              end)), w))
   \/ ((is_unset endpoint = true \/ is_unset key = true)
       /\ fst (create_search_helper w) = Returns None
       /\ logs (snd (create_search_helper w)) =
          logs w ++ [(ERROR, lit "Azure Cognitive Search configuration missing. Please set AZURE_SEARCH_ENDPOINT and AZURE_SEARCH_KEY")]))
  /\ requests (snd (create_search_helper w)) = requests w.
Proof.
  intros endpoint key name.
  pose proof (create_search_helper_result w) as Hrun.
  change (environ w !! lit "AZURE_SEARCH_ENDPOINT") with endpoint in Hrun.
  change (environ w !! lit "AZURE_SEARCH_KEY") with key in Hrun.
  change (environ w !! lit "AZURE_SEARCH_INDEX_NAME") with name in Hrun.
  clearbody endpoint key name. rewrite Hrun. clear Hrun.
  destruct endpoint as [[|c e]|]; cbn;
    try (split; [right | reflexivity]; repeat split; auto; fail).
  destruct key as [[|c' k]|]; cbn;
    try (split; [right | reflexivity]; repeat split; auto; fail).
  split; [left | reflexivity].
  exists (c :: e), (c' :: k). repeat split; discriminate.
Qed.

(** X10. [create_openai_helper] returns a helper exactly when endpoint, key
    and deployment name are all set to non-empty strings; the API version is
    whatever its variable holds and [2023-12-01-preview] when it is absent.
    Otherwise the factory returns [None] and logs one error. It never calls
    a remote service. *)
Theorem create_openai_helper_iff (w : world) :
  let endpoint := environ w !! lit "AZURE_OPENAI_ENDPOINT" in
  let key := environ w !! lit "AZURE_OPENAI_KEY" in
  let deployment := environ w !! lit "AZURE_OPENAI_DEPLOYMENT_NAME" in
  let version := environ w !! lit "AZURE_OPENAI_API_VERSION" in
  ((exists e k d,
       endpoint = Some e /\ e <> [] /\ key = Some k /\ k <> []
       /\ deployment = Some d /\ d <> []
       /\ create_openai_helper w
          = (Returns (Some (MkOpenAIHelper e k d
                              match version with
                              | Some v => v
                              | None => lit "2023-12-01-preview"
                              end)), w))
   \/ ((is_unset endpoint = true \/ is_unset key = true
        \/ is_unset deployment = true)
       /\ fst (create_openai_helper w) = Returns None
       /\ logs (snd (create_openai_helper w)) =
          logs w ++ [(ERROR, lit "Azure OpenAI configuration missing. Please set AZURE_OPENAI_ENDPOINT, AZURE_OPENAI_KEY, and AZURE_OPENAI_DEPLOYMENT_NAME")]))
  /\ requests (snd (create_openai_helper w)) = requests w.
Proof.
  intros endpoint key deployment version.
  pose proof (create_openai_helper_result w) as Hrun.
  change (environ w !! lit "AZURE_OPENAI_ENDPOINT") with endpoint in Hrun.
  change (environ w !! lit "AZURE_OPENAI_KEY") with key in Hrun.
  change (environ w !! lit "AZURE_OPENAI_DEPLOYMENT_NAME") with deployment in Hrun.
  change (environ w !! lit "AZURE_OPENAI_API_VERSION") with version in Hrun.
  clearbody endpoint key deployment version. rewrite Hrun. clear Hrun.
  destruct endpoint as [[|c e]|]; cbn;
    try (split; [right | reflexivity]; repeat split; auto; fail).
  destruct key as [[|c' k]|]; cbn;
    try (split; [right | reflexivity]; repeat split; auto; fail).
  destruct deployment as [[|c'' d]|]; cbn;
    try (split; [right | reflexivity]; repeat split; auto; fail).
  split; [left | reflexivity].
  exists (c :: e), (c' :: k), (c'' :: d). repeat split; discriminate.
Qed.

(** ** The search gateway, further *)

(** X11. [search_faqs] returns one candidate per hit of the service, in the
    service's order and however many there are (the bound [top] is sent to
    the service but not enforced locally). Each candidate keeps the hit's
    id, question and answer; a hit without tags gets the empty tag list and
    a hit without score the score 0. *)
Theorem search_faqs_keeps_hits_in_order (self : AzureCognitiveSearchHelper)
    (query : pystr) (top : Z) (w : world) (hits : list search_result) :
  search_service (requests w) (semantic_search_request self query top)
    = Returns hits ->
  exists results,
    fst (search_faqs self query top w) = Returns results
    /\ length results = length hits
    /\ forall i hit, hits !! i = Some hit ->
         exists c, results !! i = Some c
           /\ faq_id c = res_id hit
           /\ faq_question c = res_question hit
           /\ faq_answer c = res_answer hit
           /\ faq_tags c = match res_tags hit with Some t => t | None => [] end
           /\ faq_score c = match res_score hit with
                            | Some x => x
                            | None => MkFloat false 0 0
                            end.
Proof.
  intros Hreply. rewrite search_faqs_result, Hreply.
  eexists. split; [reflexivity |]. split; [apply length_map |].
  intros i hit Hi. eexists. split.
  - change (map ?f hits) with (f <$> hits). rewrite list_lookup_fmap, Hi.
    reflexivity.
  - cbn. repeat split; destruct hit as [? ? ? [?|] [?|] ? ?]; reflexivity.
Qed.

(** ** Uploading the seed file, further *)

Lemma split_on_nonempty (sep : N) (s : pystr) : split_on sep s <> [].
Proof.
  induction s as [|c s IH]; simpl; [discriminate |].
  destruct (c =? sep); [discriminate |].
  destruct (split_on sep s); discriminate.
Qed.

(** Splitting at a separator loses nothing: joining the pieces with the
    separator gives the string back, and no piece holds the separator. *)
Lemma join_split_on (sep : N) (s : pystr) :
  join [sep] (split_on sep s) = s
  /\ Forall (fun piece => ~ In sep piece) (split_on sep s).
Proof.
  clear - sep s.
  induction s as [|c s [IH1 IH2]]; simpl.
  - split; [reflexivity |]. constructor; [tauto | constructor].
  - pose proof (split_on_nonempty sep s) as Hne.
    destruct (N.eqb_spec c sep) as [-> | Hc].
    + split.
      * destruct (split_on sep s) as [|p ps]; [congruence |].
        cbn [join app]. f_equal. exact IH1.
      * constructor; [tauto | exact IH2].
    + destruct (split_on sep s) as [|p ps]; [congruence |].
      apply Forall_cons in IH2 as [Hp Hps]. split.
      * destruct ps; cbn [join app] in *; now rewrite IH1.
      * constructor; [| exact Hps]. simpl. tauto.
Qed.

(** The batches, in order, make up the document list. *)
Lemma batches_concat_aux {A} (step k : nat) (documents : list A) :
  (length documents <= k * step)%nat ->
  concat (map (fun j => take step (drop (j * step) documents)) (seq 0 k))
  = documents.
Proof.
  revert documents. induction k as [|k IH]; intros documents Hlen.
  - destruct documents; [reflexivity | simpl in Hlen; lia].
  - cbn [seq map concat]. rewrite <- seq_shift, map_map.
    rewrite (map_ext _ (fun j => take step (drop (j * step) (drop step documents)))).
    + rewrite IH by (rewrite length_drop; lia).
      simpl. rewrite drop_0. apply take_drop.
    + intros j. rewrite drop_drop. reflexivity.
Qed.

Lemma range_step_bound (n step : nat) :
  (0 < step)%nat -> (n <= (n + step - 1) / step * step)%nat.
Proof.
  intros Hstep.
  pose proof (Nat.div_mod_eq (n + step - 1) step) as Hq.
  pose proof (Nat.mod_upper_bound (n + step - 1) step ltac:(lia)) as Hr.
  nia.
Qed.

Lemma batches_concat {A} (documents : list A) (step : nat) :
  (0 < step)%nat ->
  concat (map (fun i => take step (drop i documents))
              (range_step (length documents) step))
  = documents.
Proof.
  intros Hstep. unfold range_step. rewrite map_map.
  apply batches_concat_aux. now apply range_step_bound.
Qed.

(** Every batch holds at least one and at most [step] documents. *)
Lemma batches_sizes {A} (documents : list A) (step : nat) :
  (0 < step)%nat ->
  Forall (fun batch => (1 <= length batch <= step)%nat)
         (map (fun i => take step (drop i documents))
              (range_step (length documents) step)).
Proof.
  intros Hstep. apply Forall_forall. intros batch Hb.
  apply list_elem_of_In, in_map_iff in Hb as (i & <- & Hi).
  unfold range_step in Hi. apply in_map_iff in Hi as (k & <- & Hk).
  apply in_seq in Hk. rewrite length_take, length_drop.
  pose proof (Nat.div_mod_eq (length documents + step - 1) step) as Hq.
  pose proof (Nat.mod_upper_bound (length documents + step - 1) step
                ltac:(lia)) as Hr.
  nia.
Qed.

(** The batches by their number: batch [k] starts at document [1000 * k]. *)
Lemma batches_by_number {A} (documents : list A) (n : nat) :
  length documents = n ->
  map (fun i => take batch_size (drop i documents))
      (range_step (length documents) batch_size)
  = map (fun k => take 1000 (drop (k * 1000) documents))
        (seq 0 ((n + 999) / 1000)).
Proof.
  intros Hn. unfold range_step, batch_size. rewrite map_map, Hn.
  replace (n + 1000 - 1)%nat with (n + 999)%nat by lia.
  reflexivity.
Qed.

Lemma range_step_length (n step : nat) :
  length (range_step n step) = ((n + step - 1) / step)%nat.
Proof. unfold range_step. now rewrite length_map, length_seq. Qed.

(** While no batch call raises, the loop runs to its end and issues one call
    per offset, in order. *)
Lemma upload_rounds_requests (self : AzureCognitiveSearchHelper)
    (documents : list document) (offsets : list nat) (w : world) :
  (forall history name batch,
     exists accepts, upload_service history name batch = Returns accepts) ->
  exists w',
    for_each offsets tt (fun _ i => upload_batch self documents i) w
      = (Returns tt, w')
    /\ requests w' =
       requests w ++
         map (fun i => UploadCall (index_name self)
                         (take batch_size (drop i documents))) offsets.
Proof.
  intros Hok. revert w.
  induction offsets as [|i offsets IH]; intros w; cbn [for_each map].
  - exists w. unfold ret. now rewrite app_nil_r.
  - unfold bind.
    destruct (upload_batch_run self documents i w) as (w1 & Hreq & Hcase).
    destruct (Hok (requests w) (index_name self)
                  (take batch_size (drop i documents))) as [accepts Hreply].
    rewrite Hreply in Hcase. destruct Hcase as [-> _].
    destruct (IH w1) as (w' & Hrun & Hreq').
    exists w'. split; [exact Hrun |].
    rewrite Hreq', Hreq, <- app_assoc. reflexivity.
Qed.

(** When the service treats every document alike, the index after the loop
    is the index before it with the batches' documents upserted in order. *)
Lemma upload_rounds_uniform (self : AzureCognitiveSearchHelper)
    (documents : list document) (offsets : list nat) (w : world)
    (accepts : document -> bool) :
  (forall history name batch,
     upload_service history name batch = Returns accepts) ->
  index (snd (for_each offsets tt (fun _ i => upload_batch self documents i) w))
  = fold_left (upsert accepts)
      (concat (map (fun i => take batch_size (drop i documents)) offsets))
      (index w).
Proof.
  intros Hok. revert w.
  induction offsets as [|i offsets IH]; intros w; cbn [for_each map concat].
  - reflexivity.
  - unfold bind.
    destruct (upload_batch_run self documents i w) as (w1 & _ & Hcase).
    rewrite Hok in Hcase. destruct Hcase as (-> & Hidx & _).
    rewrite IH, Hidx, fold_left_app. reflexivity.
Qed.

(** When the service rejects every document, each round logs its warning
    and its progress record. *)
Lemma upload_rounds_rejecting (self : AzureCognitiveSearchHelper)
    (documents : list document) (offsets : list nat) (w : world) :
  (forall history name batch,
     upload_service history name batch = Returns (fun _ => false)) ->
  Forall (fun i => take batch_size (drop i documents) <> []) offsets ->
  logs (snd (for_each offsets tt (fun _ i => upload_batch self documents i) w))
  = logs w ++
    concat (map (fun i =>
      [ (WARNING,
         lit "Failed to upload "
           ++ str_of_nat (length (take batch_size (drop i documents)))
           ++ lit " documents in batch " ++ str_of_nat (i / batch_size + 1));
        (INFO,
         lit "Uploaded batch " ++ str_of_nat (i / batch_size + 1)
           ++ lit " (" ++ str_of_nat (length (take batch_size (drop i documents)))
           ++ lit " documents)") ]) offsets).
Proof.
  intros Hreject Hne. revert w.
  induction Hne as [|i offsets Hi Hne IH]; intros w; cbn [for_each map concat].
  - cbn. now rewrite app_nil_r.
  - unfold bind.
    destruct (upload_batch_run self documents i w) as (w1 & _ & Hcase).
    rewrite Hreject in Hcase. destruct Hcase as (-> & _ & Hlog).
    rewrite IH, Hlog. cbn [negb]. rewrite filter_true.
    destruct (take batch_size (drop i documents)) as [|d batch] eqn:Hb;
      [congruence |].
    rewrite <- !app_assoc. reflexivity.
Qed.

Lemma imap_seq_diag {B} (f : nat -> nat -> B) (n : nat) :
  imap f (seq 0 n) = map (fun k => f k k) (seq 0 n).
Proof.
  apply list_eq. intros j.
  rewrite list_lookup_imap. change (map ?g ?l) with (g <$> l).
  rewrite list_lookup_fmap.
  destruct (seq 0 n !! j) as [k|] eqn:Hk; [| reflexivity].
  apply lookup_seq in Hk as [-> _]. reflexivity.
Qed.

Lemma range_step_head (n step : nat) :
  (0 < n)%nat -> (0 < step)%nat -> exists rest, range_step n step = 0%nat :: rest.
Proof.
  intros Hn Hstep. unfold range_step.
  pose proof (range_step_bound n step Hstep) as Hb.
  destruct ((n + step - 1) / step)%nat as [|q]; [simpl in Hb; lia |].
  cbn [seq map]. eexists. reflexivity.
Qed.

(** Upserting accepted documents: an identifier that none of them carries
    is left alone, and under an identifier that some carry the last one that
    carries it is stored. *)
Lemma fold_upsert_other (batch : list document) (idx : gmap pystr document)
    (id : pystr) :
  ~ In id (map doc_id batch) ->
  fold_left (upsert (fun _ => true)) batch idx !! id = idx !! id.
Proof.
  revert idx. induction batch as [|d batch IH]; intros idx Hid; [reflexivity |].
  cbn [fold_left]. rewrite IH by (intros H; apply Hid; now right).
  unfold upsert. apply lookup_insert_ne. intros Heq. apply Hid. now left.
Qed.

Lemma fold_upsert_last (batch : list document) (idx : gmap pystr document)
    (i : nat) (d : document) :
  batch !! i = Some d ->
  (forall j d', (i < j)%nat -> batch !! j = Some d' -> doc_id d' <> doc_id d) ->
  fold_left (upsert (fun _ => true)) batch idx !! doc_id d = Some d.
Proof.
  revert idx i. induction batch as [|d0 batch IH]; intros idx i Hi Hlater;
    [discriminate |].
  cbn [fold_left]. destruct i as [|i]; cbn in Hi.
  - injection Hi as ->. rewrite fold_upsert_other.
    + unfold upsert. apply lookup_insert_eq.
    + intros Hin. apply in_map_iff in Hin as (d' & Heq & Hd').
      apply list_elem_of_In, list_elem_of_lookup in Hd' as [j Hj].
      apply (Hlater (S j) d'); [lia | exact Hj | exact Heq].
  - apply (IH _ i Hi). intros j d' Hlt Hj.
    apply (Hlater (S j) d'); [lia | exact Hj].
Qed.

Lemma fold_upsert_rejecting (batch : list document) (idx : gmap pystr document) :
  fold_left (upsert (fun _ => false)) batch idx = idx.
Proof. induction batch as [|d batch IH]; [reflexivity | exact IH]. Qed.

(** What a row that passes [row_ok] holds, and what its document takes. *)
Lemma document_of_row (row : csv_row) (now : pystr) :
  row_ok row = true ->
  let d := document_of row now in
  doc_id d = lit "faq_" ++ format_label (row_label row)
  /\ column (row_cells row) (lit "question") = Some (doc_question d)
  /\ column (row_cells row) (lit "answer") = Some (doc_answer d)
  /\ doc_tags d = match column (row_cells row) (lit "tags") with
                  | Some (Str cell) => split_on 44 cell
                  | _ => []
                  end
  /\ doc_created_at d = now ++ lit "Z".
Proof.
  unfold row_ok, document_of. cbn [doc_id doc_question doc_answer doc_tags
                                   doc_created_at].
  destruct (column (row_cells row) (lit "question")) as [q|]; [| discriminate].
  destruct (column (row_cells row) (lit "answer")) as [a|]; [| discriminate].
  intros _. repeat split.
Qed.

Lemma row_ok_false (row : csv_row) :
  column (row_cells row) (lit "question") = None
  \/ column (row_cells row) (lit "answer") = None
  \/ column (row_cells row) (lit "tags") = None
  \/ (exists type_name text,
        column (row_cells row) (lit "tags") = Some (Other type_name text)) ->
  row_ok row = false.
Proof.
  unfold row_ok.
  intros [H | [H | [H | (ty & text & H)]]]; rewrite H;
    repeat match goal with
           | |- context [match ?x with _ => _ end] => destruct x
           end; reflexivity.
Qed.

Lemma forallb_row_ok_false (df : list csv_row) (i : nat) (row : csv_row) :
  df !! i = Some row -> row_ok row = false -> forallb row_ok df = false.
Proof.
  intros Hi Hrow. destruct (forallb row_ok df) eqn:Hall; [| reflexivity].
  rewrite forallb_forall in Hall.
  rewrite (Hall row) in Hrow; [discriminate |].
  apply list_elem_of_In, list_elem_of_lookup. eauto.
Qed.

(** X12. When every row has the three columns and a tags cell that is a
    [str] or NaN, the documents prepared from a seed file follow its rows
    one for one and in order: document [i] has the identifier [faq_]
    followed by the label of row [i], the question and the answer cells of
    the row unchanged, and the time of the [i]-th clock reading followed by
    [Z]. Its tags are the pieces of the row's tags cell between commas,
    nothing trimmed or dropped (joining them with [,] gives the cell back),
    and there are none when the cell is NaN. When some row lacks a column or
    has a tags cell of another type, the loop raises and prepares
    nothing. *)
Theorem prepared_documents_follow_rows (df : list csv_row) (w : world) :
  (forallb row_ok df = true ->
   exists documents,
     fst (prepare_documents df w) = Returns documents
     /\ length documents = length df
     /\ forall i row, df !! i = Some row ->
          exists d, documents !! i = Some d
            /\ doc_id d = lit "faq_" ++ format_label (row_label row)
            /\ column (row_cells row) (lit "question") = Some (doc_question d)
            /\ column (row_cells row) (lit "answer") = Some (doc_answer d)
            /\ match column (row_cells row) (lit "tags") with
               | Some (Str cell) =>
                   join (lit ",") (doc_tags d) = cell
                   /\ Forall (fun tag => ~ In 44 tag) (doc_tags d)
               | _ => doc_tags d = []
               end
            /\ doc_created_at d
               = utcnow_isoformat (clock_reads w + i) ++ lit "Z")
  /\ (forall i row,
        df !! i = Some row ->
        column (row_cells row) (lit "question") = None
        \/ column (row_cells row) (lit "answer") = None
        \/ column (row_cells row) (lit "tags") = None
        \/ (exists type_name text,
              column (row_cells row) (lit "tags") = Some (Other type_name text)) ->
        exists e, fst (prepare_documents df w) = Raises e).
Proof.
  split.
  - intros Hok.
    destruct (prepare_documents_ok df w Hok) as (w' & Hrun & _).
    eexists. rewrite Hrun. split; [reflexivity |].
    split; [apply length_imap |].
    intros i row Hi. eexists. split.
    + rewrite list_lookup_imap, Hi. reflexivity.
    + assert (Hrow : row_ok row = true).
      { rewrite forallb_forall in Hok. apply Hok.
        apply list_elem_of_In, list_elem_of_lookup. eauto. }
      destruct (document_of_row row (utcnow_isoformat (clock_reads w + i)) Hrow)
        as (Hid & Hq & Ha & Ht & Hc).
      split; [exact Hid |]. split; [exact Hq |]. split; [exact Ha |].
      split; [| exact Hc].
      rewrite Ht.
      destruct (column (row_cells row) (lit "tags")) as [[cell| |ty text]|];
        try reflexivity.
      apply (join_split_on 44 cell).
  - intros i row Hi Hbad.
    destruct (prepare_documents_fails df w) as (e & w' & Hrun & _).
    { eapply forallb_row_ok_false; [exact Hi |]. now apply row_ok_false. }
    exists e. rewrite Hrun. reflexivity.
Qed.

(** X13. When the seed file cannot be read, [upload_faqs_from_csv] returns
    [False], logs the error, and does nothing else: no upload call is
    issued and the index is untouched. *)
Theorem upload_of_unreadable_file (self : AzureCognitiveSearchHelper)
    (csv_file_path : pystr) (w : world) (e : exn) :
  read_csv csv_file_path = Raises e ->
  upload_faqs_from_csv self csv_file_path w
  = (Returns false, add_log ERROR (lit "Error uploading FAQs: " ++ e) w).
Proof.
  intros Hcsv. unfold upload_faqs_from_csv, try_except, bind.
  rewrite Hcsv. reflexivity.
Qed.

(** X14. When every row can be prepared and no batch call raises,
    [upload_faqs_from_csv] returns [True] and the upload calls it issues
    are the consecutive batches of the prepared documents: batch [k] is the
    (up to) 1000 documents from position [1000 * k] on, so each batch holds
    between 1 and 1000 documents, the batches in order make up the document
    list, and there are [ceil(n / 1000)] of them for [n] rows (none for an
    empty file). *)
Theorem upload_sends_consecutive_batches (self : AzureCognitiveSearchHelper)
    (csv_file_path : pystr) (df : list csv_row) (w : world) :
  read_csv csv_file_path = Returns df ->
  forallb row_ok df = true ->
  (forall history name batch,
     exists accepts, upload_service history name batch = Returns accepts) ->
  exists documents batches,
    fst (prepare_documents df w) = Returns documents
    /\ fst (upload_faqs_from_csv self csv_file_path w) = Returns true
    /\ requests (snd (upload_faqs_from_csv self csv_file_path w))
       = requests w ++ map (UploadCall (index_name self)) batches
    /\ batches = map (fun k => take 1000 (drop (k * 1000) documents))
                     (seq 0 ((length df + 999) / 1000))
    /\ concat batches = documents
    /\ Forall (fun batch => (1 <= length batch <= 1000)%nat) batches
    /\ length batches = ((length df + 999) / 1000)%nat.
Proof.
  intros Hcsv Hrows Hok.
  pose proof (upload_faqs_from_csv_run self csv_file_path df w Hcsv) as Hrun.
  rewrite Hrows in Hrun.
  destruct Hrun as (documents & w1 & result & w2 & Hdocs & Hform & _ & Hreq1
                    & _ & Hloop & Hup).
  destruct (upload_rounds_requests self documents
              (range_step (length documents) batch_size) w1 Hok)
    as (w2' & Hrun & Hreq2).
  rewrite Hrun in Hloop. injection Hloop as <- <-.
  exists documents,
    (map (fun i => take batch_size (drop i documents))
         (range_step (length documents) batch_size)).
  assert (Hlen : length documents = length df).
  { rewrite Hform. apply length_imap. }
  split; [now rewrite Hdocs |]. rewrite Hup. cbn [fst snd requests add_log].
  split; [reflexivity |].
  split; [rewrite Hreq2, Hreq1, map_map; reflexivity |].
  split; [now apply batches_by_number |].
  split; [apply batches_concat; unfold batch_size; lia |].
  split; [apply (batches_sizes documents batch_size); unfold batch_size; lia |].
  rewrite length_map, range_step_length, Hlen. unfold batch_size.
  f_equal. lia.
Qed.

(** X15. When every row can be prepared and the call for the first batch
    raises, [upload_faqs_from_csv] returns [False] after that one call: the
    remaining batches are not attempted and the index is untouched. *)
Theorem upload_stops_at_failed_batch (self : AzureCognitiveSearchHelper)
    (csv_file_path : pystr) (df : list csv_row) (w : world) :
  read_csv csv_file_path = Returns df ->
  df <> [] ->
  forallb row_ok df = true ->
  (forall batch, exists e,
     upload_service (requests w) (index_name self) batch = Raises e) ->
  fst (upload_faqs_from_csv self csv_file_path w) = Returns false
  /\ index (snd (upload_faqs_from_csv self csv_file_path w)) = index w
  /\ exists batch,
       requests (snd (upload_faqs_from_csv self csv_file_path w))
       = requests w ++ [UploadCall (index_name self) batch]
       /\ length batch = Nat.min 1000 (length df).
Proof.
  intros Hcsv Hdf Hrows Hdown.
  pose proof (upload_faqs_from_csv_run self csv_file_path df w Hcsv) as Hrun.
  rewrite Hrows in Hrun.
  destruct Hrun as (documents & w1 & result & w2 & Hdocs & Hform & Hidx1 & Hreq1
                    & _ & Hloop & Hup).
  assert (Hlen : length documents = length df).
  { rewrite Hform. apply length_imap. }
  destruct (range_step_head (length documents) batch_size) as [rest Hrange].
  { rewrite Hlen. destruct df; [congruence | simpl; lia]. }
  { unfold batch_size. lia. }
  rewrite Hrange in Hloop. cbn [for_each] in Hloop. unfold bind in Hloop.
  destruct (upload_batch_run self documents 0 w1) as (w1' & Hreq' & Hcase).
  rewrite Hreq1 in Hcase.
  destruct (Hdown (take batch_size (drop 0 documents))) as [e He].
  rewrite He in Hcase. destruct Hcase as (Hrun & Hidx' & _).
  rewrite Hrun in Hloop. injection Hloop as <- <-.
  rewrite Hup. cbn [fst snd index requests add_log].
  split; [reflexivity |]. split; [now rewrite Hidx', Hidx1 |].
  eexists. split; [rewrite Hreq', Hreq1; reflexivity |].
  rewrite drop_0, length_take, Hlen. reflexivity.
Qed.

(** X16. Rejected documents do not make an upload fail: when every row can
    be prepared and the service answers every batch call but rejects each
    document, the function still returns [True] although the index holds
    nothing new. All it does about the rejections is to log, for each
    batch (batch [k] being the up to 1000 documents from position
    [1000 * k] on), a warning with the number of documents of the batch and
    the number of the batch, before the usual progress record. *)
Theorem upload_succeeds_despite_rejections (self : AzureCognitiveSearchHelper)
    (csv_file_path : pystr) (df : list csv_row) (w : world) :
  read_csv csv_file_path = Returns df ->
  forallb row_ok df = true ->
  (forall history name batch,
     upload_service history name batch = Returns (fun _ => false)) ->
  exists documents batches,
    fst (prepare_documents df w) = Returns documents
    /\ batches = map (fun k => take 1000 (drop (k * 1000) documents))
                     (seq 0 ((length df + 999) / 1000))
    /\ fst (upload_faqs_from_csv self csv_file_path w) = Returns true
    /\ index (snd (upload_faqs_from_csv self csv_file_path w)) = index w
    /\ logs (snd (upload_faqs_from_csv self csv_file_path w))
       = logs w ++
         concat (imap (fun j batch =>
           [ (WARNING,
              lit "Failed to upload " ++ str_of_nat (length batch)
                ++ lit " documents in batch " ++ str_of_nat (j + 1));
             (INFO,
              lit "Uploaded batch " ++ str_of_nat (j + 1)
                ++ lit " (" ++ str_of_nat (length batch) ++ lit " documents)") ])
           batches)
         ++ [(INFO, lit "Successfully uploaded " ++ str_of_nat (length df)
                      ++ lit " FAQ documents")].
Proof.
  intros Hcsv Hrows Hreject.
  pose proof (upload_faqs_from_csv_run self csv_file_path df w Hcsv) as Hrun.
  rewrite Hrows in Hrun.
  destruct Hrun as (documents & w1 & result & w2 & Hdocs & Hform & Hidx1 & _
                    & Hlog1 & Hloop & Hup).
  assert (Hlen : length documents = length df).
  { rewrite Hform. apply length_imap. }
  destruct (upload_rounds_requests self documents
              (range_step (length documents) batch_size) w1)
    as (w2' & Hrun & _).
  { intros h n b. eexists. apply Hreject. }
  pose proof (upload_rounds_uniform self documents
                (range_step (length documents) batch_size) w1 _ Hreject) as Hu.
  pose proof (upload_rounds_rejecting self documents
                (range_step (length documents) batch_size) w1 Hreject) as Hl.
  rewrite Hloop in Hrun, Hu, Hl. injection Hrun as -> <-. cbn [snd] in Hu, Hl.
  pose proof (batches_sizes documents batch_size ltac:(unfold batch_size; lia))
    as Hsizes.
  exists documents,
    (map (fun i => take batch_size (drop i documents))
         (range_step (length documents) batch_size)).
  split; [now rewrite Hdocs |].
  split; [now apply batches_by_number |].
  rewrite Hup. cbn [fst snd index logs add_log].
  split; [reflexivity |].
  split; [rewrite Hu, fold_upsert_rejecting; exact Hidx1 |].
  rewrite Hl, Hlog1, Hlen, <- app_assoc. do 2 f_equal.
  - unfold range_step. change (map ?g ?l) with (g <$> l).
    rewrite !imap_fmap, imap_seq_diag. change (?g <$> ?l) with (map g l).
    rewrite !map_map. f_equal. apply map_ext. intros k. cbn [compose].
    rewrite Nat.div_mul by (unfold batch_size; lia). reflexivity.
  - apply Forall_forall. intros i Hi Hempty.
    rewrite Forall_forall in Hsizes.
    specialize (Hsizes (take batch_size (drop i documents))).
    rewrite Hempty in Hsizes. cbn [length] in Hsizes.
    assert (1 <= 0 <= batch_size)%nat as [Hfalse _]; [| lia].
    apply Hsizes. apply list_elem_of_In, in_map_iff. exists i.
    split; [exact Hempty |]. now apply list_elem_of_In.
Qed.

(** X17. After an upload in which every row can be prepared and the
    service accepts every document, a row is found in the index under its
    identifier, with its question, its answer and its tags, whatever was
    stored there before, provided no later row of the file carries the same
    label: of the rows that share a label, the last one is stored. With the
    default index the labels are distinct, so every row is stored. *)
Theorem uploaded_rows_are_stored (self : AzureCognitiveSearchHelper)
    (csv_file_path : pystr) (df : list csv_row) (w : world) :
  read_csv csv_file_path = Returns df ->
  forallb row_ok df = true ->
  (forall history name batch,
     upload_service history name batch = Returns (fun _ => true)) ->
  forall i row, df !! i = Some row ->
    (forall j row', (i < j)%nat -> df !! j = Some row' ->
       format_label (row_label row') <> format_label (row_label row)) ->
    exists d,
      index (snd (upload_faqs_from_csv self csv_file_path w))
        !! (lit "faq_" ++ format_label (row_label row)) = Some d
      /\ doc_id d = lit "faq_" ++ format_label (row_label row)
      /\ column (row_cells row) (lit "question") = Some (doc_question d)
      /\ column (row_cells row) (lit "answer") = Some (doc_answer d)
      /\ doc_tags d = match column (row_cells row) (lit "tags") with
                      | Some (Str cell) => split_on 44 cell
                      | _ => []
                      end.
Proof.
  intros Hcsv Hrows Hok i row Hi Hlast.
  pose proof (upload_faqs_from_csv_run self csv_file_path df w Hcsv) as Hrun.
  rewrite Hrows in Hrun.
  destruct Hrun as (documents & w1 & result & w2 & Hdocs & Hform & Hidx1 & _
                    & _ & Hloop & Hup).
  pose proof (upload_rounds_uniform self documents
                (range_step (length documents) batch_size) w1 _ Hok) as Hu.
  rewrite Hloop in Hu. cbn [snd] in Hu.
  rewrite batches_concat in Hu by (unfold batch_size; lia).
  assert (Hrow : row_ok row = true).
  { rewrite forallb_forall in Hrows. apply Hrows.
    apply list_elem_of_In, list_elem_of_lookup. eauto. }
  set (d := document_of row (utcnow_isoformat (clock_reads w + i))).
  assert (Hd : documents !! i = Some d).
  { rewrite Hform, list_lookup_imap, Hi. reflexivity. }
  destruct (document_of_row row (utcnow_isoformat (clock_reads w + i)) Hrow)
    as (Hid & Hq & Ha & Ht & _).
  fold d in Hid, Hq, Ha, Ht.
  exists d. split; [| auto].
  assert (Hindex : index (snd (upload_faqs_from_csv self csv_file_path w))
                   = index w2).
  { rewrite Hup. destruct result; reflexivity. }
  rewrite Hindex, Hu, <- Hid.
  apply (fold_upsert_last documents (index w1) i d Hd).
  intros j d' Hlt Hj. rewrite Hform, list_lookup_imap in Hj.
  destruct (df !! j) as [row'|] eqn:Hrow'; [| discriminate].
  injection Hj as <-. cbn [document_of doc_id]. subst d. cbn [document_of doc_id].
  intros Heq. apply app_inv_head in Heq. exact (Hlast j row' Hlt Hrow' Heq).
Qed.

(** X21. When the file is read but some row cannot be prepared, because a
    column is missing or because its tags cell is neither a [str] nor NaN
    (a tags column that holds only numbers), [upload_faqs_from_csv] returns
    [False] and logs the error; no upload call is issued and the index is
    untouched. *)
Theorem upload_of_malformed_rows (self : AzureCognitiveSearchHelper)
    (csv_file_path : pystr) (df : list csv_row) (w : world)
    (i : nat) (row : csv_row) :
  read_csv csv_file_path = Returns df ->
  df !! i = Some row ->
  column (row_cells row) (lit "question") = None
  \/ column (row_cells row) (lit "answer") = None
  \/ column (row_cells row) (lit "tags") = None
  \/ (exists type_name text,
        column (row_cells row) (lit "tags") = Some (Other type_name text)) ->
  exists e,
    fst (upload_faqs_from_csv self csv_file_path w) = Returns false
    /\ requests (snd (upload_faqs_from_csv self csv_file_path w)) = requests w
    /\ index (snd (upload_faqs_from_csv self csv_file_path w)) = index w
    /\ logs (snd (upload_faqs_from_csv self csv_file_path w))
       = logs w ++ [(ERROR, lit "Error uploading FAQs: " ++ e)].
Proof.
  intros Hcsv Hi Hbad.
  pose proof (upload_faqs_from_csv_run self csv_file_path df w Hcsv) as Hrun.
  rewrite (forallb_row_ok_false df i row Hi (row_ok_false row Hbad)) in Hrun.
  destruct Hrun as (e & w1 & -> & Hidx & Hreq & Hlog).
  exists e. cbn [fst snd requests index logs add_log].
  rewrite Hlog. auto.
Qed.

(** ** Startup checks, further *)

Lemma setup_index_main_startup_run (w : world) (endpoint key name : option pystr) :
  environ w !! lit "AZURE_SEARCH_ENDPOINT" = endpoint ->
  environ w !! lit "AZURE_SEARCH_KEY" = key ->
  environ w !! lit "AZURE_SEARCH_INDEX_NAME" = name ->
  let banner :=
    [ PrintLine (128640 :: lit " Setting up Azure Cognitive Search Index for FAQ Chatbot");
      PrintLine (lit "============================================================") ] in
  let missing :=
    (if is_unset endpoint then [lit "AZURE_SEARCH_ENDPOINT"] else [])
    ++ (if is_unset key then [lit "AZURE_SEARCH_KEY"] else [])
    ++ (if is_unset name then [lit "AZURE_SEARCH_INDEX_NAME"] else []) in
  exists w',
    requests w' = requests w /\ logs w' = logs w
    /\ setup_index_main_startup w
       = (match missing with
          | [] => Returns (Some (MkSearchHelper (default [] endpoint)
                                   (default [] key) (default [] name)))
          | _ :: _ => Returns None
          end, w')
    /\ screen w' =
       screen w ++ banner ++
         match missing with
         | [] =>
             [ PrintLine (128225 :: lit " Connecting to Azure Cognitive Search...");
               PrintLine (9989 :: lit " Connected to Azure Cognitive Search") ]
         | _ :: _ =>
             [ PrintLine (10060 :: lit " Missing required environment variables: "
                          ++ join (lit ", ") missing);
               PrintLine (lit "Please set these variables in your .env file or environment.") ]
         end.
Proof.
  intros He Hk Hn banner missing. subst banner missing.
  unfold setup_index_main_startup.
  unfold bind at 1. unfold render at 1, modify at 1.
  unfold bind at 1. unfold render at 1, modify at 1.
  unfold bind at 1. rewrite missing_vars_loop.
  unfold required_vars. cbn [List.filter environ add_screen app].
  unfold pystr in *. rewrite He, Hk, Hn.
  destruct endpoint as [[|c1 e]|]; destruct key as [[|c2 k]|];
    destruct name as [[|c3 n]|]; cbn [is_unset app];
    try (unfold bind, render, modify, ret; eexists;
         split; [| split; [| split; [reflexivity |]]];
         cbn [requests logs screen add_screen]; rewrite <- ?app_assoc;
         reflexivity).
  unfold bind at 1. unfold render at 1, modify at 1.
  unfold bind at 1. rewrite create_search_helper_result.
  cbn [environ add_screen]. unfold pystr in *. rewrite He, Hk, Hn.
  cbn [is_unset orb]. unfold bind, render, modify, ret. eexists.
  split; [| split; [| split; [reflexivity |]]];
    cbn [requests logs screen add_screen]; rewrite <- ?app_assoc; reflexivity.
Qed.

(** X18. The setup script starts exactly when its three variables are set
    to non-empty strings, and then the helper it obtains holds those three
    values. Its own check is stricter than the factory's, so the branch that
    prints [Failed to create search helper] is never taken; nor does the
    startup log anything or call a remote service. *)
Theorem setup_startup_never_fails_at_the_helper (w : world) :
  exists shown,
    screen (snd (setup_index_main_startup w)) = screen w ++ shown
    /\ ~ In (PrintLine (10060 :: lit " Failed to create search helper. Please check your configuration."))
            shown
    /\ logs (snd (setup_index_main_startup w)) = logs w
    /\ requests (snd (setup_index_main_startup w)) = requests w
    /\ ((exists e k n,
           environ w !! lit "AZURE_SEARCH_ENDPOINT" = Some e /\ e <> []
           /\ environ w !! lit "AZURE_SEARCH_KEY" = Some k /\ k <> []
           /\ environ w !! lit "AZURE_SEARCH_INDEX_NAME" = Some n /\ n <> []
           /\ fst (setup_index_main_startup w)
              = Returns (Some (MkSearchHelper e k n)))
        \/ ((exists var, In var required_vars
                         /\ is_unset (environ w !! var) = true)
            /\ fst (setup_index_main_startup w) = Returns None)).
Proof.
  destruct (environ w !! lit "AZURE_SEARCH_ENDPOINT") as [[|c1 e]|] eqn:He;
    destruct (environ w !! lit "AZURE_SEARCH_KEY") as [[|c2 k]|] eqn:Hk;
    destruct (environ w !! lit "AZURE_SEARCH_INDEX_NAME") as [[|c3 n]|] eqn:Hn;
    destruct (setup_index_main_startup_run w _ _ _ He Hk Hn)
      as (w' & Hreq & Hlog & Hrun & Hscreen);
    cbn [is_unset app default] in Hrun, Hscreen;
    rewrite Hrun; cbn [fst snd]; (eexists; split; [exact Hscreen |]);
    (split; [intros H; vm_compute in H;
             repeat (destruct H as [H | H]; [discriminate H |]); exact H |]);
    (split; [exact Hlog |]); (split; [exact Hreq |]);
    try (left; eexists _, _, _; repeat split; discriminate);
    right; (split; [| reflexivity]); unfold required_vars, pystr in *;
    first [ exists (lit "AZURE_SEARCH_ENDPOINT");
            split; [left; reflexivity | rewrite He; reflexivity]
          | exists (lit "AZURE_SEARCH_KEY");
            split; [right; left; reflexivity | rewrite Hk; reflexivity]
          | exists (lit "AZURE_SEARCH_INDEX_NAME");
            split; [right; right; left; reflexivity | rewrite Hn; reflexivity] ].
Qed.

(** The loop of [test_environment_variables]: it collects the unset
    variables in the order of the dictionary and only prints. *)
Lemma test_vars_loop (vars : list (pystr * pystr)) (acc : list pystr) (w : world) :
  exists w',
    for_each vars acc
      (fun missing_vars '(var, description) =>
         value <- getenv var ;;
         if negb (is_unset value) then
           render (PrintLine (9989 :: lit " " ++ var ++ lit ": " ++ description
                              ++ lit " - Configured")) ;;
           ret missing_vars
         else
           render (PrintLine (10060 :: lit " " ++ var ++ lit ": " ++ description
                              ++ lit " - Missing")) ;;
           ret (missing_vars ++ [var])) w
    = (Returns (acc ++ List.filter (fun var => is_unset (environ w !! var))
                                   (map fst vars)), w')
    /\ environ w' = environ w /\ requests w' = requests w /\ logs w' = logs w.
Proof.
  revert acc w. induction vars as [|[var description] vars IH]; intros acc w;
    cbn [for_each map List.filter fst].
  - exists w. unfold ret. rewrite app_nil_r. auto.
  - unfold bind at 1. unfold bind at 1, getenv at 1.
    destruct (is_unset (environ w !! var)) eqn:Hv; cbn [negb];
      unfold bind at 1, render at 1, modify at 1, ret at 1.
    + destruct (IH (acc ++ [var]) (add_screen
                 (PrintLine (10060 :: lit " " ++ var ++ lit ": " ++ description
                             ++ lit " - Missing")) w))
        as (w' & Hrun & Henv & Hreq & Hlog).
      exists w'. rewrite Hrun. cbn [environ add_screen] in *.
      rewrite <- app_assoc. auto.
    + destruct (IH acc (add_screen
                 (PrintLine (9989 :: lit " " ++ var ++ lit ": " ++ description
                             ++ lit " - Configured")) w))
        as (w' & Hrun & Henv & Hreq & Hlog).
      exists w'. rewrite Hrun. cbn [environ add_screen] in *. auto.
Qed.

Lemma test_environment_variables_result (w : world) :
  exists w',
    test_environment_variables w =
    (Returns
       match List.filter (fun var => is_unset (environ w !! var))
               (map fst test_required_vars) with
       | [] => true
       | _ :: _ => false
       end, w')
    /\ requests w' = requests w /\ logs w' = logs w.
Proof.
  unfold test_environment_variables.
  unfold bind at 1. unfold render at 1, modify at 1.
  unfold bind at 1.
  destruct (test_vars_loop test_required_vars []
              (add_screen (PrintLine (128269 :: lit " Testing Environment Variables...")) w))
    as (w' & -> & _ & Hreq & Hlog).
  cbn [app environ add_screen requests logs] in *.
  destruct (List.filter _ _); unfold bind, render, modify, ret;
    eexists; (split; [reflexivity |]);
    cbn [requests logs add_screen]; auto.
Qed.

(** X19. The environment test of [test_setup.py] passes exactly when both
    helper factories will succeed: it returns [True] if and only if neither
    [create_search_helper] nor [create_openai_helper] returns [None]. The
    test itself logs nothing and calls no remote service. *)
Theorem environment_test_predicts_the_factories (w : world) :
  (fst (test_environment_variables w) = Returns true \/
   fst (test_environment_variables w) = Returns false)
  /\ (fst (test_environment_variables w) = Returns true <->
      fst (create_search_helper w) <> Returns None
      /\ fst (create_openai_helper w) <> Returns None)
  /\ requests (snd (test_environment_variables w)) = requests w
  /\ logs (snd (test_environment_variables w)) = logs w.
Proof.
  destruct (test_environment_variables_result w) as (w' & -> & Hreq & Hlog).
  rewrite create_search_helper_result, create_openai_helper_result.
  cbn [fst snd].
  split; [| split; [| auto]].
  - destruct (List.filter _ _); auto.
  - unfold test_required_vars. cbn [map fst List.filter].
    repeat match goal with
           | |- context [is_unset ?v] => destruct (is_unset v)
           end;
      cbn [fst snd orb negb]; split; try discriminate;
      try (intros _; split; discriminate);
      intros [H1 H2]; congruence.
Qed.

(** ** The session state, further *)

(** X20. [initialize_session_state] never overwrites a key that is already
    present (so a script re-run keeps the conversation and the helpers), it
    leaves all four keys present, and running it again changes nothing. *)
Theorem initialize_session_state_keeps_values (st : session_state) :
  let st' := initialize_session_state st in
  initialize_session_state st' = st'
  /\ (forall m, ss_messages st = Some m -> ss_messages st' = Some m)
  /\ (forall h, ss_search_helper st = Some h -> ss_search_helper st' = Some h)
  /\ (forall h, ss_openai_helper st = Some h -> ss_openai_helper st' = Some h)
  /\ (forall b, ss_index_created st = Some b -> ss_index_created st' = Some b)
  /\ (ss_messages st = None -> ss_messages st' = Some [])
  /\ (ss_search_helper st = None -> ss_search_helper st' = Some None)
  /\ (ss_openai_helper st = None -> ss_openai_helper st' = Some None)
  /\ (ss_index_created st = None -> ss_index_created st' = Some false).
Proof.
  destruct st as [[m|] [s|] [o|] [b|]]; cbn;
    repeat split; intros; congruence.
Qed.

End Pipeline.

(** ** The theorems at the sample inputs *)

(** Counterexample to C2 as stated: a reply whose only line begins with a
    digit and a period is returned as a suggestion, because [6.] is not one
    of the prefixes the code tests. *)
Lemma suggestions_keep_line_numbered_six :
  (exists digit tail,
     lit "6. What is Z?" = digit :: 46 :: tail /\ is_digit digit = true)
  /\ fst (suggest_related_questions
            (Sample.chat_says (lit "6. What is Z?")) elements
            Sample.openai_helper (lit "What is X?") [] Sample.w0)
     = Returns [lit "6. What is Z?"].
Proof.
  split; [| vm_compute; reflexivity].
  exists 54, (lit " What is Z?"). split; reflexivity.
Qed.

Lemma suggestions_skip_listed_markers_witness :
  fst (suggest_related_questions
         (Sample.chat_says (lit "1. What is X?" ++ nl ++ lit "- Some other line"
                              ++ nl ++ lit "What is Y?"))
         elements Sample.openai_helper (lit "What is W?")
         Sample.two_candidates Sample.w0)
  = Returns [lit "What is Y?"].
Proof.
  destruct (suggestions_skip_listed_markers
              (Sample.chat_says (lit "1. What is X?" ++ nl
                                   ++ lit "- Some other line" ++ nl
                                   ++ lit "What is Y?"))
              elements Sample.openai_helper (lit "What is W?")
              Sample.two_candidates Sample.w0)
    as (suggestions & Hrun & _ & _ & Hexample).
  rewrite Hrun. f_equal. apply (Hexample []). reflexivity.
Defined.

Lemma suggestions_stripped_nonempty_witness :
  exists suggestions,
    fst (suggest_related_questions
           (Sample.chat_says (lit "  What is Y?  " ++ nl ++ lit "   " ++ nl
                                ++ lit "How much is Z? "))
           elements Sample.openai_helper (lit "What is W?")
           Sample.two_candidates Sample.w0)
      = Returns suggestions
    /\ suggestions = [lit "What is Y?"; lit "How much is Z?"]
    /\ Forall (fun s => s <> [] /\ (forall c, head s = Some c -> isspace c = false)
                        /\ (forall c, last s = Some c -> isspace c = false))
              suggestions.
Proof.
  destruct (suggestions_stripped_nonempty
              (Sample.chat_says (lit "  What is Y?  " ++ nl ++ lit "   " ++ nl
                                   ++ lit "How much is Z? "))
              elements Sample.openai_helper (lit "What is W?")
              Sample.two_candidates Sample.w0)
    as (suggestions & Hrun & Hall).
  exists suggestions. split; [exact Hrun |]. split.
  - vm_compute in Hrun. injection Hrun as <-. reflexivity.
  - eapply Forall_impl; [exact Hall |]. intros s (H1 & H2 & H3 & _). auto.
Defined.

Lemma submit_appends_one_user_turn_witness :
  (exists answer,
     messages (snd (main_process_user_input
                      Sample.search_down Sample.chat_down Sample.clock_HM elements
                      Sample.search_helper Sample.openai_helper true
                      (lit " How do I reset my password? ") Sample.w0))
     = [ MkTurn (lit "user") (Some (lit " How do I reset my password? ")) (lit "09:00");
         MkTurn (lit "assistant") answer (lit "09:01") ])
  /\ requests (snd (main_process_user_input
                      Sample.search_down Sample.chat_down Sample.clock_HM elements
                      Sample.search_helper Sample.openai_helper true
                      (lit "   ") Sample.w0))
     = [].
Proof.
  split.
  - destruct (submit_appends_one_user_turn
                Sample.search_down Sample.chat_down Sample.clock_HM elements
                Sample.search_helper Sample.openai_helper
                (lit " How do I reset my password? ") Sample.w0)
      as (_ & Hsubmit & _).
    destruct Hsubmit as [[answer Hm] _]; [vm_compute; discriminate |].
    exists answer. exact Hm.
  - destruct (submit_appends_one_user_turn
                Sample.search_down Sample.chat_down Sample.clock_HM elements
                Sample.search_helper Sample.openai_helper
                (lit "   ") Sample.w0)
      as (_ & _ & Hblank).
    destruct Hblank as [_ Hr]; [vm_compute; reflexivity |]. exact Hr.
Defined.

Lemma search_faqs_fail_soft_witness :
  fst (search_faqs Sample.search_down Sample.search_helper
                   (lit "reset password") 3 Sample.w0) = Returns []
  /\ fst (search_faqs Sample.search_nothing Sample.search_helper
                      (lit "reset password") 3 Sample.w0) = Returns [].
Proof.
  split.
  - destruct (search_faqs_fail_soft Sample.search_down Sample.search_helper
                (lit "reset password") 3 Sample.w0) as (_ & _ & Hfail).
    apply (Hfail (lit "Service unavailable")). reflexivity.
  - destruct (search_faqs_fail_soft Sample.search_nothing Sample.search_helper
                (lit "reset password") 3 Sample.w0) as (_ & Hnone & _).
    apply Hnone. reflexivity.
Defined.

Lemma generate_answer_fail_soft_witness :
  fst (generate_answer Sample.chat_down Sample.openai_helper
                       (lit "What does it cost?") Sample.two_candidates Sample.w0)
  = Returns (Some apology)
  /\ fst (generate_answer Sample.chat_empty Sample.openai_helper
                          (lit "What does it cost?") [] Sample.w0)
     = Returns (Some apology)
  /\ fst (generate_answer (Sample.chat_says (lit "It is free."))
                          Sample.openai_helper
                          (lit "What does it cost?") Sample.two_candidates Sample.w0)
     = Returns (Some (lit "It is free.")).
Proof.
  split; [| split].
  - destruct (generate_answer_fail_soft Sample.chat_down Sample.openai_helper
                (lit "What does it cost?") Sample.two_candidates Sample.w0)
      as (_ & Hfail & _).
    apply (Hfail (lit "Rate limit exceeded")). reflexivity.
  - destruct (generate_answer_fail_soft Sample.chat_empty Sample.openai_helper
                (lit "What does it cost?") [] Sample.w0)
      as (_ & _ & Hempty & _).
    apply Hempty. reflexivity.
  - destruct (generate_answer_fail_soft (Sample.chat_says (lit "It is free."))
                Sample.openai_helper
                (lit "What does it cost?") Sample.two_candidates Sample.w0)
      as (_ & _ & _ & Hok).
    apply (Hok (lit "It is free.") []). reflexivity.
Defined.

(** Counterexample to C6 as stated. For one candidate with six distinct
    tags, the first five met are [setup], [pricing], [billing], [security]
    and [limits]; under the iteration order [elements], which lists every
    set without repetition as any order of a [set] does, the code sends
    [support], the sixth tag met, and leaves out [pricing]. So the topics
    sent are not, for every iteration order, the first five tags met. *)
Lemma topics_not_first_five_met :
  first_five_distinct_tags [Sample.six_tags]
    = [lit "setup"; lit "pricing"; lit "billing"; lit "security"; lit "limits"]
  /\ limited_topics elements [Sample.six_tags]
     = [lit "security"; lit "support"; lit "limits"; lit "setup"; lit "billing"]
  /\ ~ (forall set_iter : gset pystr -> list pystr,
          (forall s, set_iter s ≡ₚ elements s) ->
          forall relevant_faqs,
            limited_topics set_iter relevant_faqs
              ≡ₚ first_five_distinct_tags relevant_faqs).
Proof.
  assert (H1 : first_five_distinct_tags [Sample.six_tags]
    = [lit "setup"; lit "pricing"; lit "billing"; lit "security"; lit "limits"])
    by (vm_compute; reflexivity).
  assert (H2 : limited_topics elements [Sample.six_tags]
    = [lit "security"; lit "support"; lit "limits"; lit "setup"; lit "billing"])
    by (vm_compute; reflexivity).
  split; [exact H1 |]. split; [exact H2 |].
  intros H. specialize (H elements (fun s => reflexivity _) [Sample.six_tags]).
  rewrite H1, H2 in H.
  assert (Hin : In (lit "support")
                   [lit "setup"; lit "pricing"; lit "billing"; lit "security";
                    lit "limits"]).
  { eapply Permutation_in; [exact H |]. right. left. reflexivity. }
  vm_compute in Hin.
  repeat (destruct Hin as [Hin | Hin]; [discriminate Hin |]). exact Hin.
Qed.

Lemma suggestion_topics_distinct_at_most_five_witness :
  exists topics,
    requests (snd (suggest_related_questions Sample.chat_down elements
                     Sample.openai_helper (lit "What does it cost?")
                     Sample.two_candidates Sample.w0))
    = [ChatCall (suggest_request Sample.openai_helper suggest_system_prompt
          (lit "User's Question: What does it cost?" ++ nl
             ++ lit "Related Topics: " ++ join (lit ", ") topics ++ nl ++ nl
             ++ lit "Please suggest 3-5 related questions that might be helpful."))]
    /\ list_to_set topics
       = ({[ lit "setup"; lit "pricing"; lit "billing" ]} : gset pystr).
Proof.
  destruct (suggestion_topics_distinct_at_most_five Sample.chat_down elements
              (fun s => reflexivity _) Sample.openai_helper
              (lit "What does it cost?") Sample.two_candidates Sample.w0)
    as (topics & Hreq & _ & _ & _ & _ & Hexample).
  exists topics. split; [exact Hreq |]. apply Hexample. reflexivity.
Defined.

(** Counterexample to C7 as stated. For a file whose data lines have one
    field more than the header, pandas labels the rows by their first
    field: the three rows get the identifiers [faq_q1], [faq_q2], [faq_q1],
    and after an upload that the service accepts the index holds two
    documents for the three rows. So the identifier is not a function of
    the position of the row. *)
Lemma identifiers_follow_labels_not_positions :
  (exists documents,
     fst (prepare_documents Sample.clock_iso Sample2.labelled_rows Sample.w0)
       = Returns documents
     /\ map doc_id documents = [lit "faq_q1"; lit "faq_q2"; lit "faq_q1"])
  /\ size (index (snd (upload_faqs_from_csv Sample.upload_accepting
                         Sample2.read_labelled Sample.clock_iso
                         Sample.search_helper (lit "data/faqs.csv") Sample.w0)))
     = 2%nat
  /\ ~ (exists id_of_position : nat -> pystr,
          forall df w documents i d,
            fst (prepare_documents Sample.clock_iso df w) = Returns documents ->
            documents !! i = Some d ->
            doc_id d = id_of_position i).
Proof.
  split; [| split].
  - eexists. split; vm_compute; reflexivity.
  - vm_compute. reflexivity.
  - intros [id_of_position Hid].
    assert (H1 : lit "faq_q1" = id_of_position 0%nat).
    { refine (Hid Sample2.labelled_rows Sample.w0 _ 0%nat _ eq_refl eq_refl). }
    assert (H0 : lit "faq_0" = id_of_position 0%nat).
    { refine (Hid Sample.seed_rows Sample.w0 _ 0%nat _ eq_refl eq_refl). }
    rewrite <- H0 in H1. vm_compute in H1. discriminate H1.
Qed.

Lemma reupload_keeps_identifiers_witness :
  let once :=
    snd (upload_faqs_from_csv Sample.upload_accepting Sample.read_seed
           Sample.clock_iso Sample.search_helper (lit "data/faqs.csv") Sample.w0) in
  let twice :=
    snd (upload_faqs_from_csv Sample.upload_accepting Sample.read_seed
           Sample.clock_iso Sample.search_helper (lit "data/faqs.csv") once) in
  map (fun row => lit "faq_" ++ format_label (row_label row)) Sample.seed_rows
    = [lit "faq_0"; lit "faq_1"; lit "faq_2"]
  /\ dom (index once) = list_to_set [lit "faq_0"; lit "faq_1"; lit "faq_2"]
  /\ dom (index twice) = dom (index once)
  /\ size (index twice) = size (index once).
Proof.
  intros once twice.
  destruct (reupload_keeps_identifiers Sample.upload_accepting Sample.read_seed
              Sample.clock_iso Sample.search_helper (lit "data/faqs.csv")
              Sample.seed_rows eq_refl) as (_ & _ & Hdefault & _ & Htwice).
  destruct (Hdefault eq_refl) as [Hids _].
  destruct (Htwice (fun _ _ _ => eq_refl) Sample.w0) as (Hsame & Hsize & Honce).
  destruct (Honce eq_refl) as [_ Hdom].
  split; [exact Hids |].
  split; [| split; [exact Hsame | exact Hsize]].
  subst once. rewrite Hdom.
  change (dom (index Sample.w0)) with (dom (∅ : gmap pystr document)).
  rewrite dom_empty_L, (left_id_L ∅ (∪)). f_equal.
Defined.

Lemma analyze_query_intent_fallback_witness :
  fst (analyze_query_intent Sample.chat_down (option bool) Sample.loads_literal
         Sample.str_literal Sample.openai_helper
         (lit "how do  I reset my password") Sample.w0)
  = Returns (Fallback (option bool)
      {| intent := lit "general_inquiry";
         category := lit "general";
         keywords := [lit "how"; lit "do"; lit "I"; lit "reset"; lit "my";
                      lit "password"];
         complexity := lit "medium" |})
  /\ fst (analyze_query_intent (Sample.chat_says (lit "Sure! Here is the analysis."))
            (option bool) Sample.loads_literal Sample.str_literal
            Sample.openai_helper (lit "pricing") Sample.w0)
     = Returns (Fallback (option bool)
         {| intent := lit "general_inquiry";
            category := lit "general";
            keywords := [lit "pricing"];
            complexity := lit "medium" |}).
Proof.
  split.
  - destruct (analyze_query_intent_fallback Sample.chat_down (option bool)
                Sample.loads_literal Sample.str_literal Sample.openai_helper
                (lit "how do  I reset my password") Sample.w0) as (Hfail & _).
    apply (Hfail (lit "Rate limit exceeded")). reflexivity.
  - destruct (analyze_query_intent_fallback
                (Sample.chat_says (lit "Sure! Here is the analysis."))
                (option bool) Sample.loads_literal Sample.str_literal
                Sample.openai_helper (lit "pricing") Sample.w0)
      as (_ & Hparse & _).
    apply (Hparse (lit "Sure! Here is the analysis.") []
                  (lit "Expecting value: line 1 column 1 (char 0)"));
      vm_compute; reflexivity.
Defined.

(** C9 at the failing input. With the search endpoint and key set and no
    index name, the helper factory starts with the default index
    [faq-index] and reports nothing, but the setup script reports the index
    name as a missing required variable and stops before it creates the
    helper. *)
Theorem setup_script_rejects_default_index_name :
  create_search_helper Sample.w_without_index_name
  = (Returns (Some (MkSearchHelper (lit "https://faq.search.windows.net")
                                   (lit "search-key") (lit "faq-index"))),
     Sample.w_without_index_name)
  /\ fst (setup_index_main_startup Sample.w_without_index_name) = Returns None
  /\ screen (snd (setup_index_main_startup Sample.w_without_index_name))
     = [ PrintLine (128640 :: lit " Setting up Azure Cognitive Search Index for FAQ Chatbot");
         PrintLine (lit "============================================================");
         PrintLine (10060 :: lit " Missing required environment variables: AZURE_SEARCH_INDEX_NAME");
         PrintLine (lit "Please set these variables in your .env file or environment.") ].
Proof.
  split.
  - apply create_search_helper_default_index;
      try (vm_compute; reflexivity); discriminate.
  - destruct (setup_index_requires_index_name Sample.w_without_index_name
                (lit "https://faq.search.windows.net") (lit "search-key"))
      as (w' & Hrun & Hscreen & _);
      try (vm_compute; reflexivity); try discriminate.
    rewrite Hrun. split; [reflexivity | exact Hscreen].
Qed.

(** ** The further properties at the sample inputs *)

Lemma submit_issues_three_calls_in_order_witness :
  exists search answer suggest,
    requests (snd (main_process_user_input
                     Sample2.search_two (Sample.chat_says (lit "It is free."))
                     Sample.clock_HM elements
                     Sample.search_helper Sample.openai_helper true
                     (lit " What does it cost? ") Sample.w0))
    = [SearchCall search; ChatCall answer; ChatCall suggest]
    /\ search_text search = lit " What does it cost? ".
Proof.
  destruct (submit_issues_three_calls_in_order
              Sample2.search_two (Sample.chat_says (lit "It is free."))
              Sample.clock_HM elements
              Sample.search_helper Sample.openai_helper
              (lit " What does it cost? ") Sample.w0)
    as (faqs & _ & Hreq & Htext & _); [vm_compute; discriminate |].
  do 3 eexists. split; [exact Hreq | exact Htext].
Defined.

Lemma submit_without_candidates_still_answers_witness :
  In (DisplayRelevantFaqs [])
     (screen (snd (main_process_user_input
                     Sample.search_down (Sample.chat_says (lit "I do not know."))
                     Sample.clock_HM elements
                     Sample.search_helper Sample.openai_helper true
                     (lit "What does it cost?") Sample.w0)))
  /\ exists answer timestamp,
       last (messages (snd (main_process_user_input
                              Sample.search_down
                              (Sample.chat_says (lit "I do not know."))
                              Sample.clock_HM elements
                              Sample.search_helper Sample.openai_helper true
                              (lit "What does it cost?") Sample.w0)))
       = Some (MkTurn (lit "assistant") answer timestamp).
Proof.
  pose proof (submit_without_candidates_still_answers
                Sample.search_down (Sample.chat_says (lit "I do not know."))
                Sample.clock_HM elements
                Sample.search_helper Sample.openai_helper
                (lit "What does it cost?") Sample.w0) as H.
  cbv zeta in H.
  destruct H as (_ & Hscreen & Hlast).
  - vm_compute. discriminate.
  - right. eexists. reflexivity.
  - split; [exact Hscreen | exact Hlast].
Defined.

Lemma submit_with_model_down_apologizes_witness :
  messages (snd (main_process_user_input
                   Sample2.search_two Sample.chat_down Sample.clock_HM elements
                   Sample.search_helper Sample.openai_helper true
                   (lit "What does it cost?") Sample.w0))
  = [ MkTurn (lit "user") (Some (lit "What does it cost?")) (lit "09:00");
      MkTurn (lit "assistant") (Some apology) (lit "09:01") ].
Proof.
  pose proof (submit_with_model_down_apologizes
                Sample2.search_two Sample.chat_down Sample.clock_HM elements
                Sample.search_helper Sample.openai_helper
                (lit "What does it cost?") Sample.w0) as H.
  cbv zeta in H.
  destruct H as (faqs & Hmessages & _).
  - vm_compute. discriminate.
  - intros history r. eexists. reflexivity.
  - rewrite Hmessages. reflexivity.
Defined.

Lemma idle_run_changes_nothing_witness :
  main_process_user_input
    Sample2.search_two (Sample.chat_says (lit "It is free."))
    Sample.clock_HM elements Sample.search_helper Sample.openai_helper
    true (lit "   ")
    (add_message (MkTurn (lit "user") (Some (lit "Hi")) (lit "09:00")) Sample.w0)
  = (Returns tt,
     add_message (MkTurn (lit "user") (Some (lit "Hi")) (lit "09:00")) Sample.w0).
Proof.
  apply (idle_run_changes_nothing
           Sample2.search_two (Sample.chat_says (lit "It is free."))
           Sample.clock_HM elements Sample.search_helper Sample.openai_helper
           true (lit "   ")
           (add_message (MkTurn (lit "user") (Some (lit "Hi")) (lit "09:00"))
                        Sample.w0)).
  right. vm_compute. reflexivity.
Defined.

Lemma suggest_related_questions_failure_is_empty_witness :
  fst (suggest_related_questions Sample2.chat_null elements
         Sample.openai_helper (lit "What does it cost?")
         Sample.two_candidates Sample.w0)
  = Returns [].
Proof.
  pose proof (suggest_related_questions_failure_is_empty
                Sample2.chat_null elements Sample.openai_helper
                (lit "What does it cost?") Sample.two_candidates Sample.w0) as H.
  cbv zeta in H.
  destruct H as (Hrun & _); [| exact Hrun].
  right. right. exists []. reflexivity.
Defined.

Lemma generate_answer_null_content_witness :
  fst (generate_answer Sample2.chat_null Sample.openai_helper
         (lit "What does it cost?") Sample.two_candidates Sample.w0)
  = Returns None.
Proof.
  destruct (generate_answer_null_content Sample2.chat_null Sample.openai_helper
              (lit "What does it cost?") Sample.two_candidates Sample.w0 [])
    as (Hrun & _); [reflexivity | exact Hrun].
Defined.

Lemma numbered_reply_yields_no_suggestion_witness :
  fst (suggest_related_questions
         (Sample.chat_says (lit "1. What is X?" ++ nl ++ lit "2. What is Y?"
                              ++ nl ++ nl ++ lit "- What is Z?"))
         elements Sample.openai_helper (lit "What is W?")
         Sample.two_candidates Sample.w0)
  = Returns [].
Proof.
  apply (numbered_reply_yields_no_suggestion
           (Sample.chat_says (lit "1. What is X?" ++ nl ++ lit "2. What is Y?"
                                ++ nl ++ nl ++ lit "- What is Z?"))
           elements Sample.openai_helper (lit "What is W?")
           Sample.two_candidates Sample.w0
           (lit "1. What is X?" ++ nl ++ lit "2. What is Y?"
              ++ nl ++ nl ++ lit "- What is Z?") []).
  - reflexivity.
  - vm_compute.
    repeat (constructor; [first [left; reflexivity | right; reflexivity] |]).
    constructor.
Defined.

Lemma indented_line_is_retained_witness :
  In (lit "- What is Z?")
     (parse_suggestions (lit "1. What is X?" ++ nl ++ lit " - What is Z?")).
Proof.
  apply (indented_line_is_retained
           (lit "1. What is X?" ++ nl ++ lit " - What is Z?")
           (lit " - What is Z?") 32 (lit "- What is Z?")).
  - vm_compute. right. left. reflexivity.
  - reflexivity.
  - reflexivity.
  - vm_compute. discriminate.
Defined.

Lemma search_faqs_keeps_hits_in_order_witness :
  exists first second,
    fst (search_faqs Sample2.search_two Sample.search_helper
           (lit "What does it cost?") 1 Sample.w0)
    = Returns [first; second]
    /\ faq_id first = lit "faq_3"
    /\ faq_id second = lit "faq_7"
    /\ faq_tags second = []
    /\ faq_score second = MkFloat false 0 0.
Proof.
  destruct (search_faqs_keeps_hits_in_order Sample2.search_two
              Sample.search_helper (lit "What does it cost?") 1 Sample.w0 _
              eq_refl)
    as (results & Hrun & Hlen & Hall).
  destruct (Hall 0%nat _ eq_refl) as (c0 & H0 & Hid0 & _).
  destruct (Hall 1%nat _ eq_refl) as (c1 & H1 & Hid1 & _ & _ & Htags1 & Hscore1).
  destruct results as [|r0 [|r1 [|r2 results]]]; try discriminate Hlen.
  injection H0 as ->. injection H1 as ->.
  exists c0, c1. repeat split; assumption.
Defined.

Lemma upload_of_unreadable_file_witness :
  upload_faqs_from_csv Sample.upload_accepting Sample2.read_missing
    Sample.clock_iso Sample.search_helper (lit "data/faqs.csv") Sample.w0
  = (Returns false,
     add_log ERROR
       (lit "Error uploading FAQs: [Errno 2] No such file or directory: 'data/faqs.csv'")
       Sample.w0).
Proof.
  apply (upload_of_unreadable_file Sample.upload_accepting Sample2.read_missing
           Sample.clock_iso Sample.search_helper (lit "data/faqs.csv") Sample.w0
           (lit "[Errno 2] No such file or directory: 'data/faqs.csv'")).
  reflexivity.
Defined.

Lemma prepared_documents_follow_rows_witness :
  (exists first second third,
     fst (prepare_documents Sample.clock_iso Sample2.labelled_rows Sample.w0)
       = Returns [first; second; third]
     /\ doc_id third = lit "faq_q1"
     /\ doc_question third = Str (lit "Who do I call?")
     /\ doc_tags third = [])
  /\ exists e,
       fst (prepare_documents Sample.clock_iso Sample2.numeric_tags_rows
              Sample.w0) = Raises e.
Proof.
  destruct (prepared_documents_follow_rows Sample.clock_iso
              Sample2.labelled_rows Sample.w0) as [Hgood _].
  destruct (prepared_documents_follow_rows Sample.clock_iso
              Sample2.numeric_tags_rows Sample.w0) as [_ Hbad].
  split.
  - destruct (Hgood eq_refl) as (documents & Hrun & Hlen & Hall).
    destruct (Hall 2%nat _ eq_refl) as (d & Hd & Hid & Hq & _ & Ht & _).
    destruct documents as [|d0 [|d1 [|d2 [|d3 documents]]]];
      try discriminate Hlen.
    injection Hd as ->. injection Hq as Hq.
    exists d0, d1, d. split; [exact Hrun |]. split; [exact Hid |].
    split; [symmetry; exact Hq | exact Ht].
  - apply (Hbad 0%nat _ eq_refl). right. right. right.
    exists (lit "int"), (lit "1"). reflexivity.
Defined.

Lemma upload_sends_consecutive_batches_witness :
  exists batch,
    requests (snd (upload_faqs_from_csv Sample.upload_accepting Sample.read_seed
                     Sample.clock_iso Sample.search_helper
                     (lit "data/faqs.csv") Sample.w0))
    = [UploadCall (lit "faq-index") batch]
    /\ length batch = 3%nat.
Proof.
  destruct (upload_sends_consecutive_batches Sample.upload_accepting
              Sample.read_seed Sample.clock_iso Sample.search_helper
              (lit "data/faqs.csv") Sample.seed_rows Sample.w0 eq_refl eq_refl)
    as (documents & batches & Hdocs & _ & Hreq & Hbatches & _ & _ & _).
  - intros history name batch. eexists. reflexivity.
  - vm_compute in Hdocs. injection Hdocs as <-. subst batches.
    eexists. split; [exact Hreq | reflexivity].
Defined.

Lemma upload_stops_at_failed_batch_witness :
  fst (upload_faqs_from_csv Sample2.upload_down Sample.read_seed
         Sample.clock_iso Sample.search_helper (lit "data/faqs.csv") Sample.w0)
  = Returns false
  /\ index (snd (upload_faqs_from_csv Sample2.upload_down Sample.read_seed
                   Sample.clock_iso Sample.search_helper
                   (lit "data/faqs.csv") Sample.w0))
     = ∅.
Proof.
  destruct (upload_stops_at_failed_batch Sample2.upload_down Sample.read_seed
              Sample.clock_iso Sample.search_helper (lit "data/faqs.csv")
              Sample.seed_rows Sample.w0 eq_refl)
    as (Hrun & Hindex & _).
  - discriminate.
  - reflexivity.
  - intros batch. eexists. reflexivity.
  - split; [exact Hrun | exact Hindex].
Defined.

Lemma upload_succeeds_despite_rejections_witness :
  fst (upload_faqs_from_csv Sample2.upload_rejecting Sample.read_seed
         Sample.clock_iso Sample.search_helper (lit "data/faqs.csv") Sample.w0)
  = Returns true
  /\ index (snd (upload_faqs_from_csv Sample2.upload_rejecting Sample.read_seed
                   Sample.clock_iso Sample.search_helper
                   (lit "data/faqs.csv") Sample.w0))
     = ∅
  /\ logs (snd (upload_faqs_from_csv Sample2.upload_rejecting Sample.read_seed
                  Sample.clock_iso Sample.search_helper
                  (lit "data/faqs.csv") Sample.w0))
     = [ (WARNING, lit "Failed to upload 3 documents in batch 1");
         (INFO, lit "Uploaded batch 1 (3 documents)");
         (INFO, lit "Successfully uploaded 3 FAQ documents") ].
Proof.
  destruct (upload_succeeds_despite_rejections Sample2.upload_rejecting
              Sample.read_seed Sample.clock_iso Sample.search_helper
              (lit "data/faqs.csv") Sample.seed_rows Sample.w0 eq_refl eq_refl
              (fun _ _ _ => eq_refl))
    as (documents & batches & Hdocs & Hbatches & Hrun & Hindex & Hlogs).
  split; [exact Hrun |]. split; [exact Hindex |].
  rewrite Hlogs, Hbatches. vm_compute in Hdocs. injection Hdocs as <-.
  vm_compute. reflexivity.
Defined.

Lemma uploaded_rows_are_stored_witness :
  exists d,
    index (snd (upload_faqs_from_csv Sample.upload_accepting
                  Sample2.read_labelled Sample.clock_iso Sample.search_helper
                  (lit "data/faqs.csv") Sample.w0))
      !! lit "faq_q1" = Some d
    /\ doc_question d = Str (lit "Who do I call?")
    /\ doc_answer d = Str (lit "Support.")
    /\ doc_tags d = [].
Proof.
  destruct (uploaded_rows_are_stored Sample.upload_accepting
              Sample2.read_labelled Sample.clock_iso Sample.search_helper
              (lit "data/faqs.csv") Sample2.labelled_rows Sample.w0
              eq_refl eq_refl (fun _ _ _ => eq_refl) 2%nat _ eq_refl)
    as (d & Hd & _ & Hq & Ha & Ht).
  - intros [|[|[|j]]] row' Hlt Hj; try lia; discriminate Hj.
  - injection Hq as Hq. injection Ha as Ha.
    exists d. split; [exact Hd |]. split; [symmetry; exact Hq |].
    split; [symmetry; exact Ha | exact Ht].
Defined.

Lemma upload_of_malformed_rows_witness :
  fst (upload_faqs_from_csv Sample.upload_accepting Sample2.read_numeric_tags
         Sample.clock_iso Sample.search_helper (lit "data/faqs.csv") Sample.w0)
  = Returns false
  /\ requests (snd (upload_faqs_from_csv Sample.upload_accepting
                      Sample2.read_numeric_tags Sample.clock_iso
                      Sample.search_helper (lit "data/faqs.csv") Sample.w0))
     = [].
Proof.
  destruct (upload_of_malformed_rows Sample.upload_accepting
              Sample2.read_numeric_tags Sample.clock_iso Sample.search_helper
              (lit "data/faqs.csv") Sample2.numeric_tags_rows Sample.w0
              0%nat _ eq_refl eq_refl)
    as (e & Hrun & Hreq & _).
  - right. right. right. exists (lit "int"), (lit "1"). reflexivity.
  - split; [exact Hrun | exact Hreq].
Defined.

(** An index name set to the empty string: the factory keeps it, where the
    setup script reports the variable as missing. *)
Example create_search_helper_empty_index_name :
  fst (create_search_helper Sample2.w_empty_index_name)
  = Returns (Some (MkSearchHelper (lit "https://faq.search.windows.net")
                                  (lit "search-key") []))
  /\ fst (setup_index_main_startup Sample2.w_empty_index_name) = Returns None.
Proof. split; vm_compute; reflexivity. Qed.

(** The environment test on a complete environment and on one without the
    variables of the completion service. *)
Example test_environment_variables_samples :
  fst (test_environment_variables Sample2.w_complete) = Returns true
  /\ fst (test_environment_variables Sample.w_without_index_name) = Returns false.
Proof. split; vm_compute; reflexivity. Qed.

(** A re-run of the script during a conversation fills in the one absent
    key and keeps the others. *)
Example initialize_session_state_running :
  initialize_session_state Sample2.session_running
  = {| ss_messages := Some [MkTurn (lit "user") (Some (lit "Hi")) (lit "09:00")];
       ss_search_helper := Some (Some Sample.search_helper);
       ss_openai_helper := Some None;
       ss_index_created := Some true |}.
Proof. reflexivity. Qed.
